(** * Docker monitor: the two variants [monitor.py] and [monitorfree.py]

    A shallow embedding of the two scripts and of the Python built-ins
    they call, followed by the properties of the render cycle:
    size and percentage normalisation, bar rendering, the data-source
    queries, the summary counts, the empty-state panels and the start-up
    availability check.

    Conventions of the embedding
    - a Python [str] is the list of its code points ([N]);
    - a Python [float] is an IEEE-754 binary64 value, written with the
      specification floats of the standard library ([spec_float] at
      precision 53 and maximal exponent 1024);
    - a Python [int] is a [Z];
    - a call that may raise returns a [result]: [Ok v] or [Raise e];
    - what a script prints is the list of the lines it printed;
    - memory runs out in one place only, where the length of a string
      comes from the data: [str * n] raises MemoryError beyond
      [STRING_MAX] characters. *)

From Stdlib Require Import ZArith NArith List Bool Lia.
From Stdlib Require Import Strings.String Strings.Ascii.
From Stdlib Require Import Floats.SpecFloat.
Import ListNotations.

Local Open Scope Z_scope.

(** ** Exceptions and results *)

Inductive exn : Type :=
| ValueError
| TypeError
| KeyError
| AttributeError
| OverflowError
| MemoryError
| ZeroDivisionError
| CalledProcessError
| FileNotFoundError
| JSONDecodeError
| NotRenderableError
| KeyboardInterrupt.

Inductive result (A : Type) : Type :=
| Ok (v : A)
| Raise (e : exn).

Arguments Ok {A} v.
Arguments Raise {A} e.

Definition bind {A B : Type} (r : result A) (k : A -> result B) : result B :=
  match r with
  | Ok v => k v
  | Raise e => Raise e
  end.

Notation "x <- r ;; k" := (bind r (fun x => k))
  (at level 61, r at next level, right associativity).

(** [for x in xs: body(x)], collecting what each iteration yields; the
    first iteration that raises ends the loop. *)
Fixpoint mapM {A B : Type} (f : A -> result B) (xs : list A) : result (list B) :=
  match xs with
  | [] => Ok []
  | x :: rest =>
      y <- f x ;;
      ys <- mapM f rest ;;
      Ok (y :: ys)
  end.

Definition returns {A : Type} (r : result A) : Prop :=
  exists v, r = Ok v.

(** ** Strings *)

Definition char := N.
Definition str := list char.

(** Decoding of the UTF-8 bytes of a literal of this file into code points. *)
Fixpoint utf8_decode (fuel : nat) (bs : list N) : str :=
  match fuel with
  | O => []
  | S fuel' =>
      match bs with
      | [] => []
      | b0 :: r0 =>
          if (b0 <? 128)%N then b0 :: utf8_decode fuel' r0
          else if (b0 <? 224)%N then
            match r0 with
            | b1 :: r1 =>
                ((b0 - 192) * 64 + (b1 - 128))%N :: utf8_decode fuel' r1
            | _ => []
            end
          else if (b0 <? 240)%N then
            match r0 with
            | b1 :: b2 :: r2 =>
                ((b0 - 224) * 4096 + (b1 - 128) * 64 + (b2 - 128))%N
                  :: utf8_decode fuel' r2
            | _ => []
            end
          else
            match r0 with
            | b1 :: b2 :: b3 :: r3 =>
                ((b0 - 240) * 262144 + (b1 - 128) * 4096
                 + (b2 - 128) * 64 + (b3 - 128))%N
                  :: utf8_decode fuel' r3
            | _ => []
            end
      end
  end.

Definition u (s : string) : str :=
  let bs := List.map N_of_ascii (list_ascii_of_string s) in
  utf8_decode (List.length bs) bs.

Definition str_eqb (a b : str) : bool :=
  if list_eq_dec N.eq_dec a b then true else false.

(** [str.isspace] on one character: the white-space code points of
    CPython's Unicode database. *)
Definition is_space (c : char) : bool :=
  ((9 <=? c) && (c <=? 13) || (28 <=? c) && (c <=? 32)
   || (c =? 133) || (c =? 160) || (c =? 5760)
   || (8192 <=? c) && (c <=? 8202) || (c =? 8232) || (c =? 8233)
   || (c =? 8239) || (c =? 8287) || (c =? 12288))%N.

Fixpoint lstrip_by (p : char -> bool) (s : str) : str :=
  match s with
  | [] => []
  | c :: rest => if p c then lstrip_by p rest else s
  end.

Definition rstrip_by (p : char -> bool) (s : str) : str :=
  rev (lstrip_by p (rev s)).

(** [s.strip()] *)
Definition strip (s : str) : str :=
  rstrip_by is_space (lstrip_by is_space s).

(** [s.rstrip(chars)] *)
Definition rstrip_chars (chars : str) (s : str) : str :=
  rstrip_by (fun c => existsb (N.eqb c) chars) s.

Fixpoint starts_with (pre s : str) : bool :=
  match pre, s with
  | [], _ => true
  | _ :: _, [] => false
  | a :: pre', b :: s' => (a =? b)%N && starts_with pre' s'
  end.

(** [sub in s] *)
Fixpoint contains (sub s : str) : bool :=
  starts_with sub s ||
  match s with
  | [] => false
  | _ :: rest => contains sub rest
  end.

(** [s.replace(old, new)] for a non-empty [old]: the occurrences are
    found from left to right and do not overlap. [skip] counts the
    characters of the occurrence just found that are still to be dropped. *)
Fixpoint replace_skipping (old new s : str) (skip : nat) : str :=
  match s with
  | [] => []
  | c :: rest =>
      match skip with
      | S k => replace_skipping old new rest k
      | O =>
          if starts_with old s
          then new ++ replace_skipping old new rest (List.length old - 1)
          else c :: replace_skipping old new rest 0
      end
  end.

Definition replace (old new s : str) : str := replace_skipping old new s 0.

(** [s.split(sep)] for a one-character separator. *)
Fixpoint split_on (sep : char) (s : str) : list str :=
  match s with
  | [] => [[]]
  | c :: rest =>
      if (c =? sep)%N then [] :: split_on sep rest
      else match split_on sep rest with
           | [] => [[c]]
           | w :: ws => (c :: w) :: ws
           end
  end.

(** [s[:n]] *)
Definition slice_to (n : nat) (s : str) : str := firstn n s.

(** [format(s, '<n')]: pad on the right with spaces up to [n] characters. *)
Definition ljust (n : nat) (s : str) : str :=
  s ++ repeat 32%N (n - List.length s).

(** [format(s, '>n')] *)
Definition rjust (n : nat) (s : str) : str :=
  repeat 32%N (n - List.length s) ++ s.

(** [n] copies of [s] in a row, none when [n] is not positive. *)
Definition copies (s : str) (n : Z) : str :=
  List.concat (repeat s (Z.to_nat n)).

(** The largest index of CPython on a 64-bit machine ([sys.maxsize]). *)
Definition INDEX_MAX : Z := 2 ^ 63 - 1.

(** The longest string the machine of the model can hold. Where the
    memory of a real machine ends depends on the machine: the bound is
    taken low, and the properties that say a string is built are about
    strings that are far shorter. *)
Definition STRING_MAX : Z := 2 ^ 31 - 1.

(** [s * n] for an integer [n]. A count that does not fit an index
    raises OverflowError; a count that is not positive gives the empty
    string; a result longer than an index can tell raises
    OverflowError, and one that does not fit the memory MemoryError. *)
Definition str_mul (s : str) (n : Z) : result str :=
  if (n <? - INDEX_MAX - 1) || (INDEX_MAX <? n) then Raise OverflowError
  else if n <=? 0 then Ok []
  else if INDEX_MAX / n <? Z.of_nat (List.length s) then Raise OverflowError
  else if STRING_MAX <? n * Z.of_nat (List.length s) then Raise MemoryError
  else Ok (copies s n).

(** [str(n)] for an integer. *)
Fixpoint uint_chars (d : Decimal.uint) : str :=
  match d with
  | Decimal.Nil => []
  | Decimal.D0 d' => 48%N :: uint_chars d'
  | Decimal.D1 d' => 49%N :: uint_chars d'
  | Decimal.D2 d' => 50%N :: uint_chars d'
  | Decimal.D3 d' => 51%N :: uint_chars d'
  | Decimal.D4 d' => 52%N :: uint_chars d'
  | Decimal.D5 d' => 53%N :: uint_chars d'
  | Decimal.D6 d' => 54%N :: uint_chars d'
  | Decimal.D7 d' => 55%N :: uint_chars d'
  | Decimal.D8 d' => 56%N :: uint_chars d'
  | Decimal.D9 d' => 57%N :: uint_chars d'
  end.

Definition str_of_nat (n : N) : str := uint_chars (N.to_uint n).

Definition str_of_int (n : Z) : str :=
  if n <? 0 then 45%N :: str_of_nat (Z.to_N (- n)) else str_of_nat (Z.to_N n).

(** ** Floats *)

Definition prec : Z := 53.
Definition emax : Z := 1024.

Definition float := spec_float.

Definition fmul : float -> float -> float := SFmul prec emax.
Definition fdiv : float -> float -> float := SFdiv prec emax.
Definition flt : float -> float -> bool := SFltb.
Definition fle : float -> float -> bool := SFleb.
Definition feq : float -> float -> bool := SFeqb.

(** The floats Python can hold: binary64 values in canonical form. *)
Definition is_float (x : float) : Prop := valid_binary prec emax x = true.

Definition fzero : float := S754_zero false.

(** [float(n)] for an integer [n]: the nearest float, ties to even. *)
Definition float_of_int (n : Z) : result float :=
  match binary_normalize prec emax n 0 false with
  | S754_infinity _ => Raise OverflowError
  | x => Ok x
  end.

(** The float of an integer constant of the source. *)
Definition fconst (n : Z) : float := binary_normalize prec emax n 0 false.

(** [a * b] *)
Definition py_mul (a b : float) : float := fmul a b.

(** [a / b]: division by a zero raises. *)
Definition py_truediv (a b : float) : result float :=
  match b with
  | S754_zero _ => Raise ZeroDivisionError
  | _ => Ok (fdiv a b)
  end.

(** [a < b] and [a > b] *)
Definition py_lt (a b : float) : bool := flt a b.
Definition py_gt (a b : float) : bool := flt b a.

(** [int(x)]: truncation towards zero. *)
Definition int_of_float (x : float) : result Z :=
  match x with
  | S754_nan => Raise ValueError
  | S754_infinity _ => Raise OverflowError
  | S754_zero _ => Ok 0
  | S754_finite s m e => Ok (cond_Zopp s (Z.shiftl (Zpos m) e))
  end.

(** [max(xs)] for a non-empty sequence: the first element is the
    candidate, a later element replaces it when it compares greater. *)
Definition py_max (xs : list float) : result float :=
  match xs with
  | [] => Raise ValueError
  | x :: rest => Ok (fold_left (fun best y => if py_gt y best then y else best) rest x)
  end.

(** *** [float(s)] for a string *)

Definition is_digit (c : char) : bool := ((48 <=? c) && (c <=? 57))%N.

(** White space that [float] drops at both ends: the C white space, and
    the Unicode white space outside ASCII. *)
Definition float_space (c : char) : bool :=
  ((9 <=? c) && (c <=? 13) || (c =? 32) || (127 <=? c) && is_space c)%N.

Definition to_lower (c : char) : char :=
  if ((65 <=? c) && (c <=? 90))%N then (c + 32)%N else c.

(** An underscore is allowed only between two digits; [None] when one is
    misplaced, otherwise the string without its underscores. *)
Fixpoint drop_underscores (prev : char) (s : str) : option str :=
  match s with
  | [] => if (prev =? 95)%N then None else Some []
  | c :: rest =>
      if (c =? 95)%N then
        if is_digit prev then drop_underscores c rest else None
      else if (prev =? 95)%N && negb (is_digit c) then None
      else option_map (cons c) (drop_underscores c rest)
  end.

Fixpoint take_digits (s : str) : str * str :=
  match s with
  | c :: rest =>
      if is_digit c then let (ds, r) := take_digits rest in (c :: ds, r)
      else ([], s)
  | [] => ([], [])
  end.

Definition digits_value (ds : str) : Z :=
  fold_left (fun acc c => acc * 10 + (Z.of_N c - 48)) ds 0.

Definition take_sign (s : str) : bool * str :=
  match s with
  | 45%N :: rest => (true, rest)
  | 43%N :: rest => (false, rest)
  | _ => (false, s)
  end.

(** What may follow the digits: nothing, or [e] or [E], an optional sign
    and at least one digit. *)
Definition parse_exponent (s : str) : option Z :=
  match s with
  | [] => Some 0
  | c :: rest =>
      if (to_lower c =? 101)%N then
        let (neg, r) := take_sign rest in
        match take_digits r with
        | ((_ :: _) as ds, []) => Some (cond_Zopp neg (digits_value ds))
        | _ => None
        end
      else None
  end.

(** A decimal number as its digits [m] and decimal exponent [e]: [m * 10^e]. *)
Definition parse_decimal (s : str) : option (Z * Z) :=
  let (ip, r1) := take_digits s in
  let (fp, r2) := match r1 with
                  | 46%N :: r => take_digits r
                  | _ => ([], r1)
                  end in
  match ip ++ fp with
  | [] => None
  | ds =>
      match parse_exponent r2 with
      | Some e => Some (digits_value ds, e - Z.of_nat (List.length fp))
      | None => None
      end
  end.

(** The float nearest to [(-1)^neg * m * 10^e], ties to even. *)
Definition decimal_to_float (neg : bool) (m e : Z) : float :=
  match m with
  | Zpos p =>
      if 0 <=? e then binary_normalize prec emax (cond_Zopp neg (m * 10 ^ e)) 0 false
      else fdiv (S754_finite neg p 0) (S754_finite false (Z.to_pos (10 ^ (- e))) 0)
  | _ => S754_zero neg
  end.

Definition parse_float_body (s : str) : option float :=
  let (neg, r) := take_sign s in
  let low := List.map to_lower r in
  if str_eqb low (u "inf") || str_eqb low (u "infinity") then Some (S754_infinity neg)
  else if str_eqb low (u "nan") then Some S754_nan
  else match parse_decimal r with
       | Some (m, e) => Some (decimal_to_float neg m e)
       | None => None
       end.

(** [float(s)]: decimal digits outside ASCII are not recognised here. *)
Definition py_float (s : str) : result float :=
  let s1 := rstrip_by float_space (lstrip_by float_space s) in
  match drop_underscores 0%N s1 with
  | None => Raise ValueError
  | Some s2 =>
      match parse_float_body s2 with
      | Some x => Ok x
      | None => Raise ValueError
      end
  end.

(** *** [format(x, '5.1f')] *)

(** [num / den] rounded to the nearest integer, ties to even. *)
Definition round_half_even (num den : Z) : Z :=
  let q := num / den in
  match 2 * (num mod den) ?= den with
  | Lt => q
  | Gt => q + 1
  | Eq => if Z.even q then q else q + 1
  end.

(** [|m * 2^e| * 10] rounded to an integer. *)
Definition tenths (m : positive) (e : Z) : Z :=
  if 0 <=? e then Zpos m * 2 ^ e * 10
  else round_half_even (Zpos m * 10) (2 ^ (- e)).

Definition format_1f (x : float) : str :=
  match x with
  | S754_nan => u "nan"
  | S754_infinity s => if s then u "-inf" else u "inf"
  | S754_zero s => if s then u "-0.0" else u "0.0"
  | S754_finite s m e =>
      let t := tenths m e in
      (if s then u "-" else []) ++ str_of_int (t / 10) ++ u "." ++ str_of_int (t mod 10)
  end.

Definition format_5_1f (x : float) : str := rjust 5 (format_1f x).

(** ** Decoded JSON values *)

#[local] Set Warnings "-register-all".

Inductive json : Type :=
| JNull
| JBool (b : bool)
| JInt (n : Z)
| JFloat (x : float)
| JStr (s : str)
| JList (items : list json)
| JDict (fields : list (str * json)).

Fixpoint dict_get (key : str) (fields : list (str * json)) : option json :=
  match fields with
  | [] => None
  | (k, v) :: rest => if str_eqb k key then Some v else dict_get key rest
  end.

(** [v[key]] for a string key. *)
Definition getitem (v : json) (key : str) : result json :=
  match v with
  | JDict fields =>
      match dict_get key fields with
      | Some x => Ok x
      | None => Raise KeyError
      end
  | _ => Raise TypeError
  end.

(** [v == s] for a string literal [s]. *)
Definition eq_str (v : json) (s : str) : bool :=
  match v with
  | JStr t => str_eqb t s
  | _ => false
  end.

(** The receiver of a string method: only a string has the method. *)
Definition str_method (v : json) : result str :=
  match v with
  | JStr s => Ok s
  | _ => Raise AttributeError
  end.

(** [v[:n]]: strings and lists can be sliced. *)
Definition py_slice_to (v : json) (n : nat) : result json :=
  match v with
  | JStr s => Ok (JStr (slice_to n s))
  | JList items => Ok (JList (firstn n items))
  | _ => Raise TypeError
  end.

(** ** The runtime data source (the same text in both scripts) *)

(** What running a command gives: it exits with a status and its
    captured output, or the call itself raises (no such program, an
    interrupt, output that is not text). *)
Inductive process : Type :=
| Exited (returncode : Z) (stdout : str)
| NotRun (e : exn).

Definition command := list str.
Definition runtime := command -> process.

(** [subprocess.run(cmd, capture_output=True, text=True, check=True).stdout] *)
Definition subprocess_run (rt : runtime) (cmd : command) : result str :=
  match rt cmd with
  | NotRun e => Raise e
  | Exited rc out => if rc =? 0 then Ok out else Raise CalledProcessError
  end.

Definition nonempty (s : str) : bool :=
  match s with
  | [] => false
  | _ => true
  end.

Definition images_command : command :=
  [u "docker"; u "images"; u "--format"; u "{{json .}}"].

Definition containers_command : command :=
  [u "docker"; u "ps"; u "-a"; u "--format"; u "{{json .}}"].

Definition stats_command : command :=
  [u "docker"; u "stats"; u "--no-stream"; u "--format"; u "{{json .}}"].

Definition version_command : command := [u "docker"; u "version"].

Section DataSource.

(** [json.loads]: [Raise JSONDecodeError] on text that is not JSON. *)
Variable json_loads : str -> result json.

(** The body of the [try] of the three queries. *)
Definition query_body (rt : runtime) (cmd : command) : result (list json) :=
  out <- subprocess_run rt cmd ;;
  mapM json_loads (filter nonempty (split_on 10%N (strip out))).

(** [try: ... except: return []] *)
Definition query (rt : runtime) (cmd : command) : list json :=
  match query_body rt cmd with
  | Ok records => records
  | Raise _ => []
  end.

Definition get_docker_images (rt : runtime) : list json :=
  query rt images_command.

Definition get_docker_containers (rt : runtime) : list json :=
  query rt containers_command.

Definition get_container_stats (rt : runtime) : list json :=
  query rt stats_command.

End DataSource.

(** ** Size normalisation (the same text in both scripts) *)

Definition parse_size (size_str : str) : result float :=
  let size_str := strip size_str in
  if contains (u "GB") size_str then
    x <- py_float (replace (u "GB") [] size_str) ;;
    Ok (py_mul x (fconst 1024))
  else if contains (u "MB") size_str then
    py_float (replace (u "MB") [] size_str)
  else if contains (u "KB") size_str then
    x <- py_float (replace (u "KB") [] size_str) ;;
    py_truediv x (fconst 1024)
  else Ok fzero.

(** [float(s.rstrip('%'))], the percentage of a stats record. *)
Definition parse_percent (display : str) : result float :=
  py_float (rstrip_chars (u "%") display).

(** ** Output and control *)

(** A computation that prints: what it printed, and what it returned or
    raised. What was printed before an exception stays printed. *)
Definition io (E A : Type) : Type := list E * result A.

Definition io_bind {E A B : Type} (m : io E A) (k : A -> io E B) : io E B :=
  match m with
  | (out, Ok v) => let (out', r) := k v in (out ++ out', r)
  | (out, Raise e) => (out, Raise e)
  end.

Definition lift {E A : Type} (r : result A) : io E A := ([], r).

Notation "x <~ m ;; k" := (io_bind m (fun x => k))
  (at level 61, m at next level, right associativity).
Notation "m ;;; k" := (io_bind m (fun _ => k))
  (at level 61, right associativity).

(** [for x in xs: body(x)] for a body that prints. *)
Fixpoint for_each {E A : Type} (body : A -> io E unit) (xs : list A) : io E unit :=
  match xs with
  | [] => ([], Ok tt)
  | x :: rest => body x ;;; for_each body rest
  end.

(** How a run of a script ends: [main] returned (exit status 0), an
    exception reached the top level (traceback, exit status 1), or the
    script is still looping when the observed cycles are over. *)
Inductive outcome : Type :=
| Returned
| Crashed (e : exn)
| Running.

Definition exit_status (o : outcome) : option Z :=
  match o with
  | Returned => Some 0
  | Crashed _ => Some 1
  | Running => None
  end.

(** One turn of the main loop as the environment decides it: what the
    runtime answers, and whether Ctrl+C arrives during the sleep. *)
Record cycle : Type := {
  cycle_runtime : runtime;
  cycle_interrupted : bool
}.

(** The environment of a run: the runtime at start-up, then one entry
    for each turn of the loop that is observed. *)
Record world : Type := {
  startup : runtime;
  cycles : list cycle
}.

(** [subprocess.run(["docker", "version"], capture_output=True, check=True)] *)
Definition docker_version (rt : runtime) : result str :=
  subprocess_run rt version_command.

(** Fields of the records, as the display code reads them. *)
Definition field (record : json) (key : string) : result json :=
  getitem record (u key).

(** [record[key][:n]] *)
Definition field_slice (record : json) (key : string) (n : nat) : result json :=
  v <- field record key ;;
  py_slice_to v n.

(** [sum(1 for c in containers if c['State'] == 'running')] *)
Fixpoint count_running (containers : list json) : result Z :=
  match containers with
  | [] => Ok 0
  | c :: rest =>
      state <- field c "State" ;;
      n <- count_running rest ;;
      Ok ((if eq_str state (u "running") then 1 else 0) + n)
  end.

(** The four counts of the summary: [len(images)], [len(containers)],
    [running] and [stopped = len(containers) - running]. *)
Record summary_counts : Type := {
  imageCount : Z;
  containerCount : Z;
  runningCount : Z;
  stoppedCount : Z
}.

Definition summarize (images containers : list json) : result summary_counts :=
  running <- count_running containers ;;
  let stopped := Z.of_nat (List.length containers) - running in
  Ok {| imageCount := Z.of_nat (List.length images);
        containerCount := Z.of_nat (List.length containers);
        runningCount := running;
        stoppedCount := stopped |}.

(** [parse_size(img['Size'])] *)
Definition image_size (img : json) : result float :=
  v <- field img "Size" ;;
  s <- str_method v ;;
  parse_size s.

(** [max(parse_size(img['Size']) for img in images)] *)
Definition max_image_size (images : list json) : result float :=
  sizes <- mapM image_size images ;;
  py_max sizes.

(** [size_mb = parse_size(img['Size'])] and
    [percentage = (size_mb / max_size * 100) if max_size > 0 else 0];
    the integer [0] of the source is the float zero here: [create_bar]
    and [create_colored_bar] treat the two alike. *)
Definition image_percentage (max_size : float) (img : json) : result float :=
  size_mb <- image_size img ;;
  if py_gt max_size fzero then
    q <- py_truediv size_mb max_size ;;
    Ok (py_mul q (fconst 100))
  else Ok fzero.

(** [float(stat[key].rstrip('%'))] *)
Definition stat_percent (stat : json) (key : string) : result float :=
  v <- field stat key ;;
  s <- str_method v ;;
  parse_percent s.

(** [int((percentage / 100) * width)] *)
Definition filled_cells (percentage : float) (width : Z) : result Z :=
  q <- py_truediv percentage (fconst 100) ;;
  w <- float_of_int width ;;
  int_of_float (py_mul q w).

(** The three colour bands of a bar. *)
Inductive band : Type := Green | Yellow | Red.

Definition band_of (percentage : float) : band :=
  if py_lt percentage (fconst 50) then Green
  else if py_lt percentage (fconst 75) then Yellow
  else Red.

Definition FULL : str := u "█".
Definition EMPTY : str := u "░".

(** ** [monitor.py]: the plain ANSI variant *)

Module Monitor.

Definition esc (code : string) : str := 27%N :: u code.

Module Colors.
Definition RESET := esc "[0m".
Definition BOLD := esc "[1m".
Definition RED := esc "[91m".
Definition GREEN := esc "[92m".
Definition YELLOW := esc "[93m".
Definition BLUE := esc "[94m".
Definition MAGENTA := esc "[95m".
Definition CYAN := esc "[96m".
Definition WHITE := esc "[97m".
Definition BG_RED := esc "[41m".
Definition BG_GREEN := esc "[42m".
Definition BG_YELLOW := esc "[43m".
End Colors.
Import Colors.

(** What the script does to the terminal. *)
Inductive event : Type :=
| Cleared
| Printed (line : str).

Definition print (line : str) : io event unit := ([Printed line], Ok tt).

Definition clear_screen : io event unit := ([Cleared], Ok tt).

Definition band_color (b : band) : str :=
  match b with
  | Green => GREEN
  | Yellow => YELLOW
  | Red => RED
  end.

Definition create_colored_bar (percentage : float) (width : Z) : result str :=
  filled <- filled_cells percentage width ;;
  let empty := width - filled in
  let color := band_color (band_of percentage) in
  full_cells <- str_mul FULL filled ;;
  empty_cells <- str_mul EMPTY empty ;;
  let bar := color ++ full_cells ++ RESET ++ empty_cells in
  Ok (bar ++ u " " ++ format_5_1f percentage ++ u "%").

Definition print_header : io event unit :=
  print (BOLD ++ CYAN ++ u "╔═══════════════════════════════════════════════════════════════════════╗" ++ RESET) ;;;
  print (BOLD ++ CYAN ++ u "║              Docker Monitor - htop inspired                           ║" ++ RESET) ;;;
  print (BOLD ++ CYAN ++ u "╚═══════════════════════════════════════════════════════════════════════╝" ++ RESET) ;;;
  print [].

Definition display_summary (images containers : list json) : io event unit :=
  counts <~ lift (summarize images containers) ;;
  print (BOLD ++ u "Summary:" ++ RESET) ;;;
  print (u "  Docker Images:    " ++ CYAN ++ str_of_int (imageCount counts) ++ RESET) ;;;
  print (u "  Total Containers: " ++ CYAN ++ str_of_int (containerCount counts) ++ RESET) ;;;
  print (u "  Running:          " ++ GREEN ++ str_of_int (runningCount counts) ++ RESET) ;;;
  print (u "  Stopped:          " ++ RED ++ str_of_int (stoppedCount counts) ++ RESET) ;;;
  print [].

Section Display.

(** [str(v)] for a decoded value that is not a string. *)
Variable py_str : json -> str.

(** [format(v, '<n')] *)
Definition format_left (v : json) (n : nat) : result str :=
  match v with
  | JStr s => Ok (ljust n s)
  | JInt z => Ok (ljust n (str_of_int z))
  | JBool b => Ok (ljust n (str_of_int (if b then 1 else 0)))
  | JFloat _ => Ok (ljust n (py_str v))
  | _ => Raise TypeError
  end.

Definition image_row (max_size : float) (img : json) : io event unit :=
  percentage <~ lift (image_percentage max_size img) ;;
  repo <~ lift (field_slice img "Repository" 28) ;;
  tag <~ lift (field_slice img "Tag" 13) ;;
  size <~ lift (field img "Size") ;;
  bar <~ lift (create_colored_bar percentage 15) ;;
  repo_col <~ lift (format_left repo 30) ;;
  tag_col <~ lift (format_left tag 15) ;;
  size_col <~ lift (format_left size 10) ;;
  print (CYAN ++ repo_col ++ RESET ++ u " " ++ YELLOW ++ tag_col ++ RESET
         ++ u " " ++ size_col ++ u " " ++ bar).

Definition display_images (images : list json) : io event unit :=
  print (BOLD ++ MAGENTA ++ u "Docker Images:" ++ RESET) ;;;
  print (BOLD ++ ljust 30 (u "Repository") ++ u " " ++ ljust 15 (u "Tag") ++ u " "
         ++ ljust 10 (u "Size") ++ u " " ++ ljust 30 (u "Size Bar") ++ RESET) ;;;
  (rule <~ lift (str_mul (u "─") 90) ;; print rule) ;;;
  match images with
  | _ :: _ =>
      max_size <~ lift (max_image_size images) ;;
      for_each (image_row max_size) (firstn 8 images)
  | [] => print (YELLOW ++ u "  No images found" ++ RESET)
  end ;;;
  print [].

Definition container_row (container : json) : io event unit :=
  name <~ lift (field_slice container "Names" 23) ;;
  image <~ lift (field_slice container "Image" 23) ;;
  status <~ lift (field_slice container "Status" 18) ;;
  state <~ lift (field container "State") ;;
  let state_color := if eq_str state (u "running") then GREEN else RED in
  name_col <~ lift (format_left name 25) ;;
  image_col <~ lift (format_left image 25) ;;
  status_col <~ lift (format_left status 20) ;;
  state_col <~ lift (format_left state 10) ;;
  print (CYAN ++ name_col ++ RESET ++ u " " ++ YELLOW ++ image_col ++ RESET
         ++ u " " ++ status_col ++ u " " ++ state_color ++ state_col ++ RESET).

Definition display_containers (containers : list json) : io event unit :=
  print (BOLD ++ MAGENTA ++ u "Docker Containers:" ++ RESET) ;;;
  print (BOLD ++ ljust 25 (u "Name") ++ u " " ++ ljust 25 (u "Image") ++ u " "
         ++ ljust 20 (u "Status") ++ u " " ++ ljust 10 (u "State") ++ RESET) ;;;
  (rule <~ lift (str_mul (u "─") 90) ;; print rule) ;;;
  for_each container_row (firstn 10 containers) ;;;
  print [].

Definition stat_row (stat : json) : io event unit :=
  name <~ lift (field_slice stat "Name" 23) ;;
  cpu_percent <~ lift (stat_percent stat "CPUPerc") ;;
  mem_percent <~ lift (stat_percent stat "MemPerc") ;;
  cpu_bar <~ lift (create_colored_bar cpu_percent 15) ;;
  mem_bar <~ lift (create_colored_bar mem_percent 15) ;;
  name_col <~ lift (format_left name 25) ;;
  print (CYAN ++ name_col ++ RESET ++ u " " ++ cpu_bar ++ u " " ++ mem_bar).

Definition display_stats (stats : list json) : io event unit :=
  print (BOLD ++ MAGENTA ++ u "Resource Usage (Running Containers):" ++ RESET) ;;;
  match stats with
  | [] =>
      print (YELLOW ++ u "  No running containers" ++ RESET) ;;;
      print []
  | _ :: _ =>
      print (BOLD ++ ljust 25 (u "Name") ++ u " " ++ ljust 35 (u "CPU Usage") ++ u " "
             ++ ljust 35 (u "Memory Usage") ++ RESET) ;;;
      (rule <~ lift (str_mul (u "─") 100) ;; print rule) ;;;
      for_each stat_row (firstn 8 stats) ;;;
      print []
  end.

Variable json_loads : str -> result json.

(** One turn of the loop, up to the sleep. *)
Definition frame (rt : runtime) : io event unit :=
  clear_screen ;;;
  let images := get_docker_images json_loads rt in
  let containers := get_docker_containers json_loads rt in
  let stats := get_container_stats json_loads rt in
  print_header ;;;
  display_summary images containers ;;;
  display_images images ;;;
  display_containers containers ;;;
  display_stats stats ;;;
  print (BOLD ++ u "Press Ctrl+C to exit" ++ RESET ++ u " | Refreshing every 2 seconds...").

Definition goodbye : list event :=
  [Printed (10%N :: GREEN ++ u "Goodbye!" ++ RESET)].

(** [while True: ...] inside [try: ... except KeyboardInterrupt:]. *)
Fixpoint loop (cs : list cycle) : list event * outcome :=
  match cs with
  | [] => ([], Running)
  | c :: rest =>
      match frame (cycle_runtime c) with
      | (out, Raise KeyboardInterrupt) => (out ++ goodbye, Returned)
      | (out, Raise e) => (out, Crashed e)
      | (out, Ok _) =>
          if cycle_interrupted c then (out ++ goodbye, Returned)
          else let (out', o) := loop rest in (out ++ out', o)
      end
  end.

Definition main (w : world) : list event * outcome :=
  match docker_version (startup w) with
  | Raise _ =>
      ([Printed (RED ++ u "Error: Docker is not installed or not running" ++ RESET)],
       Returned)
  | Ok _ => loop (cycles w)
  end.

End Display.

End Monitor.

(** ** [monitorfree.py]: the Rich variant *)

Module MonitorFree.

(** The Rich objects the script builds, as data. *)
Record table : Type := {
  columns : list str;
  rows : list (list str)
}.

Inductive renderable : Type :=
| Markup (s : str)
| Grid (t : table).

Record panel : Type := {
  body : renderable;
  title : option str;
  border_style : str
}.

Record layout : Type := {
  header : panel;
  summary : panel;
  resource_usage : panel;
  images : panel;
  containers : panel;
  footer : str
}.

(** What the script does to the terminal. *)
Inductive event : Type :=
| ConsolePrint (s : str)
| Display (l : layout).

Definition band_name (b : band) : str :=
  match b with
  | Green => u "green"
  | Yellow => u "yellow"
  | Red => u "red"
  end.

Definition create_bar (percentage : float) (width : Z) : result str :=
  filled <- filled_cells percentage width ;;
  full_cells <- str_mul FULL filled ;;
  empty_cells <- str_mul EMPTY (width - filled) ;;
  let bar := full_cells ++ empty_cells in
  let color := band_name (band_of percentage) in
  Ok (u "[" ++ color ++ u "]" ++ bar ++ u "[/" ++ color ++ u "] "
      ++ format_5_1f percentage ++ u "%").

(** A cell handed to [Table.add_row]: Rich takes a string, reads
    [None] as an empty cell and rejects any other decoded value. *)
Definition cell (v : json) : result str :=
  match v with
  | JStr s => Ok s
  | JNull => Ok []
  | _ => Raise NotRenderableError
  end.

Definition summary_panel (images containers : list json) : result panel :=
  counts <- summarize images containers ;;
  Ok {| body := Grid {| columns := [[]; []];
                        rows := [ [u "Docker Images:";
                                   u "[cyan]" ++ str_of_int (imageCount counts) ++ u "[/cyan]"];
                                  [u "Total Containers:";
                                   u "[cyan]" ++ str_of_int (containerCount counts) ++ u "[/cyan]"];
                                  [u "Running:";
                                   u "[green]" ++ str_of_int (runningCount counts) ++ u "[/green]"];
                                  [u "Stopped:";
                                   u "[red]" ++ str_of_int (stoppedCount counts) ++ u "[/red]"] ] |};
        title := Some (u "Summary");
        border_style := u "blue" |}.

Definition stat_row (stat : json) : result (list str) :=
  cpu_percent <- stat_percent stat "CPUPerc" ;;
  mem_percent <- stat_percent stat "MemPerc" ;;
  name <- field_slice stat "Name" 25 ;;
  cpu_bar <- create_bar cpu_percent 10 ;;
  mem_bar <- create_bar mem_percent 10 ;;
  name_cell <- cell name ;;
  Ok [name_cell; cpu_bar; mem_bar].

Definition resource_usage_panel (stats : list json) : result panel :=
  match stats with
  | _ :: _ =>
      stat_rows <- mapM stat_row (firstn 5 stats) ;;
      Ok {| body := Grid {| columns := [u "Name"; u "CPU Usage"; u "Memory Usage"];
                            rows := stat_rows |};
            title := Some (u "Resource Usage");
            border_style := u "green" |}
  | [] =>
      Ok {| body := Markup (u "[yellow]No running containers[/yellow]");
            title := Some (u "Resource Usage");
            border_style := u "green" |}
  end.

Definition image_row (max_size : float) (img : json) : result (list str) :=
  percentage <- image_percentage max_size img ;;
  repo <- field_slice img "Repository" 30 ;;
  tag <- field_slice img "Tag" 15 ;;
  size <- field img "Size" ;;
  bar <- create_bar percentage 15 ;;
  repo_cell <- cell repo ;;
  tag_cell <- cell tag ;;
  size_cell <- cell size ;;
  Ok [repo_cell; tag_cell; size_cell; bar].

Definition images_panel (images : list json) : result panel :=
  image_rows <- match images with
                | _ :: _ =>
                    max_size <- max_image_size images ;;
                    mapM (image_row max_size) (firstn 5 images)
                | [] => Ok [[u "No images"; []; []; []]]
                end ;;
  Ok {| body := Grid {| columns := [u "Repository"; u "Tag"; u "Size"; u "Size Bar"];
                        rows := image_rows |};
        title := Some (u "Docker Images");
        border_style := u "magenta" |}.

Section Display.

(** [str(v)] for a decoded value that is not a string. *)
Variable py_str : json -> str.

Definition str_of (v : json) : str :=
  match v with
  | JStr s => s
  | _ => py_str v
  end.

Definition container_row (container : json) : result (list str) :=
  state <- field container "State" ;;
  let state_color := if eq_str state (u "running") then u "green" else u "red" in
  name <- field_slice container "Names" 25 ;;
  image <- field_slice container "Image" 25 ;;
  status <- field_slice container "Status" 20 ;;
  name_cell <- cell name ;;
  image_cell <- cell image ;;
  status_cell <- cell status ;;
  Ok [name_cell; image_cell; status_cell;
      u "[" ++ state_color ++ u "]" ++ str_of state ++ u "[/" ++ state_color ++ u "]"].

Definition containers_panel (containers : list json) : result panel :=
  container_rows <- mapM container_row (firstn 5 containers) ;;
  let placeholder := match containers with
                     | [] => [[u "No containers"; []; []; []]]
                     | _ :: _ => []
                     end in
  Ok {| body := Grid {| columns := [u "Name"; u "Image"; u "Status"; u "State"];
                        rows := container_rows ++ placeholder |};
        title := Some (u "Docker Containers");
        border_style := u "magenta" |}.

Variable json_loads : str -> result json.

Definition generate_display (rt : runtime) : result layout :=
  let images := get_docker_images json_loads rt in
  let containers := get_docker_containers json_loads rt in
  let stats := get_container_stats json_loads rt in
  let header_panel := {| body := Markup (u "Docker Monitor - Flicker Free");
                         title := None;
                         border_style := u "cyan" |} in
  summary_p <- summary_panel images containers ;;
  resource_p <- resource_usage_panel stats ;;
  images_p <- images_panel images ;;
  containers_p <- containers_panel containers ;;
  Ok {| header := header_panel;
        summary := summary_p;
        resource_usage := resource_p;
        images := images_p;
        containers := containers_p;
        footer := u "Press Ctrl+C to exit | Auto-refresh every 2 seconds" |}.

Definition goodbye : list event :=
  [ConsolePrint (10%N :: u "[green]Goodbye![/green]")].

(** [Live(generate_display(), ...)], then [while True: time.sleep(2);
    live.update(generate_display())], inside
    [try: ... except KeyboardInterrupt:]. *)
Fixpoint loop (cs : list cycle) : list event * outcome :=
  match cs with
  | [] => ([], Running)
  | c :: rest =>
      match generate_display (cycle_runtime c) with
      | Raise KeyboardInterrupt => (goodbye, Returned)
      | Raise e => ([], Crashed e)
      | Ok l =>
          if cycle_interrupted c then (Display l :: goodbye, Returned)
          else let (out, o) := loop rest in (Display l :: out, o)
      end
  end.

Definition main (w : world) : list event * outcome :=
  match docker_version (startup w) with
  | Raise _ =>
      ([ConsolePrint (u "[red]Error: Docker is not installed or not running[/red]")],
       Returned)
  | Ok _ => loop (cycles w)
  end.

End Display.

End MonitorFree.

(** * Vocabulary of the properties *)

(** ** Floats *)

(** [0 <= x]: a float that is not negative (and so not a NaN). *)
Definition nonneg (x : float) : Prop := fle fzero x = true.

(** A float of sign [s] that is not a NaN. *)
Definition fsigned (x : float) (s : bool) : Prop :=
  match x with
  | S754_zero s' | S754_infinity s' | S754_finite s' _ _ => s' = s
  | S754_nan => False
  end.

(** A float of sign [s] that is a zero or a finite value below
    [2 ^ K] whose exponent is at most [E]. *)
Definition fbounded (x : float) (s : bool) (K E : Z) : Prop :=
  match x with
  | S754_zero s' => s' = s
  | S754_finite s' m e => s' = s /\ Zpos (digits2_pos m) + e <= K /\ e <= E
  | _ => False
  end.

(** One alignment step of the rounding: the mantissa [m] at exponent
    [e] becomes [m'] at [e']. *)
Definition shr_step (m e m' e' : Z) : Prop :=
  let n := fexp prec emax (Zdigits2 m + e) - e in
  (n <= 0 /\ m' = m /\ e' = e) \/ (0 < n /\ m' = m / 2 ^ n /\ e' = e + n).

Definition hundred : float := S754_finite false 7036874417766400 (-46).

(** The greatest integer that is not above a finite float. *)
Definition float_floor (x : float) : option Z :=
  match x with
  | S754_zero _ => Some 0
  | S754_finite s m e => Some (Z.shiftl (cond_Zopp s (Zpos m)) e)
  | _ => None
  end.

(** [floor(p / 100 * w)], the product and the quotient being those of
    the floats. *)
Definition floor_of_scaled (p : float) (w : Z) : option Z :=
  match float_of_int w with
  | Ok wf => float_floor (fmul (fdiv p (fconst 100)) wf)
  | Raise _ => None
  end.

Ltac compare_cases :=
  repeat match goal with
         | H : context [Z.compare ?a ?b] |- _ => destruct (Z.compare_spec a b)
         | |- context [Z.compare ?a ?b] => destruct (Z.compare_spec a b)
         | H : context [Pos.compare_cont Eq ?a ?b] |- _ =>
             change (Pos.compare_cont Eq a b) with (Pos.compare a b) in H;
             destruct (Pos.compare_spec a b)
         | |- context [Pos.compare_cont Eq ?a ?b] =>
             change (Pos.compare_cont Eq a b) with (Pos.compare a b);
             destruct (Pos.compare_spec a b)
         end.

(** ** Scaling to the maximum *)

(** The maximum of a sequence, in the words of the specification: one
    of its elements, and no element is above it. *)
Definition is_maximum (m : float) (values : list float) : Prop :=
  In m values /\ Forall (fun v => fle v m = true) values.

(** [scaleToMax] in the words of the specification: a value divided by
    the maximum, times 100, and 0 when the maximum is 0. *)
Definition scaled (m v : float) : float :=
  if feq m fzero then fzero else fmul (fdiv v m) (fconst 100).

(** ** Sizes *)

Inductive size_unit : Type := GB | MB | KB.

Definition unit_text (un : size_unit) : str :=
  match un with
  | GB => u "GB"
  | MB => u "MB"
  | KB => u "KB"
  end.

(** The unit of a size text: GB before MB before KB. *)
Definition selected_unit (t : str) : option size_unit :=
  if contains (u "GB") t then Some GB
  else if contains (u "MB") t then Some MB
  else if contains (u "KB") t then Some KB
  else None.

(** The documented conversion to megabytes. *)
Definition to_megabytes (un : size_unit) (x : float) : float :=
  match un with
  | GB => fmul x (fconst 1024)
  | MB => x
  | KB => fdiv x (fconst 1024)
  end.

(** The text left when the unit is taken out of the stripped text. *)
Definition numeric_portion (un : size_unit) (t : str) : str :=
  replace (unit_text un) [] t.

(** The size conversion by its table: the number of the numeric portion
    converted by the selected unit, 0 without a unit, and the failure of
    [float] handed on. *)
Definition size_conversion (display : str) : result float :=
  let t := strip display in
  match selected_unit t with
  | None => Ok fzero
  | Some un =>
      x <- py_float (numeric_portion un t) ;;
      Ok (to_megabytes un x)
  end.

(** ** Queries and records *)

(** The three queries with the command each one runs. *)
Definition queries (json_loads : str -> result json)
  : list ((runtime -> list json) * command) :=
  [ (get_docker_images json_loads, images_command);
    (get_docker_containers json_loads, containers_command);
    (get_container_stats json_loads, stats_command) ].

(** The lines of an output that the queries decode. *)
Definition output_lines (out : str) : list str :=
  filter nonempty (split_on 10%N (strip out)).


(** ** Bars *)

Definition FULL_BLOCK : char := 9608%N.
Definition LIGHT_SHADE : char := 9617%N.

(** ** Sample environments *)

(** A decoder that rejects every line, and a [str] that prints nothing. *)
Definition no_json : str -> result json := fun _ => Raise JSONDecodeError.
Definition no_str : json -> str := fun _ => [].

(** A runtime whose commands all exit with status 1, and one whose
    commands all succeed and print nothing. *)
Definition runtime_down : runtime := fun _ => Exited 1 [].
Definition runtime_idle : runtime := fun _ => Exited 0 [].

(** A machine without Docker: the command cannot be started. *)
Definition world_without_docker : world :=
  {| startup := fun _ => NotRun FileNotFoundError;
     cycles := [ {| cycle_runtime := runtime_idle; cycle_interrupted := true |} ] |}.

(** Two image records, the larger one last. *)
Definition two_images : list json :=
  [JDict [(u "Repository", JStr (u "redis")); (u "Tag", JStr (u "7"));
          (u "Size", JStr (u "512MB"))];
   JDict [(u "Repository", JStr (u "nginx")); (u "Tag", JStr (u "latest"));
          (u "Size", JStr (u "2GB"))]].

(** A runtime with one running container whose CPU column reads [--],
    and the decoder of its one line of statistics. *)
Definition runtime_with_dashes : runtime :=
  fun cmd =>
    if list_eq_dec (list_eq_dec N.eq_dec) cmd stats_command
    then Exited 0 (u "web")
    else Exited 0 [].

Definition stats_decoder : str -> result json :=
  fun line =>
    Ok (JDict [(u "Name", JStr line); (u "CPUPerc", JStr (u "--"));
               (u "MemPerc", JStr (u "0.00%"))]).

Definition world_with_dashes : world :=
  {| startup := runtime_idle;
     cycles := [ {| cycle_runtime := runtime_with_dashes; cycle_interrupted := false |} ] |}.

(** A running container, as [docker ps] reports it. *)
Definition web_container : json :=
  JDict [(u "Names", JStr (u "web")); (u "Image", JStr (u "nginx:latest"));
         (u "Status", JStr (u "Up 3 minutes")); (u "State", JStr (u "running"))].

(** ** Frames, panels and rows *)

(** What [monitor.py] prints above the panels of every frame. *)
Definition frame_head : list Monitor.event :=
  Monitor.Cleared :: fst Monitor.print_header.

(** The three lines above the rows of the image panel of [monitor.py]. *)
Definition images_heading : list Monitor.event :=
  [ Monitor.Printed (Monitor.Colors.BOLD ++ Monitor.Colors.MAGENTA
                     ++ u "Docker Images:" ++ Monitor.Colors.RESET);
    Monitor.Printed (Monitor.Colors.BOLD ++ ljust 30 (u "Repository") ++ u " "
                     ++ ljust 15 (u "Tag") ++ u " " ++ ljust 10 (u "Size") ++ u " "
                     ++ ljust 30 (u "Size Bar") ++ Monitor.Colors.RESET);
    Monitor.Printed (copies (u "─") 90) ].



(** A turn of [monitor.py] that draws its frame and sleeps undisturbed. *)
Definition quiet_turn (py_str : json -> str) (json_loads : str -> result json)
  (c : cycle) : Prop :=
  snd (Monitor.frame py_str json_loads (cycle_runtime c)) = Ok tt
  /\ cycle_interrupted c = false.

(** What [monitor.py] prints over some turns. *)
Definition frames_printed (py_str : json -> str) (json_loads : str -> result json)
  (cs : list cycle) : list Monitor.event :=
  flat_map (fun c => fst (Monitor.frame py_str json_loads (cycle_runtime c))) cs.

(** A turn of [monitorfree.py] that builds its layout and sleeps undisturbed. *)
Definition quiet_refresh (py_str : json -> str) (json_loads : str -> result json)
  (c : cycle) : Prop :=
  returns (MonitorFree.generate_display py_str json_loads (cycle_runtime c))
  /\ cycle_interrupted c = false.

(** What [monitorfree.py] shows over some turns. *)
Definition layouts_shown (py_str : json -> str) (json_loads : str -> result json)
  (cs : list cycle) : list MonitorFree.event :=
  flat_map (fun c =>
              match MonitorFree.generate_display py_str json_loads (cycle_runtime c) with
              | Ok l => [MonitorFree.Display l]
              | Raise _ => []
              end) cs.

(** The four texts of a container record, when it has them. *)
Definition container_texts (c : json) : option (str * str * str * str) :=
  match field c "Names", field c "Image", field c "Status", field c "State" with
  | Ok (JStr name), Ok (JStr image), Ok (JStr status), Ok (JStr state) =>
      Some (name, image, status, state)
  | _, _, _, _ => None
  end.


(** The table row [monitorfree.py] adds for a container. *)
Definition container_cells (t : str * str * str * str) : list str :=
  let '(name, image, status, state) := t in
  let color := if str_eqb state (u "running") then u "green" else u "red" in
  [slice_to 25 name; slice_to 25 image; slice_to 20 status;
   u "[" ++ color ++ u "]" ++ state ++ u "[/" ++ color ++ u "]"].

(** ** Percentages and sizes *)

(** The float [1.0]. *)
Definition one : float := S754_finite false 4503599627370496 (-52).

(** A string of white space. *)
Definition blank (s : str) : Prop := Forall (fun c => is_space c = true) s.

(** A NaN or an infinity. *)
Definition not_finite (p : float) : Prop :=
  p = S754_nan \/ exists s, p = S754_infinity s.

(** A finite float below [2 ^ 16] in absolute value. *)
Definition moderate (p : float) : Prop :=
  match p with
  | S754_zero _ => True
  | S754_finite _ m e => Zpos (digits2_pos m) + e <= 16
  | _ => False
  end.

(** The name and the two percentages of a statistics record, when it
    has them. *)
Definition stat_reading (stat : json) : option (str * float * float) :=
  match field stat "Name", stat_percent stat "CPUPerc", stat_percent stat "MemPerc" with
  | Ok (JStr name), Ok cpu, Ok mem => Some (name, cpu, mem)
  | _, _, _ => None
  end.

Definition readings_moderate (r : str * float * float) : Prop :=
  moderate (snd (fst r)) /\ moderate (snd r).


(** The table row [monitorfree.py] adds for a statistics record. *)
Definition stat_cells (r : str * float * float) : list str :=
  let '(name, cpu, mem) := r in
  match MonitorFree.create_bar cpu 10, MonitorFree.create_bar mem 10 with
  | Ok cpu_bar, Ok mem_bar => [slice_to 25 name; cpu_bar; mem_bar]
  | _, _ => []
  end.

(** A size that is finite and not negative. *)
Definition proper_size (x : float) : Prop :=
  nonneg x /\ x <> S754_infinity false.

(** The three texts of an image record, when it has them. *)
Definition image_texts (img : json) : option (str * str * str) :=
  match field img "Repository", field img "Tag", field img "Size" with
  | Ok (JStr repo), Ok (JStr tag), Ok (JStr size) => Some (repo, tag, size)
  | _, _, _ => None
  end.


(** The table row [monitorfree.py] adds for an image. *)
Definition image_cells (m : float) (t : str * str * str) : list str :=
  let '(repo, tag, size) := t in
  match parse_size size with
  | Ok v =>
      match MonitorFree.create_bar (scaled m v) 15 with
      | Ok bar => [slice_to 30 repo; slice_to 15 tag; size; bar]
      | Raise _ => []
      end
  | Raise _ => []
  end.

(** An image whose size parses to a proper size that the largest size
    [m] does not fall below. *)
Definition sized (m : float) (img : json) : Prop :=
  exists v, image_size img = Ok v /\ is_float v /\ proper_size v /\ fle v m = true.

(** ** More sample inputs *)

Definition idle_turn : cycle :=
  {| cycle_runtime := runtime_idle; cycle_interrupted := false |}.

Definition interrupted_turn : cycle :=
  {| cycle_runtime := runtime_idle; cycle_interrupted := true |}.

Definition turn_with_dashes : cycle :=
  {| cycle_runtime := runtime_with_dashes; cycle_interrupted := false |}.

(** Ctrl+C arrives during the second sleep. *)
Definition world_interrupted : world :=
  {| startup := runtime_idle; cycles := [idle_turn; interrupted_turn; idle_turn] |}.

(** The second turn meets a CPU column that reads [--]. *)
Definition world_with_late_dashes : world :=
  {| startup := runtime_idle; cycles := [idle_turn; turn_with_dashes; idle_turn] |}.

Definition world_left_alone : world :=
  {| startup := runtime_idle; cycles := [idle_turn; idle_turn] |}.

(** A runtime that lists one container, and a decoder that gives the
    record a name only. *)
Definition runtime_with_a_container : runtime :=
  fun cmd =>
    if list_eq_dec (list_eq_dec N.eq_dec) cmd containers_command
    then Exited 0 (u "web")
    else Exited 0 [].

Definition names_decoder : str -> result json :=
  fun line => Ok (JDict [(u "Names", JStr line)]).

(** An image record without a size. *)
Definition image_without_size : json :=
  JDict [(u "Repository", JStr (u "redis")); (u "Tag", JStr (u "7"))].

(** Statistics of a container that keeps two and a half cores busy, and
    of one whose CPU column is no number. *)
Definition busy_stat : json :=
  JDict [(u "Name", JStr (u "web")); (u "CPUPerc", JStr (u "250.00%"));
         (u "MemPerc", JStr (u "50.00%"))].


(** The texts of [web_container], of the two images and of [busy_stat]. *)
Definition web_texts : str * str * str * str :=
  (u "web", u "nginx:latest", u "Up 3 minutes", u "running").

Definition two_image_texts : list (str * str * str) :=
  [(u "redis", u "7", u "512MB"); (u "nginx", u "latest", u "2GB")].

Definition busy_reading : str * float * float :=
  (u "web", fconst 250, fconst 50).

(** ** A runtime that is lost while the script runs *)

(** A turn during which no command can be run with success, and no
    Ctrl+C arrives. *)
Definition docker_lost (c : cycle) : Prop :=
  cycle_interrupted c = false
  /\ forall cmd, ~ returns (subprocess_run (cycle_runtime c) cmd).

(** The frame of [monitor.py] when there is nothing to list. *)
Definition empty_frame (py_str : json -> str) : list Monitor.event :=
  frame_head
  ++ fst (Monitor.display_summary [] [])
  ++ fst (Monitor.display_images py_str [])
  ++ fst (Monitor.display_containers py_str [])
  ++ fst (Monitor.display_stats py_str [])
  ++ [Monitor.Printed (Monitor.Colors.BOLD ++ u "Press Ctrl+C to exit"
                       ++ Monitor.Colors.RESET
                       ++ u " | Refreshing every 2 seconds...")].

Definition down_turn : cycle :=
  {| cycle_runtime := runtime_down; cycle_interrupted := false |}.

(** Docker answers at start-up and is gone afterwards. *)
Definition world_losing_docker : world :=
  {| startup := runtime_idle; cycles := [down_turn; down_turn] |}.

(** A runtime that prints two records around an empty line. *)
Definition runtime_with_two_lines : runtime :=
  fun _ => Exited 0 (u "a" ++ [10%N; 10%N] ++ u "b" ++ [10%N]).

(** ** The percentage of an image *)

(** The percentage both scripts give to a size [v] when [m] is the
    largest size: [(v / m * 100) if m > 0 else 0]. *)
Definition shown_percentage (m v : float) : float :=
  if py_gt m fzero then py_mul (fdiv v m) (fconst 100) else fzero.

(** The row of [monitor.py] for an image, from its percentage on. *)
Definition monitor_image_row_at (py_str : json -> str) (percentage : float)
  (img : json) : io Monitor.event unit :=
  repo <~ lift (field_slice img "Repository" 28) ;;
  tag <~ lift (field_slice img "Tag" 13) ;;
  size <~ lift (field img "Size") ;;
  bar <~ lift (Monitor.create_colored_bar percentage 15) ;;
  repo_col <~ lift (Monitor.format_left py_str repo 30) ;;
  tag_col <~ lift (Monitor.format_left py_str tag 15) ;;
  size_col <~ lift (Monitor.format_left py_str size 10) ;;
  Monitor.print (Monitor.Colors.CYAN ++ repo_col ++ Monitor.Colors.RESET ++ u " "
                 ++ Monitor.Colors.YELLOW ++ tag_col ++ Monitor.Colors.RESET
                 ++ u " " ++ size_col ++ u " " ++ bar).

(** The table row of [monitorfree.py] for an image, from its percentage on. *)
Definition monitorfree_image_row_at (percentage : float) (img : json)
  : result (list str) :=
  repo <- field_slice img "Repository" 30 ;;
  tag <- field_slice img "Tag" 15 ;;
  size <- field img "Size" ;;
  bar <- MonitorFree.create_bar percentage 15 ;;
  repo_cell <- MonitorFree.cell repo ;;
  tag_cell <- MonitorFree.cell tag ;;
  size_cell <- MonitorFree.cell size ;;
  Ok [repo_cell; tag_cell; size_cell; bar].

(** The image panel of [monitorfree.py] around its rows. *)
Definition images_panel_of (image_rows : list (list str)) : MonitorFree.panel :=
  {| MonitorFree.body :=
       MonitorFree.Grid
         {| MonitorFree.columns := [u "Repository"; u "Tag"; u "Size"; u "Size Bar"];
            MonitorFree.rows := image_rows |};
     MonitorFree.title := Some (u "Docker Images");
     MonitorFree.border_style := u "magenta" |}.

(** Nine images of 512 MB and a tenth of 2 GB, and their sizes. *)
Definition small_image : json :=
  JDict [(u "Repository", JStr (u "redis")); (u "Tag", JStr (u "7"));
         (u "Size", JStr (u "512MB"))].

Definition large_image : json :=
  JDict [(u "Repository", JStr (u "nginx")); (u "Tag", JStr (u "latest"));
         (u "Size", JStr (u "2GB"))].

Definition ten_images : list json := repeat small_image 9 ++ [large_image].

Definition ten_sizes : list float := repeat (fconst 512) 9 ++ [fconst 2048].

(** An image whose size text carries a minus sign. *)
Definition negative_image : json :=
  JDict [(u "Repository", JStr (u "scratch")); (u "Tag", JStr (u "latest"));
         (u "Size", JStr (u "-1GB"))].

(** The first letter of a unit. *)
Definition unit_letter (un : size_unit) : char :=
  match un with
  | GB => 71%N
  | MB => 77%N
  | KB => 75%N
  end.

(** * Facts about the embedding *)

(** ** Results *)

Lemma mapM_ok_length {A B : Type} (f : A -> result B) (xs : list A) (ys : list B) :
  mapM f xs = Ok ys -> List.length ys = List.length xs.
Proof.
  revert ys; induction xs as [| x xs IH]; simpl; intros ys H.
  - now inversion H.
  - destruct (f x) as [y | e]; simpl in H; [| discriminate].
    destruct (mapM f xs) as [ys' | e]; simpl in H; [| discriminate].
    inversion H; subst; simpl; f_equal; now apply IH.
Qed.

(** ** Rounding of binary64 values *)

Lemma digits2_pos_size (p : positive) : digits2_pos p = Pos.size p.
Proof. induction p; simpl; congruence. Qed.

Lemma digits2_pos_log2 (p : positive) :
  Zpos (digits2_pos p) = Z.log2 (Zpos p) + 1.
Proof.
  destruct p; simpl; rewrite ?digits2_pos_size, ?Pos2Z.inj_succ; lia.
Qed.

Lemma Zdigits2_le_iff (m k : Z) :
  0 < m -> (Zdigits2 m <= k <-> m < 2 ^ k).
Proof.
  intros Hm. destruct m as [| p | p]; try lia.
  simpl. rewrite digits2_pos_log2.
  rewrite (Z.log2_lt_pow2 (Zpos p) k) by lia. lia.
Qed.

Lemma Zdigits2_nonneg (m : Z) : 0 <= Zdigits2 m.
Proof. destruct m; simpl; lia. Qed.

Lemma Zdigits2_bound (m : Z) : 0 <= m -> m < 2 ^ Zdigits2 m.
Proof.
  intros Hm. destruct (Z.eq_dec m 0) as [-> | Hz]; [reflexivity |].
  apply Zdigits2_le_iff; lia.
Qed.

Lemma shr_1_m (mrs : shr_record) :
  0 <= shr_m mrs -> shr_m (shr_1 mrs) = shr_m mrs / 2.
Proof.
  intros H. rewrite <- Z.div2_div.
  destruct mrs as [m r s]; simpl in *.
  destruct m as [| [p | p |] | p]; try reflexivity; lia.
Qed.

Lemma iter_shr_m (p : positive) (mrs : shr_record) :
  0 <= shr_m mrs ->
  shr_m (iter_pos shr_1 p mrs) = shr_m mrs / 2 ^ Zpos p.
Proof.
  revert mrs; induction p as [p IH | p IH |]; intros mrs H; simpl iter_pos.
  - assert (H1 : 0 <= shr_m (shr_1 mrs)).
    { rewrite shr_1_m by assumption. apply Z.div_pos; lia. }
    assert (H2 : 0 <= shr_m (iter_pos shr_1 p (shr_1 mrs))).
    { rewrite IH by assumption. apply Z.div_pos; lia. }
    rewrite IH by assumption. rewrite IH by assumption.
    rewrite shr_1_m by assumption.
    rewrite !Z.div_div by lia. f_equal.
    replace (Zpos p~1) with (1 + Zpos p + Zpos p) by lia.
    rewrite !Z.pow_add_r, Z.pow_1_r by lia. lia.
  - assert (H2 : 0 <= shr_m (iter_pos shr_1 p mrs)).
    { rewrite IH by assumption. apply Z.div_pos; lia. }
    rewrite IH by assumption. rewrite IH by assumption.
    rewrite !Z.div_div by lia. f_equal.
    replace (Zpos p~0) with (Zpos p + Zpos p) by lia.
    rewrite !Z.pow_add_r by lia. lia.
  - rewrite shr_1_m by assumption. reflexivity.
Qed.

Lemma shr_record_of_loc_m (m : Z) (l : location) :
  shr_m (shr_record_of_loc m l) = m.
Proof. destruct l as [| []]; reflexivity. Qed.

(** What [shr_fexp] does to a non-negative mantissa. *)
Lemma shr_fexp_spec (m e : Z) (l : location) :
  0 <= m ->
  let n := fexp prec emax (Zdigits2 m + e) - e in
  (n <= 0 /\ shr_m (fst (shr_fexp prec emax m e l)) = m
          /\ snd (shr_fexp prec emax m e l) = e)
  \/ (0 < n /\ shr_m (fst (shr_fexp prec emax m e l)) = m / 2 ^ n
            /\ snd (shr_fexp prec emax m e l) = e + n).
Proof.
  intros Hm n. unfold shr_fexp. fold n.
  destruct n as [| p | p] eqn:En; simpl.
  - left. rewrite shr_record_of_loc_m. repeat split; lia.
  - right. rewrite iter_shr_m by (rewrite shr_record_of_loc_m; assumption).
    rewrite shr_record_of_loc_m. repeat split; lia.
  - left. rewrite shr_record_of_loc_m. repeat split; lia.
Qed.

Lemma round_nearest_even_bounds (m : Z) (l : location) :
  m <= round_nearest_even m l <= m + 1.
Proof.
  destruct l as [| []]; simpl; try lia. destruct (Z.even m); lia.
Qed.

Lemma div_pow2_nonneg (m n : Z) : 0 <= m -> 0 <= m / 2 ^ n.
Proof.
  intros H. apply Z_div_nonneg_nonneg; [assumption | apply Z.pow_nonneg; lia].
Qed.

Lemma round_aux_cases (s : bool) (mx ex : Z) (lx : location) :
  0 <= mx ->
  exists m' e1 m1 m2 e2,
    shr_step mx ex m' e1 /\ m' <= m1 <= m' + 1 /\ shr_step m1 e1 m2 e2 /\
    binary_round_aux prec emax s mx ex lx =
      match m2 with
      | Z0 => S754_zero s
      | Zpos m => if e2 <=? emax - prec then S754_finite s m e2 else S754_infinity s
      | Zneg _ => S754_nan
      end.
Proof.
  intros Hm. unfold binary_round_aux.
  pose proof (shr_fexp_spec mx ex lx Hm) as H1.
  destruct (shr_fexp prec emax mx ex lx) as [mrs' e1] eqn:E1. simpl in H1.
  set (m1 := round_nearest_even (shr_m mrs') (loc_of_shr_record mrs')).
  assert (Hm' : 0 <= shr_m mrs').
  { destruct H1 as [(_ & -> & _) | (_ & -> & _)]; [assumption | now apply div_pow2_nonneg]. }
  pose proof (round_nearest_even_bounds (shr_m mrs') (loc_of_shr_record mrs')) as Hr.
  fold m1 in Hr.
  assert (Hm1 : 0 <= m1) by lia.
  pose proof (shr_fexp_spec m1 e1 loc_Exact Hm1) as H2.
  destruct (shr_fexp prec emax m1 e1 loc_Exact) as [mrs'' e2] eqn:E2. simpl in H2.
  exists (shr_m mrs'), e1, m1, (shr_m mrs''), e2.
  repeat split; try lia; try reflexivity.
  - exact H1.
  - exact H2.
Qed.

Lemma fexp_mono (a b : Z) : a <= b -> fexp prec emax a <= fexp prec emax b.
Proof. unfold fexp, emin, prec, emax. lia. Qed.

Lemma shr_step_bound (m e m' e' K : Z) :
  0 <= m -> shr_step m e m' e' -> Zdigits2 m + e <= K -> -1074 <= K ->
  0 <= m' /\ Zdigits2 m' + e' <= K /\ e' <= Z.max e (fexp prec emax K).
Proof.
  intros Hm [(Hn & -> & ->) | (Hn & -> & ->)] HK Hlow.
  - repeat split; lia.
  - set (d := Zdigits2 m) in *.
    set (n := fexp prec emax (d + e) - e) in *.
    assert (He : e + n <= fexp prec emax K).
    { replace (e + n) with (fexp prec emax (d + e)) by (unfold n; lia).
      now apply fexp_mono. }
    assert (HfK : fexp prec emax K <= K).
    { unfold fexp, emin, prec, emax. lia. }
    assert (Hq : 0 <= m / 2 ^ n) by now apply div_pow2_nonneg.
    repeat split; try lia.
    destruct (Z.eq_dec (m / 2 ^ n) 0) as [-> | Hnz]; [simpl; lia |].
    assert (Hd : 0 <= d) by apply Zdigits2_nonneg.
    pose proof (Zdigits2_bound m Hm) as Hb. fold d in Hb.
    assert (Hnd : n <= d).
    { destruct (Z_lt_le_dec d n) as [Hlt | Hle]; [| assumption].
      exfalso. apply Hnz. apply Z.div_small. split; [assumption |].
      apply Z.lt_le_trans with (2 ^ d); [assumption |].
      apply Z.pow_le_mono_r; lia. }
    assert (Hlt : m / 2 ^ n < 2 ^ (d - n)).
    { apply Z.div_lt_upper_bound; [lia |].
      rewrite <- Z.pow_add_r by lia. now replace (n + (d - n)) with d by lia. }
    apply Zdigits2_le_iff in Hlt; lia.
Qed.

Lemma round_step_bound (m m1 e K : Z) :
  0 <= m -> m <= m1 <= m + 1 -> Zdigits2 m + e <= K ->
  Zdigits2 m1 + e <= K + 1.
Proof.
  intros Hm Hr HK.
  destruct (Z.eq_dec m1 0) as [-> | Hnz].
  - assert (m = 0) by lia. subst. simpl in *. lia.
  - assert (Hd : Zdigits2 m1 <= Zdigits2 m + 1).
    { apply Zdigits2_le_iff; [lia |].
      pose proof (Zdigits2_bound m Hm) as Hb.
      pose proof (Zdigits2_nonneg m) as Hd.
      rewrite Z.pow_add_r, Z.pow_1_r by lia. lia. }
    lia.
Qed.

Lemma round_aux_signed (s : bool) (mx ex : Z) (lx : location) :
  0 <= mx -> fsigned (binary_round_aux prec emax s mx ex lx) s.
Proof.
  intros Hm.
  destruct (round_aux_cases s mx ex lx Hm)
    as (m' & e1 & m1 & m2 & e2 & H1 & Hr & H2 & ->).
  assert (Hm' : 0 <= m').
  { destruct H1 as [(_ & -> & _) | (_ & -> & _)]; [assumption | now apply div_pow2_nonneg]. }
  assert (Hm2 : 0 <= m2).
  { destruct H2 as [(_ & -> & _) | (_ & -> & _)]; [lia | apply div_pow2_nonneg; lia]. }
  unfold fsigned.
  destruct m2 as [| p | p]; try reflexivity; try lia.
  destruct (e2 <=? emax - prec); reflexivity.
Qed.

Lemma round_aux_bounded (s : bool) (mx ex : Z) (lx : location) (K : Z) :
  0 <= mx -> Zdigits2 mx + ex <= K -> -1074 <= K -> K + 1 <= 1024 -> ex <= 971 ->
  fbounded (binary_round_aux prec emax s mx ex lx) s (K + 1)
           (Z.max ex (Z.max (K - 52) (-1074))).
Proof.
  intros Hm HK Hlow Hhigh Hex.
  destruct (round_aux_cases s mx ex lx Hm)
    as (m' & e1 & m1 & m2 & e2 & H1 & Hr & H2 & ->).
  destruct (shr_step_bound _ _ _ _ K Hm H1 HK Hlow) as (Hm' & HK1 & He1).
  pose proof (round_step_bound _ _ _ _ Hm' Hr HK1) as HK2.
  assert (Hm1 : 0 <= m1) by lia.
  assert (Hlow' : -1074 <= K + 1) by lia.
  destruct (shr_step_bound _ _ _ _ (K + 1) Hm1 H2 HK2 Hlow') as (Hm2 & HK3 & He2).
  unfold fexp, emin, prec, emax in He1, He2.
  unfold fbounded.
  destruct m2 as [| p | p]; try reflexivity; try lia.
  replace (e2 <=? emax - prec) with true
    by (symmetry; apply Z.leb_le; unfold emax, prec; lia).
  cbn [Zdigits2] in HK3. repeat split; lia.
Qed.

Lemma fbounded_weaken (x : float) (s : bool) (K E K' E' : Z) :
  fbounded x s K E -> K <= K' -> E <= E' -> fbounded x s K' E'.
Proof.
  destruct x; cbn [fbounded]; intros H HK HE; try assumption.
  destruct H as (-> & H1 & H2). repeat split; lia.
Qed.

Lemma digits2_mul (a b : positive) :
  Zdigits2 (Zpos (a * b)) <= Zpos (digits2_pos a) + Zpos (digits2_pos b).
Proof.
  apply Zdigits2_le_iff; [lia |].
  pose proof (Zdigits2_bound (Zpos a) ltac:(lia)) as Ha.
  pose proof (Zdigits2_bound (Zpos b) ltac:(lia)) as Hb.
  cbn [Zdigits2] in Ha, Hb.
  rewrite Z.pow_add_r by lia. rewrite Pos2Z.inj_mul. nia.
Qed.

(** The product of two bounded floats is a bounded float: no overflow. *)
Lemma fmul_bounded (x y : float) (sx sy : bool) (Kx Ex Ky Ey : Z) :
  fbounded x sx Kx Ex -> fbounded y sy Ky Ey ->
  -1074 <= Kx + Ky -> Kx + Ky + 1 <= 1024 -> Ex + Ey <= 971 ->
  fbounded (fmul x y) (xorb sx sy) (Kx + Ky + 1)
           (Z.max (Ex + Ey) (Z.max (Kx + Ky - 52) (-1074))).
Proof.
  intros Hx Hy Hlow Hhigh HE.
  destruct x as [sx' | sx' | | sx' mx ex]; try contradiction;
    destruct y as [sy' | sy' | | sy' my ey]; try contradiction;
    cbn [fbounded] in Hx, Hy.
  - subst. reflexivity.
  - destruct Hy as (-> & _). subst. reflexivity.
  - destruct Hx as (-> & _). subst. reflexivity.
  - destruct Hx as (-> & Hx1 & Hx2). destruct Hy as (-> & Hy1 & Hy2).
    unfold fmul, SFmul.
    pose proof (digits2_mul mx my) as Hd.
    assert (Hm : 0 <= Zpos (mx * my)) by lia.
    assert (HK : Zdigits2 (Zpos (mx * my)) + (ex + ey) <= Kx + Ky) by lia.
    assert (Hex : ex + ey <= 971) by lia.
    pose proof (round_aux_bounded (xorb sx sy) _ _ loc_Exact _ Hm HK Hlow Hhigh Hex) as H.
    eapply fbounded_weaken; [exact H | lia | lia].
Qed.

Lemma fconst_100 : fconst 100 = hundred.
Proof. reflexivity. Qed.


Lemma digits2_iter_xO (m d : positive) :
  digits2_pos (Pos.iter xO m d) = (digits2_pos m + d)%positive.
Proof.
  induction d as [| d IH] using Pos.peano_ind.
  - simpl. now rewrite Pos.add_1_r.
  - rewrite Pos.iter_succ. simpl. rewrite IH. now rewrite Pos.add_succ_r.
Qed.



(** ** The integer part of a float *)



(** ** The order on floats that are not negative *)

Lemma nonneg_cases (x : float) :
  nonneg x ->
  (exists s, x = S754_zero s) \/ x = S754_infinity false
  \/ (exists m e, x = S754_finite false m e).
Proof.
  unfold nonneg, fle, fzero, SFleb, SFcompare.
  destruct x as [s | [] | | [] m e]; intros H; try discriminate; eauto.
Qed.

Lemma fsigned_nonneg (x : float) : fsigned x false -> nonneg x.
Proof.
  unfold nonneg. destruct x as [s | s | | s m e]; simpl; intros H;
    try contradiction; subst; reflexivity.
Qed.

(** Two floats that are not negative are comparable. *)
Lemma not_gt_le (x y : float) :
  nonneg x -> nonneg y -> py_gt y x = false -> fle y x = true.
Proof.
  intros Hx Hy.
  destruct (nonneg_cases x Hx) as [[sx ->] | [-> | (mx & ex & ->)]];
    destruct (nonneg_cases y Hy) as [[sy ->] | [-> | (my & ey & ->)]];
    unfold py_gt, flt, fle, SFltb, SFleb, SFcompare; intros H;
    try reflexivity; try discriminate;
    compare_cases; subst; try reflexivity; try discriminate; lia.
Qed.

Lemma le_lt_trans (x y z : float) :
  nonneg x -> nonneg y -> nonneg z ->
  fle x y = true -> flt y z = true -> fle x z = true.
Proof.
  intros Hx Hy Hz.
  destruct (nonneg_cases x Hx) as [[sx ->] | [-> | (mx & ex & ->)]];
    destruct (nonneg_cases y Hy) as [[sy ->] | [-> | (my & ey & ->)]];
    destruct (nonneg_cases z Hz) as [[sz ->] | [-> | (mz & ez & ->)]];
    unfold flt, fle, SFltb, SFleb, SFcompare; intros H1 H2;
    try reflexivity; try discriminate;
    compare_cases; subst; try reflexivity; try discriminate; lia.
Qed.

Lemma fle_refl (x : float) : nonneg x -> fle x x = true.
Proof.
  intros Hx.
  destruct (nonneg_cases x Hx) as [[sx ->] | [-> | (mx & ex & ->)]];
    unfold fle, SFleb, SFcompare; try reflexivity.
  rewrite Z.compare_refl.
  change (Pos.compare_cont Eq mx mx) with (Pos.compare mx mx).
  now rewrite Pos.compare_refl.
Qed.

(** A float that is not negative is greater than zero or equal to it. *)
Lemma nonneg_gt_or_zero (x : float) :
  nonneg x ->
  (py_gt x fzero = true /\ feq x fzero = false)
  \/ (py_gt x fzero = false /\ feq x fzero = true).
Proof.
  intros Hx.
  destruct (nonneg_cases x Hx) as [[sx ->] | [-> | (mx & ex & ->)]];
    [right | left | left]; split; reflexivity.
Qed.

Lemma fold_max_spec (rest : list float) (x : float) (seen : list float) :
  Forall nonneg rest -> nonneg x -> Forall nonneg seen ->
  In x seen -> Forall (fun v => fle v x = true) seen ->
  let m := fold_left (fun best y => if py_gt y best then y else best) rest x in
  In m (seen ++ rest) /\ Forall (fun v => fle v m = true) (seen ++ rest).
Proof.
  revert x seen. induction rest as [| y rest IH]; intros x seen Hr Hx Hs Hin Hall.
  - simpl. rewrite app_nil_r. now split.
  - inversion Hr as [| ? ? Hy Hr']; subst.
    cbn [fold_left].
    replace (seen ++ y :: rest) with ((seen ++ [y]) ++ rest)
      by now rewrite <- app_assoc.
    destruct (py_gt y x) eqn:Egt.
    + apply IH; try assumption.
      * apply Forall_app; split; [assumption | now constructor].
      * apply in_or_app; right; now left.
      * apply Forall_app; split.
        -- rewrite Forall_forall in *. intros v Hv.
           apply le_lt_trans with x; auto.
        -- constructor; [now apply fle_refl | constructor].
    + apply IH; try assumption.
      * apply Forall_app; split; [assumption | now constructor].
      * apply in_or_app; now left.
      * apply Forall_app; split; [assumption |].
        constructor; [now apply not_gt_le | constructor].
Qed.

Lemma py_max_is_maximum (values : list float) :
  values <> [] -> Forall nonneg values ->
  exists m, py_max values = Ok m /\ is_maximum m values /\ nonneg m.
Proof.
  intros Hne Hall. destruct values as [| x rest]; [congruence |].
  inversion Hall as [| ? ? Hx Hr]; subst.
  eexists; split; [reflexivity |].
  pose proof (fold_max_spec rest x [x] Hr Hx (Forall_cons _ Hx (Forall_nil _))
                (or_introl eq_refl)
                (Forall_cons _ (fle_refl x Hx) (Forall_nil _))) as [H1 H2].
  cbn [app] in H1, H2. split; [split; assumption |].
  rewrite Forall_forall in Hall. now apply Hall.
Qed.

Lemma image_percentage_scaled (m : float) (img : json) (v : float) :
  nonneg m -> image_size img = Ok v -> image_percentage m img = Ok (scaled m v).
Proof.
  intros Hm Hv. unfold image_percentage, scaled. rewrite Hv. cbn [bind].
  destruct (nonneg_gt_or_zero m Hm) as [[Hgt Hz] | [Hgt Hz]]; rewrite Hgt, Hz.
  - unfold py_truediv, py_mul.
    destruct m as [s | s | | s mm me]; try reflexivity.
    destruct s; discriminate.
  - reflexivity.
Qed.

Lemma image_percentage_shown (m : float) (img : json) (v : float) :
  image_size img = Ok v -> image_percentage m img = Ok (shown_percentage m v).
Proof.
  intros Hv. unfold image_percentage, shown_percentage. rewrite Hv. cbn [bind].
  destruct (py_gt m fzero) eqn:E; [| reflexivity].
  unfold py_truediv. destruct m as [s | s | | s mm me]; try reflexivity.
  destruct s; discriminate.
Qed.

Lemma io_bind_lift_ok {E A B : Type} (v : A) (k : A -> io E B) :
  io_bind (lift (Ok v)) k = k v.
Proof. unfold io_bind, lift. now destruct (k v). Qed.

Lemma monitor_image_row_shown (py_str : json -> str) (m : float) (img : json) (v : float) :
  image_size img = Ok v ->
  Monitor.image_row py_str m img
  = monitor_image_row_at py_str (shown_percentage m v) img.
Proof.
  intros Hv. unfold Monitor.image_row, monitor_image_row_at.
  rewrite (image_percentage_shown m img v Hv).
  now rewrite io_bind_lift_ok.
Qed.

Lemma monitorfree_image_row_shown (m : float) (img : json) (v : float) :
  image_size img = Ok v ->
  MonitorFree.image_row m img = monitorfree_image_row_at (shown_percentage m v) img.
Proof.
  intros Hv. unfold MonitorFree.image_row, monitorfree_image_row_at.
  now rewrite (image_percentage_shown m img v Hv).
Qed.

Lemma monitor_image_rows_shown
  (py_str : json -> str) (m : float) (images : list json) (sizes : list float) (n : nat) :
  mapM image_size images = Ok sizes ->
  for_each (Monitor.image_row py_str m) (firstn n images)
  = for_each (fun iv => monitor_image_row_at py_str (shown_percentage m (snd iv)) (fst iv))
             (firstn n (combine images sizes)).
Proof.
  revert sizes n. induction images as [| img images IH]; intros sizes n H.
  - destruct n; reflexivity.
  - cbn [mapM] in H. destruct (image_size img) as [v | e] eqn:Ev; [| discriminate].
    destruct (mapM image_size images) as [vs | e] eqn:Evs; [| discriminate].
    cbn [bind] in H. injection H as <-.
    destruct n as [| n]; [reflexivity |].
    cbn [firstn combine for_each fst snd].
    now rewrite (monitor_image_row_shown py_str m img v Ev), (IH vs n eq_refl).
Qed.

Lemma monitorfree_image_rows_shown
  (m : float) (images : list json) (sizes : list float) (n : nat) :
  mapM image_size images = Ok sizes ->
  mapM (MonitorFree.image_row m) (firstn n images)
  = mapM (fun iv => monitorfree_image_row_at (shown_percentage m (snd iv)) (fst iv))
         (firstn n (combine images sizes)).
Proof.
  revert sizes n. induction images as [| img images IH]; intros sizes n H.
  - destruct n; reflexivity.
  - cbn [mapM] in H. destruct (image_size img) as [v | e] eqn:Ev; [| discriminate].
    destruct (mapM image_size images) as [vs | e] eqn:Evs; [| discriminate].
    cbn [bind] in H. injection H as <-.
    destruct n as [| n]; [reflexivity |].
    cbn [firstn combine mapM fst snd].
    now rewrite (monitorfree_image_row_shown m img v Ev), (IH vs n eq_refl).
Qed.

Lemma fold_max_member (rest : list float) (best : float) :
  let m := fold_left (fun best y => if py_gt y best then y else best) rest best in
  m = best \/ In m rest.
Proof.
  revert best. induction rest as [| y rest IH]; intros best; cbn [fold_left].
  - now left.
  - destruct (py_gt y best).
    + destruct (IH y) as [H | H]; [right; left; now rewrite H | right; now right].
    + destruct (IH best) as [H | H]; [now left | right; now right].
Qed.

Lemma py_max_member (values : list float) :
  values <> [] -> exists m, py_max values = Ok m /\ In m values.
Proof.
  destruct values as [| x rest]; [congruence |]. intros _.
  eexists. split; [reflexivity |].
  destruct (fold_max_member rest x) as [H | H]; [left; now rewrite H | now right].
Qed.

Lemma shown_percentage_scaled (m v : float) :
  nonneg m -> shown_percentage m v = scaled m v.
Proof.
  intros Hm. unfold shown_percentage, scaled, py_mul.
  destruct (nonneg_gt_or_zero m Hm) as [[Hgt Hz] | [Hgt Hz]]; now rewrite Hgt, Hz.
Qed.

(** C4, as amended: for every list of fetched images, the maximum is
    Python's [max] over the sizes of the whole list, taken before the
    list is cut, and each script draws the first rows (eight in
    [monitor.py], five in [monitorfree.py]) with the bar of
    [size / max * 100] when that maximum is greater than 0, and with the
    bar of 0 whenever it is not: when it is 0, and also when it is
    negative or no number. For a maximum that is not negative this is
    the scaling of the specification. With no image at all the
    placeholder is drawn and nothing is divided; with a size that does
    not parse the exception leaves the panel before its first row. *)
Theorem image_bars_scaled_to_full_maximum (py_str : json -> str) (images : list json) :
  match images with
  | [] =>
      Monitor.display_images py_str []
      = (images_heading
           ++ [Monitor.Printed (Monitor.Colors.YELLOW ++ u "  No images found"
                                ++ Monitor.Colors.RESET);
               Monitor.Printed []],
         Ok tt)
      /\ MonitorFree.images_panel []
         = Ok (images_panel_of [[u "No images"; []; []; []]])
  | _ :: _ =>
      match mapM image_size images with
      | Raise e =>
          Monitor.display_images py_str images = (images_heading, Raise e)
          /\ MonitorFree.images_panel images = Raise e
      | Ok sizes =>
          exists m,
            py_max sizes = Ok m
            /\ In m sizes
            /\ (Forall nonneg sizes -> Forall (fun v => fle v m = true) sizes)
            /\ Monitor.display_images py_str images
               = ((images_heading, Ok tt) ;;;
                  for_each (fun iv => monitor_image_row_at py_str
                                        (shown_percentage m (snd iv)) (fst iv))
                           (firstn 8 (combine images sizes)) ;;;
                  Monitor.print [])
            /\ MonitorFree.images_panel images
               = (image_rows <- mapM (fun iv => monitorfree_image_row_at
                                                  (shown_percentage m (snd iv)) (fst iv))
                                     (firstn 5 (combine images sizes)) ;;
                  Ok (images_panel_of image_rows))
            /\ (forall v, py_gt m fzero = true ->
                          shown_percentage m v = fmul (fdiv v m) (fconst 100))
            /\ (forall v, py_gt m fzero = false -> shown_percentage m v = fzero)
            /\ (forall v, nonneg m -> shown_percentage m v = scaled m v)
      end
  end.
Proof.
  destruct images as [| img images]; [split; reflexivity |].
  destruct (mapM image_size (img :: images)) as [sizes | e] eqn:Hsizes.
  - assert (Hne : sizes <> []).
    { intros ->. apply mapM_ok_length in Hsizes. discriminate. }
    destruct (py_max_member sizes Hne) as (m & Hmax & Hin).
    exists m. split; [exact Hmax |]. split; [exact Hin |].
    split.
    { intros Hnn. destruct (py_max_is_maximum sizes Hne Hnn) as (m' & Hmax' & [_ Hall] & _).
      rewrite Hmax in Hmax'. injection Hmax' as <-. exact Hall. }
    split.
    { unfold Monitor.display_images, max_image_size. rewrite Hsizes. cbn [bind].
      rewrite Hmax, io_bind_lift_ok.
      rewrite (monitor_image_rows_shown py_str m _ sizes 8 Hsizes).
      destruct (for_each _ _) as [out [[] | e]]; reflexivity. }
    split.
    { unfold MonitorFree.images_panel, max_image_size. rewrite Hsizes. cbn [bind].
      rewrite Hmax. cbn [bind].
      now rewrite (monitorfree_image_rows_shown m _ sizes 5 Hsizes). }
    split.
    { intros v H. unfold shown_percentage. now rewrite H. }
    split.
    { intros v H. unfold shown_percentage. now rewrite H. }
    intros v. apply shown_percentage_scaled.
  - unfold Monitor.display_images, MonitorFree.images_panel, max_image_size.
    rewrite Hsizes. split; reflexivity.
Qed.

(** The ten sample images: the eight rows of [monitor.py] and the five
    of [monitorfree.py] are scaled by the tenth image, which neither
    shows. *)
Lemma image_bars_scaled_witness :
  exists m,
    py_max ten_sizes = Ok m
    /\ In m ten_sizes
    /\ (Forall nonneg ten_sizes -> Forall (fun v => fle v m = true) ten_sizes)
    /\ Monitor.display_images no_str ten_images
       = ((images_heading, Ok tt) ;;;
          for_each (fun iv => monitor_image_row_at no_str
                                (shown_percentage m (snd iv)) (fst iv))
                   (firstn 8 (combine ten_images ten_sizes)) ;;;
          Monitor.print [])
    /\ MonitorFree.images_panel ten_images
       = (image_rows <- mapM (fun iv => monitorfree_image_row_at
                                          (shown_percentage m (snd iv)) (fst iv))
                             (firstn 5 (combine ten_images ten_sizes)) ;;
          Ok (images_panel_of image_rows))
    /\ (forall v, py_gt m fzero = true ->
                  shown_percentage m v = fmul (fdiv v m) (fconst 100))
    /\ (forall v, py_gt m fzero = false -> shown_percentage m v = fzero)
    /\ (forall v, nonneg m -> shown_percentage m v = scaled m v).
Proof.
  assert (E : mapM image_size ten_images = Ok ten_sizes) by (vm_compute; reflexivity).
  pose proof (image_bars_scaled_to_full_maximum no_str ten_images) as H.
  rewrite E in H. exact H.
Defined.

(** C4, counterexample: for the one image of size [-1GB] the maximum is
    -1024, which is not 0, and the size divided by the maximum, times
    100, is 100; both scripts draw the bar of 0. *)
Lemma negative_maximum_is_drawn_as_zero :
  max_image_size [negative_image] = Ok (S754_finite true 4503599627370496 (-42))
  /\ feq (S754_finite true 4503599627370496 (-42)) fzero = false
  /\ scaled (S754_finite true 4503599627370496 (-42))
            (S754_finite true 4503599627370496 (-42)) = fconst 100
  /\ image_percentage (S754_finite true 4503599627370496 (-42)) negative_image
     = Ok fzero
  /\ Monitor.display_images no_str [negative_image]
     = (images_heading
          ++ [Monitor.Printed
                (Monitor.Colors.CYAN ++ ljust 30 (u "scratch") ++ Monitor.Colors.RESET
                 ++ u " " ++ Monitor.Colors.YELLOW ++ ljust 15 (u "latest")
                 ++ Monitor.Colors.RESET ++ u " " ++ ljust 10 (u "-1GB") ++ u " "
                 ++ Monitor.Colors.GREEN ++ Monitor.Colors.RESET
                 ++ repeat LIGHT_SHADE 15 ++ u "   0.0%");
              Monitor.Printed []],
        Ok tt)
  /\ MonitorFree.images_panel [negative_image]
     = Ok (images_panel_of
             [[u "scratch"; u "latest"; u "-1GB";
               u "[green]" ++ repeat LIGHT_SHADE 15 ++ u "[/green]   0.0%"]]).
Proof.
  repeat split; vm_compute; reflexivity.
Qed.

(** With one row shown, the 512 MB image is scaled by the 2 GB image
    that is not shown: 25 percent. *)
Example percentage_uses_hidden_maximum :
  max_image_size two_images = Ok (fconst 2048)
  /\ mapM (image_percentage (fconst 2048)) (firstn 1 two_images) = Ok [fconst 25].
Proof. split; vm_compute; reflexivity. Qed.

(** *** Signs *)

Lemma fmul_finite_nonneg (x : float) (m : positive) (e : Z) :
  nonneg x -> nonneg (fmul x (S754_finite false m e)).
Proof.
  intros Hx.
  destruct (nonneg_cases x Hx) as [[s ->] | [-> | (mx & ex & ->)]].
  - destruct s; reflexivity.
  - reflexivity.
  - apply fsigned_nonneg. unfold fmul, SFmul.
    apply (round_aux_signed false). lia.
Qed.

Lemma fdiv_finite_nonneg (x : float) (m : positive) (e : Z) :
  nonneg x -> nonneg (fdiv x (S754_finite false m e)).
Proof.
  intros Hx.
  destruct (nonneg_cases x Hx) as [[s ->] | [-> | (mx & ex & ->)]].
  - destruct s; reflexivity.
  - reflexivity.
  - apply fsigned_nonneg. unfold fdiv, SFdiv, SFdiv_core_binary.
    set (sh := ex - e - _).
    set (m' := match sh with
               | Z0 => Zpos mx
               | Zpos _ => Z.shiftl (Zpos mx) sh
               | Zneg _ => 0
               end).
    assert (Hm' : 0 <= m').
    { unfold m'. destruct sh; try lia. apply Z.shiftl_nonneg. lia. }
    destruct (Z.div_eucl m' (Zpos m)) as [q r] eqn:Eq.
    assert (Hq : q = m' / Zpos m) by (unfold Z.div; now rewrite Eq).
    apply (round_aux_signed false). rewrite Hq. apply Z.div_pos; lia.
Qed.

(** *** [float(s)] *)

Lemma py_float_raises_ValueError (s : str) (e : exn) :
  py_float s = Raise e -> e = ValueError.
Proof.
  unfold py_float.
  destruct (drop_underscores _ _) as [s2 |]; [| now intros [= <-]].
  destruct (parse_float_body s2); [discriminate | now intros [= <-]].
Qed.

(** *** [parse_size] *)

Lemma parse_size_conversion (s : str) : parse_size s = size_conversion s.
Proof.
  unfold parse_size, size_conversion, selected_unit, numeric_portion.
  destruct (contains (u "GB") (strip s)); [reflexivity |].
  destruct (contains (u "MB") (strip s)).
  - cbn [unit_text to_megabytes]. now destruct (py_float _).
  - destruct (contains (u "KB") (strip s)); reflexivity.
Qed.

Lemma to_megabytes_nonneg (un : size_unit) (x : float) :
  nonneg x -> nonneg (to_megabytes un x).
Proof.
  intros Hx. destruct un; cbn [to_megabytes].
  - apply fmul_finite_nonneg; assumption.
  - assumption.
  - apply fdiv_finite_nonneg; assumption.
Qed.

(** C8, as amended: [parse_size] follows the conversion table. The unit
    is GB when the stripped text contains GB, else MB, else KB; the
    number left once the unit text is removed is multiplied by 1024 for
    GB, kept for MB and divided by 1024 for KB ("2GB" gives 2048,
    "512MB" gives 512, "256KB" gives 0.25); a text with none of the
    three gives 0. The result is not negative when the number is not,
    and a number that does not parse raises [ValueError]. *)
Theorem parse_size_documented_conversion :
  (forall s, parse_size s = size_conversion s)
  /\ (forall s un x,
        selected_unit (strip s) = Some un ->
        py_float (numeric_portion un (strip s)) = Ok x ->
        parse_size s = Ok (to_megabytes un x)
        /\ (nonneg x -> nonneg (to_megabytes un x)))
  /\ (forall s un,
        selected_unit (strip s) = Some un ->
        ~ returns (py_float (numeric_portion un (strip s))) ->
        parse_size s = Raise ValueError)
  /\ (forall s, selected_unit (strip s) = None -> parse_size s = Ok fzero)
  /\ parse_size (u "2GB") = Ok (fconst 2048)
  /\ parse_size (u "512MB") = Ok (fconst 512)
  /\ parse_size (u "256KB") = py_float (u "0.25")
  /\ selected_unit (u "1GBMBKB") = Some GB
  /\ selected_unit (u "1MBKB") = Some MB.
Proof.
  split; [exact parse_size_conversion |].
  split.
  { intros s un x Hun Hx. split.
    - rewrite parse_size_conversion. unfold size_conversion. now rewrite Hun, Hx.
    - apply to_megabytes_nonneg. }
  split.
  { intros s un Hun Hx. rewrite parse_size_conversion. unfold size_conversion.
    rewrite Hun. destruct (py_float _) as [x | e] eqn:E.
    - exfalso. apply Hx. now exists x.
    - cbn [bind]. now rewrite (py_float_raises_ValueError _ _ E). }
  split.
  { intros s Hun. rewrite parse_size_conversion. unfold size_conversion. now rewrite Hun. }
  repeat split; vm_compute; reflexivity.
Qed.

(** C8, counterexample: a recognised unit with a negative number gives a
    negative size, and one with a number that does not parse gives no
    size at all. *)
Lemma parse_size_negative_and_unparsable :
  parse_size (u "-1GB") = Ok (S754_finite true 4503599627370496 (-42))
  /\ parse_size (u "-1GB") = py_float (u "-1024")
  /\ fle fzero (S754_finite true 4503599627370496 (-42)) = false
  /\ parse_size (u "xGB") = Raise ValueError.
Proof. repeat split; vm_compute; reflexivity. Qed.

(** C1, as amended: [parse_size] returns 0 when the stripped text holds
    no unit; when it holds one, [parse_size] returns a value exactly
    when the numeric portion is text that [float] accepts, and raises
    [ValueError] otherwise. *)
Theorem parse_size_returns_iff (s : str) :
  match selected_unit (strip s) with
  | None => parse_size s = Ok fzero
  | Some un =>
      (returns (parse_size s) <-> returns (py_float (numeric_portion un (strip s))))
      /\ (~ returns (py_float (numeric_portion un (strip s))) ->
          parse_size s = Raise ValueError)
  end.
Proof.
  rewrite parse_size_conversion. unfold size_conversion.
  destruct (selected_unit (strip s)) as [un |]; [| reflexivity].
  destruct (py_float (numeric_portion un (strip s))) as [x | e] eqn:E; cbn [bind].
  - split; [split; intros _; eexists; reflexivity |].
    intros H. exfalso. apply H. now exists x.
  - rewrite (py_float_raises_ValueError _ _ E).
    split; [split; intros [v Hv]; discriminate | reflexivity].
Qed.

(** C1, counterexample: with the unit GB and the numeric portion
    [abc], [parse_size] raises [ValueError] and returns nothing. *)
Lemma parse_size_invalid_number_raises :
  selected_unit (strip (u "abcGB")) = Some GB
  /\ numeric_portion GB (strip (u "abcGB")) = u "abc"
  /\ parse_size (u "abcGB") = Raise ValueError
  /\ ~ returns (parse_size (u "abcGB")).
Proof.
  repeat split; try (vm_compute; reflexivity).
  intros [v Hv]. vm_compute in Hv. discriminate.
Qed.

(** *** [rstrip] *)

Lemma lstrip_by_repeat (p : char -> bool) (c : char) (n : nat) (s : str) :
  p c = true -> lstrip_by p (repeat c n ++ s) = lstrip_by p s.
Proof.
  intros Hc. induction n as [| n IH]; [reflexivity |].
  cbn [repeat app lstrip_by]. now rewrite Hc.
Qed.

Lemma rev_repeat {A : Type} (x : A) (n : nat) : rev (repeat x n) = repeat x n.
Proof.
  induction n as [| n IH]; [reflexivity |].
  cbn [repeat rev]. rewrite IH. symmetry. apply repeat_cons.
Qed.

Lemma rstrip_percent_signs (body : str) (n : nat) :
  rstrip_chars (u "%") (body ++ repeat 37%N n) = rstrip_chars (u "%") body.
Proof.
  unfold rstrip_chars, rstrip_by.
  rewrite rev_app_distr, rev_repeat, lstrip_by_repeat; reflexivity.
Qed.

(** C2, as amended: the percentage conversion drops every trailing [%]
    and hands the rest to [float] ("73.5%" gives 73.5, "0%" gives 0);
    its only failure is the [ValueError] that [float] raises on text it
    does not accept. *)
Theorem parse_percent_strips_then_parses :
  (forall body n, parse_percent (body ++ repeat 37%N n) = parse_percent body)
  /\ (forall s, rstrip_chars (u "%") s = s -> parse_percent s = py_float s)
  /\ (forall s e, parse_percent s = Raise e -> e = ValueError)
  /\ (forall s, returns (parse_percent s)
                <-> returns (py_float (rstrip_chars (u "%") s)))
  /\ parse_percent (u "73.5%") = Ok (S754_finite false 5172102697058304 (-46))
  /\ py_float (u "73.5") = Ok (S754_finite false 5172102697058304 (-46))
  /\ parse_percent (u "0%") = Ok fzero
  /\ parse_percent (u "12.3") = py_float (u "12.3").
Proof.
  split.
  { intros body n. unfold parse_percent. now rewrite rstrip_percent_signs. }
  split.
  { intros s Hs. unfold parse_percent. now rewrite Hs. }
  split.
  { intros s e. unfold parse_percent. apply py_float_raises_ValueError. }
  split.
  { intros s. unfold parse_percent. tauto. }
  repeat split; vm_compute; reflexivity.
Qed.

(** C2, counterexample: malformed percentages raise [ValueError]; none
    of them gives 0. *)
Lemma parse_percent_malformed_raises :
  parse_percent (u "abc%") = Raise ValueError
  /\ parse_percent (u "--") = Raise ValueError
  /\ parse_percent (u "") = Raise ValueError.
Proof. repeat split; vm_compute; reflexivity. Qed.

(** A statistics record whose CPU column is [--] ends both scripts with
    a traceback: the [ValueError] of [float] is caught nowhere. *)
Example malformed_percentage_ends_the_loop :
  snd (Monitor.main no_str stats_decoder world_with_dashes) = Crashed ValueError
  /\ snd (MonitorFree.main no_str stats_decoder world_with_dashes) = Crashed ValueError
  /\ exit_status (snd (Monitor.main no_str stats_decoder world_with_dashes)) = Some 1.
Proof. repeat split; vm_compute; reflexivity. Qed.

(** *** [in] and [replace] *)

Lemma starts_with_app (sub rest : str) : starts_with sub (sub ++ rest) = true.
Proof.
  induction sub as [| c sub IH]; [reflexivity |].
  cbn [app starts_with]. now rewrite N.eqb_refl, IH.
Qed.

Lemma contains_starts_with (sub s : str) :
  starts_with sub s = true -> contains sub s = true.
Proof. intros H. destruct s; cbn [contains]; now rewrite H. Qed.

Lemma contains_anywhere (sub before after : str) :
  contains sub (before ++ sub ++ after) = true.
Proof.
  induction before as [| c before IH].
  - cbn [app]. apply contains_starts_with, starts_with_app.
  - cbn [app contains]. rewrite IH. apply orb_true_r.
Qed.

Lemma replace_skipping_skip (old new tail rest : str) :
  replace_skipping old new (tail ++ rest) (List.length tail)
  = replace_skipping old new rest 0.
Proof.
  induction tail as [| c tail IH]; [reflexivity |].
  cbn [app List.length replace_skipping]. exact IH.
Qed.

(** The first occurrence of [old] is removed, and the replacement goes
    on after it. *)
Lemma replace_first_occurrence (c : char) (old' before rest : str) :
  ~ In c before ->
  replace (c :: old') [] (before ++ (c :: old') ++ rest)
  = before ++ replace (c :: old') [] rest.
Proof.
  unfold replace. intros Hc. induction before as [| b before IH].
  - cbn [app replace_skipping].
    change (c :: old' ++ rest) with ((c :: old') ++ rest).
    rewrite starts_with_app. cbn [List.length app].
    replace (S (List.length old') - 1)%nat with (List.length old') by lia.
    apply replace_skipping_skip.
  - cbn [app replace_skipping starts_with].
    assert (Hb : (c =? b)%N = false).
    { apply N.eqb_neq. intros ->. apply Hc. now left. }
    rewrite Hb. cbn [andb]. f_equal. apply IH.
    intros Hin. apply Hc. now right.
Qed.

Lemma starts_with_prefix (sub s : str) :
  starts_with sub s = true -> exists rest, s = sub ++ rest.
Proof.
  revert s. induction sub as [| c sub IH]; intros s H.
  - now exists s.
  - destruct s as [| d s]; cbn [starts_with] in H; [discriminate |].
    apply andb_prop in H. destruct H as [Hc Hs]. apply N.eqb_eq in Hc. subst d.
    destruct (IH s Hs) as (rest & ->). now exists rest.
Qed.

(** [sub in s] holds of the texts that hold [sub] somewhere, and of no
    other. *)
Lemma contains_iff (sub s : str) :
  contains sub s = true <-> exists before after, s = before ++ sub ++ after.
Proof.
  split.
  - induction s as [| c s IH]; cbn [contains]; intros H.
    + rewrite orb_false_r in H. apply starts_with_prefix in H.
      destruct H as (rest & H). now exists [], rest.
    + apply orb_prop in H. destruct H as [H | H].
      * apply starts_with_prefix in H. destruct H as (rest & H). now exists [], rest.
      * destruct (IH H) as (before & after & ->). now exists (c :: before), after.
  - intros (before & after & ->). apply contains_anywhere.
Qed.

Lemma contains_tail (sub : str) (c : char) (s : str) :
  contains sub (c :: s) = false ->
  starts_with sub (c :: s) = false /\ contains sub s = false.
Proof. cbn [contains]. intros H. now apply orb_false_elim in H. Qed.

(** A text without [old] is left as it is. *)
Lemma replace_absent (old new s : str) :
  contains old s = false -> replace old new s = s.
Proof.
  unfold replace. induction s as [| c s IH]; intros H; [reflexivity |].
  destruct (contains_tail old c s H) as [Hs Hc].
  cbn [replace_skipping]. rewrite Hs. f_equal. now apply IH.
Qed.

Lemma unit_text_letters (un : size_unit) : unit_text un = [unit_letter un; 66%N].
Proof. destruct un; reflexivity. Qed.

(** C10: for each of the three units, [parse_size] looks for the unit
    anywhere in the stripped text: the test holds exactly of the texts
    that hold the two letters of the unit somewhere, at the start and in
    the middle as well as at the end. The replacement removes the
    occurrences from left to right before the number is parsed, and
    leaves a text without the unit as it is; the number that is left is
    converted as the unit says, GB before MB before KB. "GB1.5" gives
    1536 and "1GB2GB" gives 12288; "MB1.5" gives 1.5 and "1KB2KB" gives
    12 / 1024. *)
Theorem parse_size_unit_is_substring :
  (forall un s,
      contains (unit_text un) s = true
      <-> exists before after, s = before ++ unit_text un ++ after)
  /\ (forall un before rest,
         ~ In (unit_letter un) before ->
         replace (unit_text un) [] (before ++ unit_text un ++ rest)
         = before ++ replace (unit_text un) [] rest)
  /\ (forall un s,
         contains (unit_text un) s = false -> replace (unit_text un) [] s = s)
  /\ (forall s,
         contains (u "GB") (strip s) = true ->
         parse_size s
         = (x <- py_float (replace (u "GB") [] (strip s)) ;;
            Ok (py_mul x (fconst 1024))))
  /\ (forall s,
         contains (u "GB") (strip s) = false ->
         contains (u "MB") (strip s) = true ->
         parse_size s = py_float (replace (u "MB") [] (strip s)))
  /\ (forall s,
         contains (u "GB") (strip s) = false ->
         contains (u "MB") (strip s) = false ->
         contains (u "KB") (strip s) = true ->
         parse_size s
         = (x <- py_float (replace (u "KB") [] (strip s)) ;;
            py_truediv x (fconst 1024)))
  /\ (forall s,
         contains (u "GB") (strip s) = false ->
         contains (u "MB") (strip s) = false ->
         contains (u "KB") (strip s) = false ->
         parse_size s = Ok fzero)
  /\ contains (u "GB") (u "GB1.5") = true
  /\ contains (u "GB") (u "1.5G") = false
  /\ replace (u "GB") [] (u "GB1.5") = u "1.5"
  /\ parse_size (u "GB1.5") = Ok (fconst 1536)
  /\ replace (u "GB") [] (u "1GB2GB") = u "12"
  /\ parse_size (u "1GB2GB") = Ok (fconst 12288)
  /\ parse_size (u "MB1.5") = Ok (fdiv (fconst 3) (fconst 2))
  /\ parse_size (u "1KB2KB") = Ok (fdiv (fconst 12) (fconst 1024)).
Proof.
  split.
  { intros un s. apply contains_iff. }
  split.
  { intros un before rest H. rewrite unit_text_letters.
    exact (replace_first_occurrence (unit_letter un) [66%N] before rest H). }
  split.
  { intros un s. apply replace_absent. }
  split.
  { intros s H. unfold parse_size. now rewrite H. }
  split.
  { intros s HG HM. unfold parse_size. now rewrite HG, HM. }
  split.
  { intros s HG HM HK. unfold parse_size. now rewrite HG, HM, HK. }
  split.
  { intros s HG HM HK. unfold parse_size. now rewrite HG, HM, HK. }
  repeat split; vm_compute; reflexivity.
Qed.

(** *** The queries *)

Lemma mapM_raises {A B : Type} (f : A -> result B) (xs : list A) (x : A) (e : exn) :
  In x xs -> f x = Raise e -> ~ returns (mapM f xs).
Proof.
  induction xs as [| y xs IH]; intros Hin Hx [ys Hys]; [contradiction |].
  simpl in Hys. destruct (f y) as [b | e'] eqn:Ey; [| discriminate].
  destruct (mapM f xs) as [bs | e'] eqn:Ebs; [| discriminate].
  destruct Hin as [-> | Hin]; [congruence |].
  apply (IH Hin Hx). now exists bs.
Qed.

(** C5, as amended: each of the three queries returns the empty list
    when its command exits with a status that is not 0, when the call
    itself raises, and when one line of the output fails to decode,
    whatever the other lines hold; otherwise it returns the decoded
    records. A query is a function to lists: it raises nothing, and it
    returns no flag beside the list. *)
Theorem query_fails_soft
  (json_loads : str -> result json) (get : runtime -> list json) (cmd : command)
  (rt : runtime) :
  In (get, cmd) (queries json_loads) ->
  (forall rc out, rt cmd = Exited rc out -> rc <> 0 -> get rt = [])
  /\ (forall e, rt cmd = NotRun e -> get rt = [])
  /\ (forall out line e,
        rt cmd = Exited 0 out -> In line (output_lines out) ->
        json_loads line = Raise e -> get rt = [])
  /\ (forall out records,
        rt cmd = Exited 0 out -> mapM json_loads (output_lines out) = Ok records ->
        get rt = records).
Proof.
  intros Hin.
  assert (Hget : get rt = query json_loads rt cmd).
  { destruct Hin as [H | [H | [H | []]]]; inversion H; reflexivity. }
  rewrite Hget. unfold query, query_body, subprocess_run.
  repeat split.
  - intros rc out -> Hrc. apply Z.eqb_neq in Hrc. now rewrite Hrc.
  - now intros e ->.
  - intros out line e -> Hline He. cbn [Z.eqb bind].
    destruct (mapM json_loads _) as [records | e'] eqn:E; [| reflexivity].
    exfalso. apply (mapM_raises json_loads _ line e Hline He). now exists records.
  - intros out records -> Hrec. cbn [Z.eqb bind].
    unfold output_lines in Hrec. now rewrite Hrec.
Qed.

Lemma query_fails_soft_witness :
  (forall rc out, runtime_down images_command = Exited rc out -> rc <> 0 ->
                  get_docker_images no_json runtime_down = [])
  /\ (forall e, runtime_down images_command = NotRun e ->
                get_docker_images no_json runtime_down = [])
  /\ (forall out line e,
        runtime_down images_command = Exited 0 out -> In line (output_lines out) ->
        no_json line = Raise e -> get_docker_images no_json runtime_down = [])
  /\ (forall out records,
        runtime_down images_command = Exited 0 out ->
        mapM no_json (output_lines out) = Ok records ->
        get_docker_images no_json runtime_down = records).
Proof.
  apply (query_fails_soft no_json (get_docker_images no_json) images_command runtime_down).
  left. reflexivity.
Defined.

(** C5, counterexample: a failed call and a successful call that lists
    nothing return the same value, so no [ok] flag can be read off the
    result. *)
Lemma query_result_carries_no_ok_flag :
  get_docker_images no_json runtime_down = []
  /\ get_docker_images no_json runtime_idle = []
  /\ ~ exists ok : list json -> bool,
         ok (get_docker_images no_json runtime_down) = false
         /\ ok (get_docker_images no_json runtime_idle) = true.
Proof.
  repeat split; try reflexivity.
  intros (ok & Hdown & Hidle).
  change (get_docker_images no_json runtime_idle)
    with (get_docker_images no_json runtime_down) in Hidle.
  congruence.
Qed.

(** *** The summary *)




(** Twelve running containers: the summary counts twelve, the panel
    shows ten rows under its three heading lines and above the empty
    line. *)
Example summary_counts_of_twelve :
  summarize [] (repeat web_container 12)
  = Ok {| imageCount := 0; containerCount := 12; runningCount := 12; stoppedCount := 0 |}
  /\ List.length (fst (Monitor.display_containers no_str (repeat web_container 12)))
     = 14%nat.
Proof. split; vm_compute; reflexivity. Qed.

(** *** Start-up *)

(** C3, as amended: when the availability check fails, each script
    prints its error message and nothing else, whatever the later turns
    of the loop would have been, and [main] returns: the exit status
    is 0. *)
Theorem availability_failure_prints_and_returns
  (py_str : json -> str) (json_loads : str -> result json) (w : world) (e : exn) :
  docker_version (startup w) = Raise e ->
  Monitor.main py_str json_loads w
  = ([Monitor.Printed (Monitor.Colors.RED
                         ++ u "Error: Docker is not installed or not running"
                         ++ Monitor.Colors.RESET)],
     Returned)
  /\ MonitorFree.main py_str json_loads w
     = ([MonitorFree.ConsolePrint
           (u "[red]Error: Docker is not installed or not running[/red]")],
        Returned)
  /\ exit_status (snd (Monitor.main py_str json_loads w)) = Some 0
  /\ exit_status (snd (MonitorFree.main py_str json_loads w)) = Some 0.
Proof.
  intros H. unfold Monitor.main, MonitorFree.main. rewrite H.
  repeat split.
Qed.

Lemma availability_failure_witness :
  Monitor.main no_str no_json world_without_docker
  = ([Monitor.Printed (Monitor.Colors.RED
                         ++ u "Error: Docker is not installed or not running"
                         ++ Monitor.Colors.RESET)],
     Returned)
  /\ MonitorFree.main no_str no_json world_without_docker
     = ([MonitorFree.ConsolePrint
           (u "[red]Error: Docker is not installed or not running[/red]")],
        Returned)
  /\ exit_status (snd (Monitor.main no_str no_json world_without_docker)) = Some 0
  /\ exit_status (snd (MonitorFree.main no_str no_json world_without_docker)) = Some 0.
Proof.
  apply (availability_failure_prints_and_returns no_str no_json world_without_docker
           FileNotFoundError).
  reflexivity.
Defined.

(** C3, counterexample: on a machine without Docker neither script ends
    with an exit status other than 0. *)
Lemma availability_failure_exit_status_is_zero :
  docker_version (startup world_without_docker) = Raise FileNotFoundError
  /\ ~ (exists n, n <> 0
                  /\ exit_status (snd (Monitor.main no_str no_json world_without_docker))
                     = Some n)
  /\ ~ (exists n, n <> 0
                  /\ exit_status (snd (MonitorFree.main no_str no_json world_without_docker))
                     = Some n).
Proof.
  split; [reflexivity |].
  split; intros (n & Hn & H); vm_compute in H; congruence.
Qed.

(** *** Bars *)

Lemma copies_one (c : char) (n : Z) : copies [c] n = repeat c (Z.to_nat n).
Proof.
  unfold copies. induction (Z.to_nat n) as [| k IH]; [reflexivity |].
  cbn [repeat List.concat app]. now rewrite IH.
Qed.

(** A count of cells that the machine holds. *)
Lemma str_mul_cells (c : char) (n : Z) :
  - 2 ^ 63 <= n < 2 ^ 31 -> str_mul [c] n = Ok (repeat c (Z.to_nat n)).
Proof.
  intros Hn. unfold str_mul, INDEX_MAX, STRING_MAX.
  change (Z.of_nat (List.length [c])) with 1.
  destruct (Z.ltb_spec n (- (2 ^ 63 - 1) - 1)); [lia |].
  destruct (Z.ltb_spec (2 ^ 63 - 1) n); [lia |]. cbn [orb].
  destruct (Z.leb_spec n 0).
  - replace (Z.to_nat n) with 0%nat by lia. reflexivity.
  - assert (Hq : 1 <= (2 ^ 63 - 1) / n) by (apply Z.div_le_lower_bound; lia).
    destruct (Z.ltb_spec ((2 ^ 63 - 1) / n) 1); [lia |].
    destruct (Z.ltb_spec (2 ^ 31 - 1) (n * 1)); [lia |].
    now rewrite copies_one.
Qed.




(** [float(w)] for a width below [2 ^ K]. *)
Lemma float_of_int_digits (w K : Z) :
  0 <= K <= 1000 -> 0 <= w < 2 ^ K ->
  exists wf, float_of_int w = Ok wf /\ fbounded wf false (K + 1) (Z.max 0 (K - 52)).
Proof.
  intros HK [Hw0 Hw]. unfold float_of_int, binary_normalize.
  destruct w as [| p | p]; [eexists; split; reflexivity | | lia].
  unfold binary_round, shl_align.
  set (d := Zpos (digits2_pos p)).
  assert (Hd : d <= K).
  { apply (Zdigits2_le_iff (Zpos p) K); [lia | assumption]. }
  assert (Hmain : forall mz ez, Zpos (digits2_pos mz) + ez <= K -> ez <= 0 ->
            exists wf,
              match binary_round_aux prec emax false (Zpos mz) ez loc_Exact with
              | S754_infinity _ => Raise OverflowError
              | x => Ok x
              end = Ok wf /\ fbounded wf false (K + 1) (Z.max 0 (K - 52))).
  { intros mz ez HKz Hez.
    pose proof (round_aux_bounded false (Zpos mz) ez loc_Exact K
                  ltac:(lia) HKz ltac:(lia) ltac:(lia) ltac:(lia)) as H.
    destruct (binary_round_aux prec emax false (Zpos mz) ez loc_Exact) as [s | s | | s m e];
      try contradiction.
    - eexists; split; [reflexivity | exact H].
    - eexists; split; [reflexivity |].
      eapply fbounded_weaken; [exact H | lia | lia]. }
  fold d. replace (d + 0) with d by lia.
  destruct (fexp prec emax d - 0) as [| k | k] eqn:Ek.
  - apply Hmain; fold d; lia.
  - apply Hmain; fold d; lia.
  - apply Hmain.
    + change (PosDef.Pos.iter xO p k) with (Pos.iter xO p k).
      rewrite digits2_iter_xO, Pos2Z.inj_add. fold d.
      unfold fexp, emin, prec, emax in *. lia.
    + unfold fexp, emin, prec, emax in *. lia.
Qed.

(** [int(x)] for a float below [2 ^ K] in absolute value. *)
Lemma int_of_float_bound (x : float) (s : bool) (K E : Z) :
  fbounded x s K E -> 0 <= K ->
  exists n, int_of_float x = Ok n /\ - 2 ^ K < n < 2 ^ K.
Proof.
  intros Hx HK.
  assert (Hpos : 0 < 2 ^ K) by (apply Z.pow_pos_nonneg; lia).
  destruct x as [s' | s' | | s' m e]; try contradiction; cbn [fbounded] in Hx.
  - exists 0. split; [reflexivity | lia].
  - destruct Hx as (_ & Hd & _).
    exists (cond_Zopp s' (Z.shiftl (Zpos m) e)). split; [reflexivity |].
    assert (Hm : Zpos m < 2 ^ Zpos (digits2_pos m))
      by (apply (Zdigits2_bound (Zpos m)); lia).
    set (d := Zpos (digits2_pos m)) in *.
    assert (Hd0 : 0 < d) by (unfold d; lia).
    assert (Hs : 0 <= Z.shiftl (Zpos m) e < 2 ^ K).
    { destruct (Z_le_gt_dec 0 e) as [He | He].
      - rewrite Z.shiftl_mul_pow2 by lia. split.
        + apply Z.mul_nonneg_nonneg; [lia | apply Z.pow_nonneg; lia].
        + apply Z.lt_le_trans with (2 ^ d * 2 ^ e).
          * apply Z.mul_lt_mono_pos_r; [apply Z.pow_pos_nonneg; lia | assumption].
          * rewrite <- Z.pow_add_r by lia. apply Z.pow_le_mono_r; lia.
      - rewrite Z.shiftl_div_pow2 by lia. split.
        + apply Z.div_pos; [lia | apply Z.pow_pos_nonneg; lia].
        + apply Z.div_lt_upper_bound; [apply Z.pow_pos_nonneg; lia |].
          apply Z.lt_le_trans with (2 ^ d); [assumption |].
          rewrite <- Z.pow_add_r by lia. apply Z.pow_le_mono_r; lia. }
    destruct s'; cbn [cond_Zopp]; lia.
Qed.


(** The bar of a number of cells that the machine holds. *)
Lemma bar_of_cells (p : float) (w filled : Z) :
  filled_cells p w = Ok filled ->
  - 2 ^ 30 < filled < 2 ^ 30 -> - 2 ^ 30 < w < 2 ^ 30 ->
  Monitor.create_colored_bar p w
  = Ok (Monitor.band_color (band_of p)
        ++ repeat FULL_BLOCK (Z.to_nat filled)
        ++ Monitor.Colors.RESET
        ++ repeat LIGHT_SHADE (Z.to_nat (w - filled))
        ++ u " " ++ format_5_1f p ++ u "%")
  /\ MonitorFree.create_bar p w
     = Ok (u "[" ++ MonitorFree.band_name (band_of p) ++ u "]"
           ++ (repeat FULL_BLOCK (Z.to_nat filled)
               ++ repeat LIGHT_SHADE (Z.to_nat (w - filled)))
           ++ u "[/" ++ MonitorFree.band_name (band_of p) ++ u "] "
           ++ format_5_1f p ++ u "%").
Proof.
  intros Hf Hfilled Hw.
  assert (H63 : - 2 ^ 63 <= - 2 ^ 31) by (vm_compute; discriminate).
  assert (H31 : 2 * 2 ^ 30 = 2 ^ 31) by reflexivity.
  unfold Monitor.create_colored_bar, MonitorFree.create_bar. rewrite Hf. cbn [bind].
  change FULL with [FULL_BLOCK]. change EMPTY with [LIGHT_SHADE].
  rewrite (str_mul_cells FULL_BLOCK filled) by lia.
  rewrite (str_mul_cells LIGHT_SHADE (w - filled)) by lia.
  cbn [bind]. split; [| reflexivity].
  now rewrite <- !app_assoc.
Qed.






Lemma fle_finite (m m' : positive) (e e' : Z) :
  fle (S754_finite false m e) (S754_finite false m' e') = true
  <-> e < e' \/ (e = e' /\ Zpos m <= Zpos m').
Proof.
  unfold fle, SFleb, SFcompare.
  change (Pos.compare_cont Eq m m') with (Pos.compare m m').
  destruct (Z.compare_spec e e'); destruct (Pos.compare_spec m m');
    split; intros Hyp; try discriminate; try reflexivity; lia.
Qed.







(** In floats [29 / 100 * 100] is just below 29: the bar of 29 percent
    at width 100 has 28 full cells. *)
Example bar_cells_examples :
  floor_of_scaled (fconst 75) 15 = Some 11
  /\ band_of (fconst 75) = Red
  /\ floor_of_scaled (fconst 29) 100 = Some 28
  /\ filled_cells (fconst 29) 100 = Ok 28.
Proof. repeat split; vm_compute; reflexivity. Qed.

(** *** Empty listings *)

(** C6: with no container, [display_containers] of [monitor.py] prints
    the title, the column heads, the rule and an empty line, the same
    heading it prints above the rows of a list that is not empty, and
    no placeholder; the image and the usage panels of the same script
    print one, and so does the container table of [monitorfree.py]. *)
Theorem monitor_empty_containers_panel (py_str : json -> str) :
  Monitor.display_containers py_str []
  = ([Monitor.Printed (Monitor.Colors.BOLD ++ Monitor.Colors.MAGENTA
                       ++ u "Docker Containers:" ++ Monitor.Colors.RESET);
      Monitor.Printed (Monitor.Colors.BOLD ++ ljust 25 (u "Name") ++ u " "
                       ++ ljust 25 (u "Image") ++ u " " ++ ljust 20 (u "Status")
                       ++ u " " ++ ljust 10 (u "State") ++ Monitor.Colors.RESET);
      Monitor.Printed (copies (u "─") 90);
      Monitor.Printed []],
     Ok tt)
  /\ Monitor.display_containers py_str []
     = (firstn 3 (fst (Monitor.display_containers py_str [JNull]))
        ++ [Monitor.Printed []], Ok tt)
  /\ In (Monitor.Printed (Monitor.Colors.YELLOW ++ u "  No images found"
                          ++ Monitor.Colors.RESET))
        (fst (Monitor.display_images py_str []))
  /\ In (Monitor.Printed (Monitor.Colors.YELLOW ++ u "  No running containers"
                          ++ Monitor.Colors.RESET))
        (fst (Monitor.display_stats py_str []))
  /\ (exists p, MonitorFree.containers_panel py_str [] = Ok p
                /\ MonitorFree.body p
                   = MonitorFree.Grid
                       {| MonitorFree.columns := [u "Name"; u "Image"; u "Status"; u "State"];
                          MonitorFree.rows := [[u "No containers"; []; []; []]] |}).
Proof.
  split; [reflexivity |].
  split; [reflexivity |].
  split; [cbn; tauto |].
  split; [cbn; tauto |].
  eexists; split; reflexivity.
Qed.

(** With nothing to list, the summary is all zeros and neither script crashes. *)
Lemma empty_runtime_frame (py_str : json -> str) (json_loads : str -> result json) :
  summarize (get_docker_images json_loads runtime_idle)
            (get_docker_containers json_loads runtime_idle)
  = Ok {| imageCount := 0; containerCount := 0; runningCount := 0; stoppedCount := 0 |}
  /\ snd (Monitor.frame py_str json_loads runtime_idle) = Ok tt
  /\ returns (MonitorFree.generate_display py_str json_loads runtime_idle).
Proof.
  repeat split. eexists; reflexivity.
Qed.

(** * Further properties of the two scripts *)

(** ** The floats of the model are binary64 values *)

Lemma Zdigits2_lower (m : Z) : 0 < m -> 2 ^ (Zdigits2 m - 1) <= m.
Proof.
  intros Hm. destruct m as [| p | p]; try lia.
  cbn [Zdigits2]. rewrite digits2_pos_log2.
  replace (Z.log2 (Zpos p) + 1 - 1) with (Z.log2 (Zpos p)) by lia.
  apply Z.log2_spec. lia.
Qed.

Lemma Zdigits2_ge_iff (m k : Z) : 0 < m -> 0 <= k -> (k + 1 <= Zdigits2 m <-> 2 ^ k <= m).
Proof.
  intros Hm Hk. split; intros H.
  - apply Z.le_trans with (2 ^ (Zdigits2 m - 1)); [| now apply Zdigits2_lower].
    apply Z.pow_le_mono_r; lia.
  - destruct (Z_lt_le_dec (Zdigits2 m) (k + 1)) as [Hlt | Hle]; [| assumption].
    exfalso. assert (Hd : Zdigits2 m <= k) by lia.
    apply Zdigits2_le_iff in Hd; lia.
Qed.

Lemma Zdigits2_mono (a b : Z) : 0 < a -> a <= b -> Zdigits2 a <= Zdigits2 b.
Proof.
  intros Ha Hab. apply Zdigits2_le_iff; [assumption |].
  pose proof (Zdigits2_bound b ltac:(lia)). lia.
Qed.

Lemma Zdigits2_pos (m : Z) : 0 < m -> 1 <= Zdigits2 m.
Proof. destruct m; cbn [Zdigits2]; lia. Qed.

(** Dropping [n] low bits drops [n] digits. *)
Lemma Zdigits2_div_pow2 (m n : Z) :
  0 <= n -> 0 < m / 2 ^ n -> Zdigits2 (m / 2 ^ n) = Zdigits2 m - n.
Proof.
  intros Hn Hq.
  assert (Hp : 0 < 2 ^ n) by (apply Z.pow_pos_nonneg; lia).
  assert (Hm : 0 < m).
  { destruct (Z_lt_le_dec 0 m) as [H | H]; [assumption |].
    exfalso. assert (m / 2 ^ n <= 0); [| lia].
    apply Z.div_le_upper_bound; lia. }
  set (d := Zdigits2 m).
  pose proof (Zdigits2_bound m ltac:(lia)) as Hb. fold d in Hb.
  pose proof (Zdigits2_lower m Hm) as Hl. fold d in Hl.
  pose proof (Zdigits2_pos m Hm) as Hd. fold d in Hd.
  assert (Hnd : n < d).
  { destruct (Z_lt_le_dec n d) as [H | H]; [assumption |].
    exfalso. assert (m / 2 ^ n = 0); [| lia].
    apply Z.div_small. split; [lia |].
    apply Z.lt_le_trans with (2 ^ d); [assumption | apply Z.pow_le_mono_r; lia]. }
  assert (Hup : m / 2 ^ n < 2 ^ (d - n)).
  { apply Z.div_lt_upper_bound; [lia |].
    rewrite <- Z.pow_add_r by lia. now replace (n + (d - n)) with d by lia. }
  assert (Hlow : 2 ^ (d - n - 1) <= m / 2 ^ n).
  { apply Z.div_le_lower_bound; [lia |].
    rewrite <- Z.pow_add_r by lia. now replace (n + (d - n - 1)) with (d - 1) by lia. }
  apply Zdigits2_le_iff in Hup; [| assumption].
  apply Zdigits2_ge_iff in Hlow; lia.
Qed.

(** An alignment step of a mantissa that is fine enough gives the
    canonical exponent. *)
Lemma shr_step_canonical (m e m' e' : Z) :
  0 <= m -> shr_step m e m' e' -> e <= fexp prec emax (Zdigits2 m + e) ->
  0 <= m'
  /\ (0 < m' -> fexp prec emax (Zdigits2 m' + e') = e')
  /\ (m' = 0 -> e' <= -1074).
Proof.
  intros Hm [(Hn & -> & ->) | (Hn & -> & ->)] Hc.
  - repeat split; [assumption | lia |].
    intros ->. cbn [Zdigits2] in Hc. unfold fexp, emin, prec, emax in Hc. lia.
  - set (d := Zdigits2 m) in *.
    set (n := fexp prec emax (d + e) - e) in *.
    split; [now apply div_pow2_nonneg |]. split.
    + intros Hq. rewrite Zdigits2_div_pow2 by lia. fold d.
      replace (d - n + (e + n)) with (d + e) by lia. unfold n. lia.
    + intros Hz.
      assert (Hdn : d <= n).
      { destruct (Z.eq_dec m 0) as [-> | Hnz]; [unfold d; cbn [Zdigits2]; lia |].
        apply Zdigits2_le_iff; [lia |].
        destruct (Z_lt_le_dec m (2 ^ n)) as [H | H]; [assumption |].
        exfalso. assert (1 <= m / 2 ^ n); [| lia].
        apply Z.div_le_lower_bound; [apply Z.pow_pos_nonneg; lia | lia]. }
      unfold n, fexp, emin, prec, emax in *. lia.
Qed.

(** Rounding a mantissa that is fine enough gives a binary64 value. *)
Lemma round_aux_valid (s : bool) (mx ex : Z) (lx : location) :
  0 <= mx -> ex <= fexp prec emax (Zdigits2 mx + ex) ->
  is_float (binary_round_aux prec emax s mx ex lx).
Proof.
  intros Hm Hc.
  destruct (round_aux_cases s mx ex lx Hm)
    as (m' & e1 & m1 & m2 & e2 & H1 & Hr & H2 & ->).
  destruct (shr_step_canonical _ _ _ _ Hm H1 Hc) as (Hm' & Hcan & Hzero).
  assert (Hc1 : e1 <= fexp prec emax (Zdigits2 m1 + e1)).
  { destruct (Z.eq_dec m' 0) as [Hz | Hnz].
    - specialize (Hzero Hz). subst m'.
      assert (Hcase : m1 = 0 \/ m1 = 1) by lia.
      destruct Hcase as [-> | ->]; cbn [Zdigits2 digits2_pos];
        unfold fexp, emin, prec, emax; lia.
    - rewrite <- (Hcan ltac:(lia)) at 1. apply fexp_mono.
      pose proof (Zdigits2_mono m' m1 ltac:(lia) ltac:(lia)). lia. }
  assert (Hm1 : 0 <= m1) by lia.
  destruct (shr_step_canonical _ _ _ _ Hm1 H2 Hc1) as (Hm2 & Hcan2 & _).
  destruct m2 as [| p | p]; [reflexivity | | lia].
  destruct (e2 <=? emax - prec) eqn:E; [| reflexivity].
  unfold is_float, valid_binary, bounded, canonical_mantissa.
  rewrite E, andb_true_r. apply Z.eqb_eq. apply (Hcan2 ltac:(lia)).
Qed.

Lemma canonical_exponent (s : bool) (m : positive) (e : Z) :
  is_float (S754_finite s m e) ->
  fexp prec emax (Zpos (digits2_pos m) + e) = e.
Proof.
  unfold is_float, valid_binary, bounded, canonical_mantissa.
  intros H. apply andb_prop in H. destruct H as [Hc _]. now apply Z.eqb_eq in Hc.
Qed.

Lemma digits2_mul_lower (a b : positive) :
  Zpos (digits2_pos a) + Zpos (digits2_pos b) - 1 <= Zdigits2 (Zpos (a * b)).
Proof.
  pose proof (Zdigits2_lower (Zpos a) ltac:(lia)) as Ha.
  pose proof (Zdigits2_lower (Zpos b) ltac:(lia)) as Hb.
  cbn [Zdigits2] in Ha, Hb.
  set (da := Zpos (digits2_pos a)) in *. set (db := Zpos (digits2_pos b)) in *.
  assert (H : 2 ^ (da + db - 2) <= Zpos (a * b)).
  { replace (da + db - 2) with ((da - 1) + (db - 1)) by lia.
    rewrite Z.pow_add_r by lia. rewrite Pos2Z.inj_mul.
    apply Z.mul_le_mono_nonneg; try assumption; apply Z.pow_nonneg; lia. }
  apply Zdigits2_ge_iff in H; lia.
Qed.

(** The product of two binary64 values is one. *)
Lemma fmul_valid (x y : float) : is_float x -> is_float y -> is_float (fmul x y).
Proof.
  intros Hx Hy.
  destruct x as [sx | sx | | sx mx ex]; destruct y as [sy | sy | | sy my ey];
    try reflexivity.
  unfold fmul, SFmul. apply round_aux_valid; [lia |].
  pose proof (canonical_exponent _ _ _ Hx) as Hcx.
  pose proof (canonical_exponent _ _ _ Hy) as Hcy.
  pose proof (digits2_mul_lower mx my) as Hd.
  set (d := Zdigits2 (Zpos (mx * my))) in *.
  set (dx := Zpos (digits2_pos mx)) in *. set (dy := Zpos (digits2_pos my)) in *.
  assert (1 <= dx /\ 1 <= dy) by (unfold dx, dy; lia).
  clearbody d dx dy. clear Hx Hy.
  unfold fexp, emin, prec, emax in *. lia.
Qed.

(** The quotient of two finite floats is a binary64 value, whatever
    their mantissas. *)
Lemma fdiv_finite_valid (s1 s2 : bool) (m1 m2 : positive) (e1 e2 : Z) :
  is_float (fdiv (S754_finite s1 m1 e1) (S754_finite s2 m2 e2)).
Proof.
  unfold fdiv, SFdiv, SFdiv_core_binary.
  set (d1 := Zdigits2 (Zpos m1)). set (d2 := Zdigits2 (Zpos m2)).
  set (M := d1 + e1 - (d2 + e2)).
  set (e' := Z.min (fexp prec emax M) (e1 - e2)).
  set (sh := e1 - e2 - e').
  set (m' := match sh with
             | Z0 => Zpos m1
             | Zpos _ => Z.shiftl (Zpos m1) sh
             | Zneg _ => 0
             end).
  assert (Hsh : 0 <= sh) by (unfold sh, e'; lia).
  assert (Hm' : m' = Zpos m1 * 2 ^ sh).
  { unfold m'. destruct sh as [| p | p] eqn:Es.
    - rewrite Z.pow_0_r. lia.
    - apply Z.shiftl_mul_pow2. lia.
    - lia. }
  assert (Hp : 0 < 2 ^ sh) by (apply Z.pow_pos_nonneg; lia).
  assert (Hm'0 : 0 <= m') by (rewrite Hm'; lia).
  destruct (Z.div_eucl m' (Zpos m2)) as [q r] eqn:Eq.
  assert (Hq : q = m' / Zpos m2) by (unfold Z.div; now rewrite Eq).
  assert (Hq0 : 0 <= q) by (rewrite Hq; apply Z.div_pos; lia).
  apply round_aux_valid; [assumption |].
  pose proof (Zdigits2_lower (Zpos m1) ltac:(lia)) as Hl1. fold d1 in Hl1.
  pose proof (Zdigits2_bound (Zpos m2) ltac:(lia)) as Hb2. fold d2 in Hb2.
  assert (Hd1 : 1 <= d1) by (unfold d1; cbn [Zdigits2]; lia).
  assert (Hd2 : 1 <= d2) by (unfold d2; cbn [Zdigits2]; lia).
  assert (Hdig : d1 + sh - d2 <= Zdigits2 q \/ (q = 0 /\ d1 + sh - d2 <= 0)).
  { destruct (Z_lt_le_dec (d1 + sh - d2) 1) as [Hsmall | Hbig].
    - destruct (Z.eq_dec q 0) as [-> | Hnz]; [right; lia |].
      left. pose proof (Zdigits2_pos q ltac:(lia)). lia.
    - left.
      assert (Hge : 2 ^ (d1 + sh - d2 - 1) <= q).
      { rewrite Hq. apply Z.div_le_lower_bound; [lia |].
        apply Z.le_trans with (2 ^ d2 * 2 ^ (d1 + sh - d2 - 1)).
        - apply Z.mul_le_mono_nonneg_r; [apply Z.pow_nonneg; lia | lia].
        - rewrite <- Z.pow_add_r by lia.
          replace (d2 + (d1 + sh - d2 - 1)) with ((d1 - 1) + sh) by lia.
          rewrite Z.pow_add_r, Hm' by lia.
          apply Z.mul_le_mono_nonneg_r; lia. }
      assert (Hqpos : 0 < q).
      { apply Z.lt_le_trans with (2 ^ (d1 + sh - d2 - 1)); [| assumption].
        apply Z.pow_pos_nonneg; lia. }
      apply Zdigits2_ge_iff in Hge; lia. }
  destruct Hdig as [Hdig | [-> Hdig]].
  - apply Z.le_trans with (fexp prec emax M); [unfold e'; lia |].
    apply fexp_mono. unfold M, sh in *. lia.
  - cbn [Zdigits2]. unfold M, sh, e', fexp, emin, prec, emax in *. lia.
Qed.

Lemma fdiv_valid (x y : float) : is_float (fdiv x y).
Proof.
  destruct x as [sx | sx | | sx mx ex]; destruct y as [sy | sy | | sy my ey];
    try reflexivity.
  apply fdiv_finite_valid.
Qed.

Lemma normalize_valid (m e : Z) (szero : bool) :
  is_float (binary_normalize prec emax m e szero).
Proof.
  unfold binary_normalize.
  assert (Hmain : forall s p, is_float (binary_round prec emax s p e)).
  { intros s p. unfold binary_round, shl_align.
    set (d := Zpos (digits2_pos p)).
    destruct (fexp prec emax (d + e) - e) as [| n | n] eqn:En.
    - apply round_aux_valid; [lia |]. cbn [Zdigits2]. fold d. lia.
    - apply round_aux_valid; [lia |]. cbn [Zdigits2]. fold d. lia.
    - apply round_aux_valid; [lia |]. cbn [Zdigits2]. unfold shift_pos.
      change (PosDef.Pos.iter xO p n) with (Pos.iter xO p n).
      rewrite digits2_iter_xO, Pos2Z.inj_add. fold d.
      replace (d + Zpos n + fexp prec emax (d + e)) with (d + e) by lia. lia. }
  destruct m as [| p | p]; [reflexivity | apply Hmain | apply Hmain].
Qed.

(** What [float] returns is a binary64 value. *)
Lemma py_float_valid (s : str) (x : float) : py_float s = Ok x -> is_float x.
Proof.
  unfold py_float.
  destruct (drop_underscores _ _) as [s2 |]; [| discriminate].
  destruct (parse_float_body s2) as [y |] eqn:Ey; [| discriminate].
  intros [= <-]. unfold parse_float_body in Ey.
  destruct (take_sign s2) as [neg r].
  destruct (_ || _); [injection Ey as <-; reflexivity |].
  destruct (str_eqb _ _); [injection Ey as <-; reflexivity |].
  destruct (parse_decimal r) as [[m e] |]; [| discriminate].
  injection Ey as <-. unfold decimal_to_float.
  destruct m as [| p | p]; try reflexivity.
  destruct (0 <=? e); [apply normalize_valid | apply fdiv_finite_valid].
Qed.

Lemma fconst_valid (n : Z) : is_float (fconst n).
Proof. apply normalize_valid. Qed.

Lemma parse_size_valid (s : str) (x : float) : parse_size s = Ok x -> is_float x.
Proof.
  unfold parse_size.
  destruct (contains (u "GB") _).
  - destruct (py_float _) as [y |] eqn:Ey; [| discriminate].
    intros [= <-].
    apply fmul_valid; [now apply py_float_valid in Ey | apply (fconst_valid 1024)].
  - destruct (contains (u "MB") _); [apply py_float_valid |].
    destruct (contains (u "KB") _); [| intros [= <-]; reflexivity].
    destruct (py_float _) as [y |]; [| discriminate].
    unfold py_truediv. cbn [bind].
    destruct (fconst 1024); try discriminate; intros [= <-]; apply fdiv_valid.
Qed.

Lemma image_size_valid (img : json) (x : float) : image_size img = Ok x -> is_float x.
Proof.
  unfold image_size.
  destruct (field img "Size") as [v |]; [| discriminate]. cbn [bind].
  destruct (str_method v) as [s |]; [| discriminate]. cbn [bind].
  apply parse_size_valid.
Qed.

(** ** Quotients of bounded floats *)

(** The quotient of a float below [2 ^ Kx] by a finite float of
    magnitude [Ky]. *)
Lemma fdiv_bounded (x : float) (sx sy : bool) (my : positive) (ey Kx Ex Ky : Z) :
  fbounded x sx Kx Ex ->
  Zpos (digits2_pos my) + ey = Ky ->
  -1000 <= Kx - Ky <= 1000 ->
  fbounded (fdiv x (S754_finite sy my ey)) (xorb sx sy)
           (Z.max (Kx - Ky + 1) (-1074) + 1)
           (Z.max (Z.max (Kx - Ky + 1) (-1074) - 52) (-1074)).
Proof.
  intros Hx HKy Hrange.
  destruct x as [s' | s' | | s' m e]; try contradiction; cbn [fbounded] in Hx.
  - subst. reflexivity.
  - destruct Hx as (-> & HK & HE).
    unfold fdiv, SFdiv, SFdiv_core_binary.
    set (d := Zdigits2 (Zpos m)).
    set (d2 := Zdigits2 (Zpos my)).
    set (e' := Z.min (fexp prec emax (d + e - (d2 + ey))) (e - ey)).
    set (sh := e - ey - e').
    set (m' := match sh with
               | Z0 => Zpos m
               | Zpos _ => Z.shiftl (Zpos m) sh
               | Zneg _ => 0
               end).
    assert (Hd2 : d2 + ey = Ky) by (unfold d2; cbn [Zdigits2]; lia).
    assert (Hd : d + e <= Kx) by (unfold d; cbn [Zdigits2]; lia).
    assert (He' : e' <= Z.max (Kx - Ky - 53) (-1074)).
    { unfold e', fexp, emin, prec, emax. lia. }
    assert (Hsh : 0 <= sh) by (unfold sh, e'; lia).
    assert (Hm' : m' = Zpos m * 2 ^ sh).
    { unfold m'. destruct sh as [| p | p] eqn:Es.
      - rewrite Z.pow_0_r. lia.
      - apply Z.shiftl_mul_pow2. lia.
      - lia. }
    assert (Hm'0 : 0 <= m')
      by (rewrite Hm'; apply Z.mul_nonneg_nonneg; [lia | apply Z.pow_nonneg; lia]).
    destruct (Z.div_eucl m' (Zpos my)) as [q r] eqn:Eq.
    assert (Hq : q = m' / Zpos my) by (unfold Z.div; now rewrite Eq).
    assert (Hq0 : 0 <= q) by (rewrite Hq; apply Z.div_pos; lia).
    assert (Hd2pos : 1 <= d2) by (unfold d2; cbn [Zdigits2]; lia).
    pose proof (Zdigits2_lower (Zpos my) ltac:(lia)) as Hlow. fold d2 in Hlow.
    assert (HKq : Zdigits2 q + e' <= Z.max (Kx - Ky + 1) (-1074)).
    { destruct (Z.eq_dec q 0) as [-> | Hnz]; [cbn [Zdigits2]; lia |].
      assert (Hdpos : 0 <= d) by apply Zdigits2_nonneg.
      pose proof (Zdigits2_bound (Zpos m) ltac:(lia)) as Hb. fold d in Hb.
      assert (Hlt : m' < 2 ^ (d + sh)).
      { rewrite Hm', Z.pow_add_r by lia.
        apply Z.mul_lt_mono_pos_r; [apply Z.pow_pos_nonneg; lia | assumption]. }
      assert (Hge : d2 - 1 <= d + sh).
      { destruct (Z_lt_le_dec (d + sh) (d2 - 1)) as [Hlt' | Hle]; [| assumption].
        exfalso. apply Hnz. rewrite Hq. apply Z.div_small. split; [assumption |].
        apply Z.lt_le_trans with (2 ^ (d + sh)); [assumption |].
        apply Z.le_trans with (2 ^ (d2 - 1)); [apply Z.pow_le_mono_r; lia | assumption]. }
      assert (Hqlt : q < 2 ^ (d + sh - (d2 - 1))).
      { rewrite Hq. apply Z.div_lt_upper_bound; [lia |].
        apply Z.lt_le_trans with (2 ^ (d2 - 1) * 2 ^ (d + sh - (d2 - 1))).
        - rewrite <- Z.pow_add_r by lia.
          now replace (d2 - 1 + (d + sh - (d2 - 1))) with (d + sh) by lia.
        - apply Z.mul_le_mono_nonneg_r; [apply Z.pow_nonneg; lia | assumption]. }
      apply Zdigits2_le_iff in Hqlt; [| lia]. unfold sh in Hqlt. lia. }
    assert (H1 : -1074 <= Z.max (Kx - Ky + 1) (-1074)) by lia.
    assert (H2 : Z.max (Kx - Ky + 1) (-1074) + 1 <= 1024) by lia.
    assert (H3 : e' <= 971) by lia.
    pose proof (round_aux_bounded (xorb sx sy) q e' (new_location (Zpos my) r) _
                  Hq0 HKq H1 H2 H3) as H.
    eapply fbounded_weaken; [exact H | lia | lia].
Qed.

Lemma canonical_digits (m : positive) (e : Z) :
  is_float (S754_finite false m e) ->
  Zpos (digits2_pos m) <= 53
  /\ -1074 <= e
  /\ (-1074 < e -> Zpos (digits2_pos m) = 53).
Proof.
  intros H. apply canonical_exponent in H.
  unfold fexp, emin, prec, emax in H. lia.
Qed.

Lemma digits2_pos_mono (a b : positive) :
  Zpos a <= Zpos b -> Zpos (digits2_pos a) <= Zpos (digits2_pos b).
Proof.
  intros H. apply (Zdigits2_mono (Zpos a) (Zpos b)); lia.
Qed.

(** Between binary64 values that are positive, the smaller has the
    smaller magnitude. *)
Lemma fle_magnitude (m m' : positive) (e e' : Z) :
  is_float (S754_finite false m e) -> is_float (S754_finite false m' e') ->
  fle (S754_finite false m e) (S754_finite false m' e') = true ->
  Zpos (digits2_pos m) + e <= Zpos (digits2_pos m') + e'.
Proof.
  intros Hv Hv' Hle. apply fle_finite in Hle.
  destruct (canonical_digits m e Hv) as (Hd & He & Hn).
  destruct (canonical_digits m' e' Hv') as (Hd' & He' & Hn').
  destruct Hle as [Hlt | [-> Hm]].
  - rewrite (Hn' ltac:(lia)). lia.
  - pose proof (digits2_pos_mono m m' Hm). lia.
Qed.

(** ** Bars of finite percentages *)

Lemma moderate_bounded (p : float) :
  moderate p -> exists s E, fbounded p s 16 E.
Proof.
  destruct p as [s | s | | s m e]; cbn [moderate fbounded]; intros H; try contradiction.
  - now exists s, 0.
  - exists s, e. repeat split; lia.
Qed.

Lemma fbounded_moderate (p : float) (s : bool) (K E : Z) :
  fbounded p s K E -> K <= 16 -> moderate p.
Proof.
  destruct p as [s' | s' | | s' m e]; cbn [moderate fbounded]; intros H HK;
    try contradiction; [exact I | lia].
Qed.

(** The cells of a percentage below [2 ^ 16] in absolute value at a
    width below [2 ^ 10]: fewer than [2 ^ 23]. *)
Lemma filled_cells_moderate (p : float) (w : Z) :
  moderate p -> 0 <= w < 2 ^ 10 ->
  exists filled, filled_cells p w = Ok filled /\ - 2 ^ 23 < filled < 2 ^ 23.
Proof.
  intros Hp Hw.
  destruct (moderate_bounded p Hp) as (s & E & Hb).
  destruct (float_of_int_digits w 10 ltac:(lia) Hw) as (wf & Ewf & Hwf).
  unfold filled_cells, py_truediv, py_mul.
  rewrite Ewf, fconst_100. unfold hundred at 1. cbn [bind]. fold hundred.
  pose proof (fdiv_bounded p s false 7036874417766400 (-46) 16 E 7 Hb
                eq_refl ltac:(lia)) as Hq.
  fold hundred in Hq.
  pose proof (fmul_bounded _ _ _ _ _ _ _ _ Hq Hwf ltac:(lia) ltac:(lia) ltac:(lia)) as Hprod.
  destruct (int_of_float_bound _ _ _ _ Hprod ltac:(lia)) as (n & Hn & Hbound).
  exists n. split; [exact Hn |].
  replace (Z.max (16 - 7 + 1) (-1074) + 1 + (10 + 1) + 1) with 23 in Hbound by lia.
  exact Hbound.
Qed.

Lemma small_width (w : Z) : 0 <= w <= 20 -> 0 <= w < 2 ^ 10.
Proof.
  intros H. split; [lia |].
  apply Z.le_lt_trans with 20; [lia |]. reflexivity.
Qed.

Lemma filled_cells_not_finite (p : float) (w : Z) :
  not_finite p ->
  exists e, filled_cells p w = Raise e /\ (e = ValueError \/ e = OverflowError).
Proof.
  intros Hp. unfold filled_cells, py_truediv, py_mul, float_of_int.
  change (fconst 100) with (S754_finite false 7036874417766400 (-46)).
  cbn [bind].
  destruct (binary_normalize prec emax w 0 false) as [sw | sw | | sw mw ew];
    cbn [bind]; destruct Hp as [-> | [s ->]]; cbn; eauto.
Qed.

Lemma bar_moderate (p : float) (w : Z) :
  moderate p -> 0 <= w < 2 ^ 10 ->
  returns (Monitor.create_colored_bar p w) /\ returns (MonitorFree.create_bar p w).
Proof.
  intros Hp Hw.
  destruct (filled_cells_moderate p w Hp Hw) as (filled & Hf & Hb).
  assert (H23 : 2 ^ 23 < 2 ^ 30) by reflexivity.
  assert (H10 : 2 ^ 10 < 2 ^ 30) by reflexivity.
  destruct (bar_of_cells p w filled Hf ltac:(lia) ltac:(lia)) as [H1 H2].
  rewrite H1, H2. split; eexists; reflexivity.
Qed.

(** X14: a percentage that is a NaN or an infinity makes both bar
    functions raise, whatever the width: [int()] of the scaled value
    raises ValueError for a NaN and OverflowError for an infinity, and
    nothing in either function catches it. *)
Theorem bar_of_a_percentage_that_is_not_finite (p : float) (w : Z) :
  not_finite p ->
  exists e,
    (e = ValueError \/ e = OverflowError)
    /\ Monitor.create_colored_bar p w = Raise e
    /\ MonitorFree.create_bar p w = Raise e.
Proof.
  intros Hp. destruct (filled_cells_not_finite p w Hp) as (e & He & Hk).
  exists e. unfold Monitor.create_colored_bar, MonitorFree.create_bar.
  rewrite He. repeat split. exact Hk.
Qed.

Lemma bar_of_a_percentage_that_is_not_finite_witness :
  exists e,
    (e = ValueError \/ e = OverflowError)
    /\ Monitor.create_colored_bar S754_nan 15 = Raise e
    /\ MonitorFree.create_bar S754_nan 15 = Raise e.
Proof.
  apply (bar_of_a_percentage_that_is_not_finite S754_nan 15). now left.
Defined.

(** X15: every finite percentage below [2 ^ 16] in absolute value,
    also one above 100 or below 0, gives a bar in both scripts at a
    width of fewer than [2 ^ 10] cells: the number of filled cells is
    [int((p / 100) * w)], fewer than [2 ^ 23] in absolute value, full
    blocks are drawn for it when it is positive, light shades for
    [w - filled] when that is positive, and nothing raises. *)
Theorem bar_of_a_moderate_percentage (p : float) (w : Z) :
  moderate p -> 0 <= w < 2 ^ 10 ->
  exists filled,
    filled_cells p w = Ok filled
    /\ - 2 ^ 23 < filled < 2 ^ 23
    /\ Monitor.create_colored_bar p w
       = Ok (Monitor.band_color (band_of p)
             ++ repeat FULL_BLOCK (Z.to_nat filled)
             ++ Monitor.Colors.RESET
             ++ repeat LIGHT_SHADE (Z.to_nat (w - filled))
             ++ u " " ++ format_5_1f p ++ u "%")
    /\ MonitorFree.create_bar p w
       = Ok (u "[" ++ MonitorFree.band_name (band_of p) ++ u "]"
             ++ (repeat FULL_BLOCK (Z.to_nat filled)
                 ++ repeat LIGHT_SHADE (Z.to_nat (w - filled)))
             ++ u "[/" ++ MonitorFree.band_name (band_of p) ++ u "] "
             ++ format_5_1f p ++ u "%").
Proof.
  intros Hp Hw.
  destruct (filled_cells_moderate p w Hp Hw) as (filled & Hf & Hb).
  assert (H23 : 2 ^ 23 < 2 ^ 30) by reflexivity.
  assert (H10 : 2 ^ 10 < 2 ^ 30) by reflexivity.
  exists filled. split; [exact Hf |]. split; [exact Hb |].
  apply (bar_of_cells p w filled Hf); lia.
Qed.

Lemma bar_of_a_moderate_percentage_witness :
  exists filled,
    filled_cells (fconst 250) 15 = Ok filled
    /\ - 2 ^ 23 < filled < 2 ^ 23
    /\ Monitor.create_colored_bar (fconst 250) 15
       = Ok (Monitor.band_color (band_of (fconst 250))
             ++ repeat FULL_BLOCK (Z.to_nat filled)
             ++ Monitor.Colors.RESET
             ++ repeat LIGHT_SHADE (Z.to_nat (15 - filled))
             ++ u " " ++ format_5_1f (fconst 250) ++ u "%")
    /\ MonitorFree.create_bar (fconst 250) 15
       = Ok (u "[" ++ MonitorFree.band_name (band_of (fconst 250)) ++ u "]"
             ++ (repeat FULL_BLOCK (Z.to_nat filled)
                 ++ repeat LIGHT_SHADE (Z.to_nat (15 - filled)))
             ++ u "[/" ++ MonitorFree.band_name (band_of (fconst 250)) ++ u "] "
             ++ format_5_1f (fconst 250) ++ u "%").
Proof.
  apply (bar_of_a_moderate_percentage (fconst 250) 15).
  - vm_compute. discriminate.
  - split; [lia | reflexivity].
Defined.

(** ** The main loops *)

Section Loops.

Variable py_str : json -> str.
Variable json_loads : str -> result json.

Lemma monitor_loop_quiet (qs rest : list cycle) :
  Forall (quiet_turn py_str json_loads) qs ->
  Monitor.loop py_str json_loads (qs ++ rest)
  = (frames_printed py_str json_loads qs
       ++ fst (Monitor.loop py_str json_loads rest),
     snd (Monitor.loop py_str json_loads rest)).
Proof.
  induction 1 as [| c qs [Hf Hi] _ IH].
  - cbn. now destruct (Monitor.loop py_str json_loads rest).
  - cbn [app Monitor.loop frames_printed flat_map].
    destruct (Monitor.frame py_str json_loads (cycle_runtime c)) as [out r].
    cbn [snd fst] in *. subst r. rewrite Hi, IH.
    cbn [fst snd]. now rewrite app_assoc.
Qed.

Lemma monitorfree_loop_quiet (qs rest : list cycle) :
  Forall (quiet_refresh py_str json_loads) qs ->
  MonitorFree.loop py_str json_loads (qs ++ rest)
  = (layouts_shown py_str json_loads qs
       ++ fst (MonitorFree.loop py_str json_loads rest),
     snd (MonitorFree.loop py_str json_loads rest)).
Proof.
  induction 1 as [| c qs [[l Hl] Hi] _ IH].
  - cbn. now destruct (MonitorFree.loop py_str json_loads rest).
  - cbn [app MonitorFree.loop layouts_shown flat_map].
    rewrite Hl, Hi, IH. reflexivity.
Qed.

(** X2: in [monitor.py], when the availability check passes, some turns
    draw their frame and sleep undisturbed, and Ctrl+C then arrives
    during the sleep that follows a frame, the script has printed those
    frames and that last one in full, prints the goodbye line, and
    [main] returns: exit status 0. Later turns never run. *)
Theorem monitor_interrupt_says_goodbye (w : world) (qs rest : list cycle) (c : cycle) :
  returns (docker_version (startup w)) ->
  cycles w = qs ++ c :: rest ->
  Forall (quiet_turn py_str json_loads) qs ->
  snd (Monitor.frame py_str json_loads (cycle_runtime c)) = Ok tt ->
  cycle_interrupted c = true ->
  Monitor.main py_str json_loads w
  = (frames_printed py_str json_loads (qs ++ [c]) ++ Monitor.goodbye, Returned)
  /\ exit_status (snd (Monitor.main py_str json_loads w)) = Some 0.
Proof.
  intros [v Hv] Hc Hq Hf Hi.
  assert (H : Monitor.main py_str json_loads w
              = (frames_printed py_str json_loads (qs ++ [c]) ++ Monitor.goodbye, Returned)).
  { unfold Monitor.main. rewrite Hv, Hc, (monitor_loop_quiet qs (c :: rest) Hq).
    cbn [Monitor.loop].
    destruct (Monitor.frame py_str json_loads (cycle_runtime c)) as [out r] eqn:E.
    cbn [snd] in Hf. subst r. rewrite Hi. cbn [fst snd].
    unfold frames_printed. rewrite flat_map_app. cbn [flat_map]. rewrite E.
    cbn [fst]. now rewrite app_nil_r, app_assoc. }
  rewrite H. split; reflexivity.
Qed.

(** X3: the same for [monitorfree.py]: the layouts of the undisturbed
    turns and of the interrupted one are shown, then the goodbye line is
    printed and [main] returns with exit status 0. *)
Theorem monitorfree_interrupt_says_goodbye
  (w : world) (qs rest : list cycle) (c : cycle) :
  returns (docker_version (startup w)) ->
  cycles w = qs ++ c :: rest ->
  Forall (quiet_refresh py_str json_loads) qs ->
  returns (MonitorFree.generate_display py_str json_loads (cycle_runtime c)) ->
  cycle_interrupted c = true ->
  MonitorFree.main py_str json_loads w
  = (layouts_shown py_str json_loads (qs ++ [c]) ++ MonitorFree.goodbye, Returned)
  /\ exit_status (snd (MonitorFree.main py_str json_loads w)) = Some 0.
Proof.
  intros [v Hv] Hc Hq [l Hl] Hi.
  assert (H : MonitorFree.main py_str json_loads w
              = (layouts_shown py_str json_loads (qs ++ [c]) ++ MonitorFree.goodbye,
                 Returned)).
  { unfold MonitorFree.main. rewrite Hv, Hc, (monitorfree_loop_quiet qs (c :: rest) Hq).
    cbn [MonitorFree.loop]. rewrite Hl, Hi. cbn [fst snd].
    unfold layouts_shown. rewrite flat_map_app. cbn [flat_map]. rewrite Hl.
    cbn [app]. now rewrite <- app_assoc. }
  rewrite H. split; reflexivity.
Qed.

(** X4: in [monitor.py], an exception other than KeyboardInterrupt that
    a frame raises is caught nowhere: what the frame printed before it
    stays on the screen, no goodbye line follows, and the run ends with
    the exception (exit status 1). *)
Theorem monitor_exception_ends_the_run
  (w : world) (qs rest : list cycle) (c : cycle) (out : list Monitor.event) (e : exn) :
  returns (docker_version (startup w)) ->
  cycles w = qs ++ c :: rest ->
  Forall (quiet_turn py_str json_loads) qs ->
  Monitor.frame py_str json_loads (cycle_runtime c) = (out, Raise e) ->
  e <> KeyboardInterrupt ->
  Monitor.main py_str json_loads w
  = (frames_printed py_str json_loads qs ++ out, Crashed e)
  /\ exit_status (snd (Monitor.main py_str json_loads w)) = Some 1.
Proof.
  intros [v Hv] Hc Hq Hf He.
  assert (H : Monitor.main py_str json_loads w
              = (frames_printed py_str json_loads qs ++ out, Crashed e)).
  { unfold Monitor.main. rewrite Hv, Hc, (monitor_loop_quiet qs (c :: rest) Hq).
    cbn [Monitor.loop]. rewrite Hf. destruct e; try reflexivity. congruence. }
  rewrite H. split; reflexivity.
Qed.

(** X5: in [monitorfree.py], an exception other than KeyboardInterrupt
    raised while a layout is built ends the run with that exception
    (exit status 1): the layout of that turn is never shown and no
    goodbye line is printed. *)
Theorem monitorfree_exception_ends_the_run
  (w : world) (qs rest : list cycle) (c : cycle) (e : exn) :
  returns (docker_version (startup w)) ->
  cycles w = qs ++ c :: rest ->
  Forall (quiet_refresh py_str json_loads) qs ->
  MonitorFree.generate_display py_str json_loads (cycle_runtime c) = Raise e ->
  e <> KeyboardInterrupt ->
  MonitorFree.main py_str json_loads w
  = (layouts_shown py_str json_loads qs, Crashed e)
  /\ exit_status (snd (MonitorFree.main py_str json_loads w)) = Some 1.
Proof.
  intros [v Hv] Hc Hq Hf He.
  assert (H : MonitorFree.main py_str json_loads w
              = (layouts_shown py_str json_loads qs, Crashed e)).
  { unfold MonitorFree.main. rewrite Hv, Hc, (monitorfree_loop_quiet qs (c :: rest) Hq).
    cbn [MonitorFree.loop]. rewrite Hf.
    destruct e; cbn [fst snd]; rewrite ?app_nil_r; try reflexivity. congruence. }
  rewrite H. split; reflexivity.
Qed.

(** X6: the loops have no exit of their own. Once the availability
    check has passed, a run whose turns all go undisturbed is still
    running after them, having drawn every frame (shown every layout);
    and [main] returns only if some turn was interrupted during its
    sleep or raised KeyboardInterrupt while drawing. *)
Theorem loops_run_until_stopped (w : world) :
  returns (docker_version (startup w)) ->
  (Forall (quiet_turn py_str json_loads) (cycles w) ->
   Monitor.main py_str json_loads w
   = (frames_printed py_str json_loads (cycles w), Running))
  /\ (Forall (quiet_refresh py_str json_loads) (cycles w) ->
      MonitorFree.main py_str json_loads w
      = (layouts_shown py_str json_loads (cycles w), Running))
  /\ (snd (Monitor.main py_str json_loads w) = Returned ->
      Exists (fun c => cycle_interrupted c = true
                       \/ snd (Monitor.frame py_str json_loads (cycle_runtime c))
                          = Raise KeyboardInterrupt) (cycles w))
  /\ (snd (MonitorFree.main py_str json_loads w) = Returned ->
      Exists (fun c => cycle_interrupted c = true
                       \/ MonitorFree.generate_display py_str json_loads (cycle_runtime c)
                          = Raise KeyboardInterrupt) (cycles w)).
Proof.
  intros [v Hv]. unfold Monitor.main, MonitorFree.main. rewrite Hv.
  repeat split.
  - intros Hq. rewrite <- (app_nil_r (cycles w)) at 1.
    rewrite (monitor_loop_quiet _ [] Hq). cbn. now rewrite app_nil_r.
  - intros Hq. rewrite <- (app_nil_r (cycles w)) at 1.
    rewrite (monitorfree_loop_quiet _ [] Hq). cbn. now rewrite app_nil_r.
  - induction (cycles w) as [| c cs IH]; cbn [Monitor.loop]; [discriminate |].
    destruct (Monitor.frame py_str json_loads (cycle_runtime c)) as [out [[] | e]] eqn:E.
    + destruct (cycle_interrupted c) eqn:Ei.
      * intros _. left. now left.
      * destruct (Monitor.loop py_str json_loads cs) as [out' o]. cbn [snd] in *.
        intros H. right. now apply IH.
    + destruct e; cbn [snd]; try discriminate. intros _. left. right. now rewrite E.
  - induction (cycles w) as [| c cs IH]; cbn [MonitorFree.loop]; [discriminate |].
    destruct (MonitorFree.generate_display py_str json_loads (cycle_runtime c))
      as [l | e] eqn:E.
    + destruct (cycle_interrupted c) eqn:Ei.
      * intros _. left. now left.
      * destruct (MonitorFree.loop py_str json_loads cs) as [out' o]. cbn [snd] in *.
        intros H. right. now apply IH.
    + destruct e; cbn [snd]; try discriminate. intros _. left. now right.
Qed.

(** ** Frames without data, and records without their fields *)

(** X1: whenever the three queries of a turn come back empty (the
    commands failed, printed nothing, or printed a line that is no
    JSON), [monitor.py] draws the header, a summary of zeros, the three
    panels of the empty lists and the footer, and raises nothing;
    [monitorfree.py] builds the layout it builds for a runtime that
    prints nothing. *)
Theorem frame_without_data (rt : runtime) :
  get_docker_images json_loads rt = [] ->
  get_docker_containers json_loads rt = [] ->
  get_container_stats json_loads rt = [] ->
  Monitor.frame py_str json_loads rt
  = (frame_head
       ++ fst (Monitor.display_summary [] [])
       ++ fst (Monitor.display_images py_str [])
       ++ fst (Monitor.display_containers py_str [])
       ++ fst (Monitor.display_stats py_str [])
       ++ [Monitor.Printed (Monitor.Colors.BOLD ++ u "Press Ctrl+C to exit"
                            ++ Monitor.Colors.RESET
                            ++ u " | Refreshing every 2 seconds...")],
     Ok tt)
  /\ summarize (get_docker_images json_loads rt) (get_docker_containers json_loads rt)
     = Ok {| imageCount := 0; containerCount := 0; runningCount := 0; stoppedCount := 0 |}
  /\ MonitorFree.generate_display py_str json_loads rt
     = MonitorFree.generate_display py_str json_loads runtime_idle
  /\ returns (MonitorFree.generate_display py_str json_loads rt).
Proof.
  intros Hi Hc Hs.
  unfold Monitor.frame, MonitorFree.generate_display.
  rewrite Hi, Hc, Hs.
  repeat split. eexists; reflexivity.
Qed.

Lemma getitem_raises (v : json) (key : str) (e : exn) :
  getitem v key = Raise e -> e = KeyError \/ e = TypeError.
Proof.
  unfold getitem. destruct v; try (intros [= <-]; now right).
  destruct (dict_get key fields); [discriminate | intros [= <-]; now left].
Qed.

Lemma count_running_raises (containers : list json) :
  Exists (fun c => ~ returns (field c "State")) containers ->
  exists e, count_running containers = Raise e /\ (e = KeyError \/ e = TypeError).
Proof.
  induction containers as [| c containers IH]; intros H; [inversion H |].
  cbn [count_running].
  destruct (field c "State") as [state | e] eqn:Es.
  - cbn [bind].
    assert (Hrest : Exists (fun c => ~ returns (field c "State")) containers).
    { inversion H as [? ? Hc | ? ? Hr]; subst; [| assumption].
      exfalso. apply Hc. rewrite Es. now exists state. }
    destruct (IH Hrest) as (e & He & Hk). rewrite He. now exists e.
  - exists e. split; [reflexivity |]. now apply (getitem_raises c (u "State")).
Qed.

(** X7: one container record without a [State] (wherever it stands in
    the list, also beyond the rows that are shown) stops the whole
    frame: the summary raises KeyError (TypeError when the record is no
    object) before anything but the header is printed, and
    [monitorfree.py] builds no layout. *)
Theorem container_without_state_stops_the_frame (rt : runtime) :
  Exists (fun c => ~ returns (field c "State")) (get_docker_containers json_loads rt) ->
  exists e,
    (e = KeyError \/ e = TypeError)
    /\ Monitor.frame py_str json_loads rt = (frame_head, Raise e)
    /\ MonitorFree.generate_display py_str json_loads rt = Raise e.
Proof.
  intros H. destruct (count_running_raises _ H) as (e & He & Hk).
  exists e. split; [assumption |].
  unfold Monitor.frame, MonitorFree.generate_display, MonitorFree.summary_panel,
    Monitor.display_summary, summarize.
  rewrite He. split; reflexivity.
Qed.

End Loops.

Lemma mapM_first_failure {A B : Type} (f : A -> result B) (xs : list A) :
  Exists (fun x => ~ returns (f x)) xs -> exists e, mapM f xs = Raise e.
Proof.
  induction xs as [| x xs IH]; intros H; [inversion H |].
  cbn [mapM]. destruct (f x) as [y | e] eqn:Ex; [| now exists e].
  cbn [bind].
  assert (Hrest : Exists (fun x => ~ returns (f x)) xs).
  { inversion H as [? ? Hc | ? ? Hr]; subst; [| assumption].
    exfalso. apply Hc. rewrite Ex. now exists y. }
  destruct (IH Hrest) as (e & He). rewrite He. now exists e.
Qed.

(** X8: one image whose size cannot be read or parsed (wherever it
    stands in the list, also beyond the rows that are shown) leaves the
    image panel of [monitor.py] with its three heading lines and no row,
    and lets no image panel be built in [monitorfree.py]: the maximum is
    taken over every size before the first row. *)
Theorem image_without_size_stops_the_panel
  (py_str : json -> str) (images : list json) :
  Exists (fun img => ~ returns (image_size img)) images ->
  exists e,
    Monitor.display_images py_str images = (images_heading, Raise e)
    /\ MonitorFree.images_panel images = Raise e.
Proof.
  intros H. destruct (mapM_first_failure image_size images H) as (e & He).
  exists e. destruct images as [| img images]; [inversion H |].
  unfold Monitor.display_images, MonitorFree.images_panel, max_image_size.
  rewrite He. split; reflexivity.
Qed.

(** ** Rows of the container panels *)

Lemma container_texts_fields (c : json) (name image status state : str) :
  container_texts c = Some (name, image, status, state) ->
  field c "Names" = Ok (JStr name) /\ field c "Image" = Ok (JStr image)
  /\ field c "Status" = Ok (JStr status) /\ field c "State" = Ok (JStr state).
Proof.
  unfold container_texts.
  destruct (field c "Names") as [[] |]; try discriminate.
  destruct (field c "Image") as [[] |]; try discriminate.
  destruct (field c "Status") as [[] |]; try discriminate.
  destruct (field c "State") as [[] |]; try discriminate.
  intros [= -> -> -> ->]. repeat split.
Qed.


Section ContainerRows.

Variable py_str : json -> str.




Lemma monitorfree_container_row (c : json) (t : str * str * str * str) :
  container_texts c = Some t ->
  MonitorFree.container_row py_str c = Ok (container_cells t).
Proof.
  destruct t as [[[name image] status] state]. intros H.
  destruct (container_texts_fields c _ _ _ _ H) as (Hn & Hi & Hs & Hst).
  unfold MonitorFree.container_row, field_slice. rewrite Hn, Hi, Hs, Hst. reflexivity.
Qed.

Lemma monitorfree_container_rows (cs : list json) (ts : list (str * str * str * str)) :
  List.map container_texts cs = List.map Some ts ->
  mapM (MonitorFree.container_row py_str) cs = Ok (List.map container_cells ts).
Proof.
  revert ts. induction cs as [| c cs IH]; intros [| t ts] H; try discriminate.
  - reflexivity.
  - cbn [List.map] in H. injection H as Hc Hcs.
    cbn [mapM]. rewrite (monitorfree_container_row c t Hc), (IH ts Hcs). reflexivity.
Qed.

(** X10: when the first five container records hold their four texts,
    the container table of [monitorfree.py] has one row for each of
    them in their order (five at most), the name and the image cut to
    25 characters and the status to 20, the state marked green when it
    is [running] and red otherwise; the [No containers] row is added
    only when the list is empty. *)
Theorem monitorfree_container_table_rows
  (containers : list json) (texts : list (str * str * str * str)) :
  List.map container_texts (firstn 5 containers) = List.map Some texts ->
  exists p,
    MonitorFree.containers_panel py_str containers = Ok p
    /\ MonitorFree.body p
       = MonitorFree.Grid
           {| MonitorFree.columns := [u "Name"; u "Image"; u "Status"; u "State"];
              MonitorFree.rows :=
                List.map container_cells texts
                ++ match containers with
                   | [] => [[u "No containers"; []; []; []]]
                   | _ :: _ => []
                   end |}
    /\ List.length texts = Nat.min 5 (List.length containers).
Proof.
  intros H. unfold MonitorFree.containers_panel.
  rewrite (monitorfree_container_rows _ _ H). cbn [bind].
  eexists. split; [reflexivity |]. split; [reflexivity |].
  apply (f_equal (@List.length _)) in H.
  rewrite !length_map, length_firstn in H. lia.
Qed.

End ContainerRows.

(** ** The two ends of the scale *)

Lemma fdiv_self (m : positive) (e : Z) :
  fdiv (S754_finite false m e) (S754_finite false m e) = one.
Proof.
  unfold fdiv, SFdiv, SFdiv_core_binary.
  replace (Zdigits2 (Zpos m) + e - (Zdigits2 (Zpos m) + e)) with 0 by lia.
  replace (e - e) with 0 by lia.
  change (Z.min (fexp prec emax 0) 0) with (-53).
  change (0 - -53) with 53.
  cbv iota beta.
  assert (Hd : Z.div_eucl (Z.shiftl (Zpos m) 53) (Zpos m) = (2 ^ 53, 0)).
  { rewrite Z.shiftl_mul_pow2 by lia.
    rewrite (surjective_pairing (Z.div_eucl (Zpos m * 2 ^ 53) (Zpos m))).
    change (fst (Z.div_eucl (Zpos m * 2 ^ 53) (Zpos m)))
      with ((Zpos m * 2 ^ 53) / Zpos m).
    change (snd (Z.div_eucl (Zpos m * 2 ^ 53) (Zpos m)))
      with ((Zpos m * 2 ^ 53) mod Zpos m).
    rewrite (Z.mul_comm (Zpos m)), Z.div_mul, Z.mod_mul by lia. reflexivity. }
  rewrite Hd.
  assert (Hl : new_location (Zpos m) 0 = loc_Exact).
  { unfold new_location, new_location_even, new_location_odd.
    destruct (Z.even (Zpos m)); reflexivity. }
  rewrite Hl. vm_compute. reflexivity.
Qed.

Lemma py_max_In (values : list float) (m : float) :
  py_max values = Ok m -> In m values.
Proof.
  destruct values as [| x rest]; [discriminate |].
  unfold py_max. intros [= <-].
  destruct (fold_max_member rest x) as [H | H]; [left; now rewrite H | now right].
Qed.

Lemma mapM_In {A B : Type} (f : A -> result B) (xs : list A) (ys : list B) (y : B) :
  mapM f xs = Ok ys -> In y ys -> exists x, In x xs /\ f x = Ok y.
Proof.
  revert ys. induction xs as [| x xs IH]; intros ys H Hin.
  - cbn in H. inversion H; subst. contradiction.
  - cbn [mapM] in H. destruct (f x) as [b | e] eqn:Ex; [| discriminate].
    destruct (mapM f xs) as [bs | e] eqn:Ebs; [| discriminate].
    cbn [bind] in H. inversion H; subst.
    destruct Hin as [<- | Hin].
    + exists x. split; [now left | assumption].
    + destruct (IH bs eq_refl Hin) as (x' & Hx' & Hf). exists x'. split; [now right | assumption].
Qed.

(** X11: when the largest image size is a positive finite number, some
    image of the list has that size and its percentage is exactly 100
    (a size divided by itself is 1 in binary64), and every image of
    size 0 has percentage 0; the bar at 100 is fifteen full cells in
    red with the label [100.0%], the bar at 0 fifteen light cells in
    green with the label [  0.0%], in both scripts. *)
Theorem scale_ends
  (images : list json) (mm : positive) (me : Z) :
  max_image_size images = Ok (S754_finite false mm me) ->
  (exists img,
      In img images
      /\ image_size img = Ok (S754_finite false mm me)
      /\ image_percentage (S754_finite false mm me) img = Ok (fconst 100))
  /\ (forall img,
         image_size img = Ok fzero ->
         image_percentage (S754_finite false mm me) img = Ok fzero)
  /\ Monitor.create_colored_bar (fconst 100) 15
     = Ok (Monitor.Colors.RED ++ repeat FULL_BLOCK 15 ++ Monitor.Colors.RESET
           ++ u " 100.0%")
  /\ MonitorFree.create_bar (fconst 100) 15
     = Ok (u "[red]" ++ repeat FULL_BLOCK 15 ++ u "[/red] 100.0%")
  /\ Monitor.create_colored_bar fzero 15
     = Ok (Monitor.Colors.GREEN ++ Monitor.Colors.RESET ++ repeat LIGHT_SHADE 15
           ++ u "   0.0%")
  /\ MonitorFree.create_bar fzero 15
     = Ok (u "[green]" ++ repeat LIGHT_SHADE 15 ++ u "[/green]   0.0%").
Proof.
  intros Hmax. split.
  - unfold max_image_size in Hmax.
    destruct (mapM image_size images) as [sizes | e] eqn:Es; [| discriminate].
    cbn [bind] in Hmax. apply py_max_In in Hmax.
    destruct (mapM_In _ _ _ _ Es Hmax) as (img & Hin & Hsize).
    exists img. repeat split; try assumption.
    unfold image_percentage. rewrite Hsize. cbn [bind].
    change (py_gt (S754_finite false mm me) fzero) with true. cbv iota.
    unfold py_truediv. cbn [bind]. rewrite fdiv_self.
    vm_compute. reflexivity.
  - split.
    + intros img Hsize. unfold image_percentage. rewrite Hsize. reflexivity.
    + repeat split; vm_compute; reflexivity.
Qed.

(** ** White space and letters in a size *)

Lemma lstrip_by_prefix (p : char -> bool) (a s : str) :
  Forall (fun c => p c = true) a -> lstrip_by p (a ++ s) = lstrip_by p s.
Proof.
  induction 1 as [| c a Hc _ IH]; [reflexivity |].
  cbn [app lstrip_by]. now rewrite Hc.
Qed.

Lemma rstrip_by_suffix (p : char -> bool) (s b : str) :
  Forall (fun c => p c = true) b -> rstrip_by p (s ++ b) = rstrip_by p s.
Proof.
  intros Hb. unfold rstrip_by. rewrite rev_app_distr.
  rewrite lstrip_by_prefix; [reflexivity |].
  apply Forall_rev. exact Hb.
Qed.

Lemma lstrip_by_app (p : char -> bool) (s b : str) :
  Forall (fun c => p c = true) b ->
  rstrip_by p (lstrip_by p (s ++ b)) = rstrip_by p (lstrip_by p s).
Proof.
  intros Hb. induction s as [| c s IH].
  - cbn [app]. rewrite <- (app_nil_r b) at 1.
    rewrite lstrip_by_prefix by assumption. reflexivity.
  - cbn [app lstrip_by]. destruct (p c); [exact IH |].
    change (c :: s ++ b) with ((c :: s) ++ b). now apply rstrip_by_suffix.
Qed.

Lemma strip_blanks (a s b : str) :
  blank a -> blank b -> strip (a ++ s ++ b) = strip s.
Proof.
  intros Ha Hb. unfold strip.
  rewrite lstrip_by_prefix by exact Ha. now apply lstrip_by_app.
Qed.

(** X12: white space before and after a size changes nothing:
    [parse_size] gives for the padded text what it gives for the text
    itself, be it a value or an exception. *)
Theorem parse_size_ignores_outer_blanks (a s b : str) :
  blank a -> blank b -> parse_size (a ++ s ++ b) = parse_size s.
Proof.
  intros Ha Hb. unfold parse_size. now rewrite strip_blanks.
Qed.

Lemma starts_with_head (c : char) (sub s : str) :
  starts_with (c :: sub) s = true -> In c s.
Proof.
  destruct s as [| d s]; cbn [starts_with]; [discriminate |].
  intros H. apply andb_prop in H. destruct H as [H _].
  apply N.eqb_eq in H. subst. now left.
Qed.

Lemma contains_head (c : char) (sub s : str) :
  contains (c :: sub) s = true -> In c s.
Proof.
  induction s as [| d s IH]; cbn [contains].
  - cbn. discriminate.
  - intros H. apply orb_prop in H. destruct H as [H | H].
    + now apply starts_with_head in H.
    + right. now apply IH.
Qed.

Lemma lstrip_by_incl (p : char -> bool) (s : str) (c : char) :
  In c (lstrip_by p s) -> In c s.
Proof.
  induction s as [| d s IH]; [easy |].
  cbn [lstrip_by]. destruct (p d); [intros H; right; now apply IH | easy].
Qed.

Lemma strip_incl (s : str) (c : char) : In c (strip s) -> In c s.
Proof.
  unfold strip, rstrip_by. intros H.
  apply in_rev in H. apply lstrip_by_incl in H. apply in_rev in H.
  now apply lstrip_by_incl in H.
Qed.

(** X13: a size text without a capital G, M or K is read as 0 and
    never raises, whatever else it holds: the sizes Docker prints in
    bytes, in [kB] (small k) or in TB all count as 0. *)
Theorem parse_size_without_unit_letter (s : str) :
  ~ In 71%N s -> ~ In 77%N s -> ~ In 75%N s -> parse_size s = Ok fzero.
Proof.
  intros HG HM HK. unfold parse_size.
  destruct (contains (u "GB") (strip s)) eqn:EG.
  { exfalso. apply HG, strip_incl. exact (contains_head 71%N [66%N] _ EG). }
  destruct (contains (u "MB") (strip s)) eqn:EM.
  { exfalso. apply HM, strip_incl. exact (contains_head 77%N [66%N] _ EM). }
  destruct (contains (u "KB") (strip s)) eqn:EK.
  { exfalso. apply HK, strip_incl. exact (contains_head 75%N [66%N] _ EK). }
  reflexivity.
Qed.

(** ** Rows of the usage panels *)

Lemma stat_reading_fields (stat : json) (name : str) (cpu mem : float) :
  stat_reading stat = Some (name, cpu, mem) ->
  field stat "Name" = Ok (JStr name)
  /\ stat_percent stat "CPUPerc" = Ok cpu /\ stat_percent stat "MemPerc" = Ok mem.
Proof.
  unfold stat_reading.
  destruct (field stat "Name") as [[] |]; try discriminate.
  destruct (stat_percent stat "CPUPerc"); try discriminate.
  destruct (stat_percent stat "MemPerc"); try discriminate.
  intros [= -> -> ->]. repeat split.
Qed.

Lemma monitorfree_stat_row (stat : json) (r : str * float * float) :
  stat_reading stat = Some r -> readings_moderate r ->
  MonitorFree.stat_row stat = Ok (stat_cells r).
Proof.
  destruct r as [[name cpu] mem]. intros H [Hc Hm]. cbn [fst snd] in Hc, Hm.
  destruct (stat_reading_fields stat _ _ _ H) as (Hn & Hcpu & Hmem).
  destruct (bar_moderate cpu 10 Hc (small_width 10 ltac:(lia))) as [_ [cb Hcb]].
  destruct (bar_moderate mem 10 Hm (small_width 10 ltac:(lia))) as [_ [mb Hmb]].
  unfold MonitorFree.stat_row, field_slice, stat_cells.
  rewrite Hcpu, Hmem, Hn. cbn [bind py_slice_to].
  rewrite Hcb. cbn [bind]. rewrite Hmb. reflexivity.
Qed.

Lemma monitorfree_stat_rows (stats : list json) (rs : list (str * float * float)) :
  List.map stat_reading stats = List.map Some rs ->
  Forall readings_moderate rs ->
  mapM MonitorFree.stat_row stats = Ok (List.map stat_cells rs).
Proof.
  revert rs. induction stats as [| st stats IH]; intros [| r rs] H Hr; try discriminate.
  - reflexivity.
  - cbn [List.map] in H. injection H as Hs Hrest. inversion Hr; subst.
    cbn [mapM]. rewrite (monitorfree_stat_row st r Hs), (IH rs Hrest); auto.
Qed.

(** X18: when the first five statistics records hold a name and two
    percentages that are finite and below [2 ^ 16] in absolute value
    (also above 100, as for a container that uses several cores), the
    usage table of [monitorfree.py] has one row for each of them in
    their order (five at most): the name cut to 25 characters and two
    bars of width 10. Nothing raises. *)
Theorem monitorfree_usage_table_rows
  (stats : list json) (readings : list (str * float * float)) :
  stats <> [] ->
  List.map stat_reading (firstn 5 stats) = List.map Some readings ->
  Forall readings_moderate readings ->
  MonitorFree.resource_usage_panel stats
  = Ok {| MonitorFree.body :=
            MonitorFree.Grid
              {| MonitorFree.columns := [u "Name"; u "CPU Usage"; u "Memory Usage"];
                 MonitorFree.rows := List.map stat_cells readings |};
          MonitorFree.title := Some (u "Resource Usage");
          MonitorFree.border_style := u "green" |}
  /\ List.length readings = Nat.min 5 (List.length stats)
  /\ Forall (fun r => returns (MonitorFree.create_bar (snd (fst r)) 10)
                      /\ returns (MonitorFree.create_bar (snd r) 10)) readings.
Proof.
  intros Hne H Hr. split; [| split].
  - destruct stats as [| st stats]; [congruence |].
    unfold MonitorFree.resource_usage_panel.
    rewrite (monitorfree_stat_rows _ _ H Hr). reflexivity.
  - apply (f_equal (@List.length _)) in H.
    rewrite !length_map, length_firstn in H. lia.
  - apply Forall_impl with (2 := Hr). intros r [Hc Hm].
    split; [apply (bar_moderate _ 10 Hc) | apply (bar_moderate _ 10 Hm)];
      apply small_width; lia.
Qed.

Section UsageRows.

Variable py_str : json -> str.





End UsageRows.

(** ** Rows of the image panels *)

Lemma proper_size_cases (x : float) :
  proper_size x ->
  (exists s, x = S754_zero s) \/ (exists m e, x = S754_finite false m e).
Proof.
  intros (Hn & Hi).
  destruct (nonneg_cases x Hn) as [H | [H | (m & e & ->)]]; [now left | contradiction |].
  right. now exists m, e.
Qed.

(** The percentage of a size that does not exceed the largest one. *)
Lemma scaled_moderate (m v : float) :
  is_float m -> is_float v -> proper_size m -> proper_size v -> fle v m = true ->
  moderate (scaled m v).
Proof.
  intros Hcm Hcv Hm Hv Hle. unfold scaled.
  destruct (proper_size_cases m Hm) as [[s ->] | (mm & me & ->)].
  - destruct s; exact I.
  - change (feq (S754_finite false mm me) fzero) with false. cbv iota.
    destruct (proper_size_cases v Hv) as [[s ->] | (vm & ve & ->)].
    + destruct s; exact I.
    + pose proof (fle_magnitude _ _ _ _ Hcv Hcm Hle) as Hmag.
      assert (Hb : fbounded (S754_finite false vm ve) false
                     (Zpos (digits2_pos mm) + me) ve).
      { cbn [fbounded]. repeat split; lia. }
      pose proof (fdiv_bounded _ false false mm me _ _ _ Hb eq_refl ltac:(lia)) as Hq.
      replace (Zpos (digits2_pos mm) + me - (Zpos (digits2_pos mm) + me) + 1)
        with 1 in Hq by lia.
      change (Z.max 1 (-1074)) with 1 in Hq. cbn in Hq.
      assert (Hh : fbounded (fconst 100) false 7 (-46)).
      { rewrite fconst_100. unfold hundred. cbn [fbounded]. repeat split; cbn; lia. }
      pose proof (fmul_bounded _ _ _ _ _ _ _ _ Hq Hh ltac:(lia) ltac:(lia) ltac:(lia)) as Hp.
      apply (fbounded_moderate _ _ _ _ Hp). lia.
Qed.

Lemma scaled_bar (m v : float) :
  is_float m -> is_float v -> proper_size m -> proper_size v -> fle v m = true ->
  returns (Monitor.create_colored_bar (scaled m v) 15)
  /\ returns (MonitorFree.create_bar (scaled m v) 15).
Proof.
  intros Hcm Hcv Hm Hv Hle.
  apply bar_moderate; [now apply scaled_moderate | apply small_width; lia].
Qed.

Lemma image_texts_fields (img : json) (repo tag size : str) :
  image_texts img = Some (repo, tag, size) ->
  field img "Repository" = Ok (JStr repo)
  /\ field img "Tag" = Ok (JStr tag) /\ field img "Size" = Ok (JStr size).
Proof.
  unfold image_texts.
  destruct (field img "Repository") as [[] |]; try discriminate.
  destruct (field img "Tag") as [[] |]; try discriminate.
  destruct (field img "Size") as [[] |]; try discriminate.
  intros [= -> -> ->]. repeat split.
Qed.

Lemma sized_images (images : list json) (sizes : list float) :
  images <> [] ->
  mapM image_size images = Ok sizes -> Forall proper_size sizes ->
  exists m,
    max_image_size images = Ok m /\ is_float m /\ proper_size m
    /\ Forall (sized m) images.
Proof.
  intros Hne Hs Hp.
  assert (Hne' : sizes <> []).
  { intros ->. apply mapM_ok_length in Hs. destruct images; [congruence | discriminate]. }
  assert (Hnn : Forall nonneg sizes).
  { apply Forall_impl with (2 := Hp). now intros a (H & _). }
  destruct (py_max_is_maximum sizes Hne' Hnn) as (m & Hmax & [Hin Hall] & Hm).
  exists m. unfold max_image_size. rewrite Hs. cbn [bind].
  split; [assumption |]. rewrite Forall_forall in Hp, Hall.
  split.
  { destruct (mapM_In _ _ _ _ Hs Hin) as (img & _ & Himg).
    now apply image_size_valid in Himg. }
  split; [now apply Hp |].
  clear Hmax Hin Hm Hne Hne' Hnn.
  revert sizes Hs Hp Hall. induction images as [| img images IH]; intros sizes Hs Hp Hall.
  - constructor.
  - cbn [mapM] in Hs. destruct (image_size img) as [v | e] eqn:Ev; [| discriminate].
    destruct (mapM image_size images) as [vs | e] eqn:Evs; [| discriminate].
    cbn [bind] in Hs. inversion Hs; subst. constructor.
    + exists v. split; [exact Ev |]. split; [now apply image_size_valid in Ev |].
      split; [apply Hp | apply Hall]; now left.
    + apply (IH vs eq_refl); intros x Hx; [apply Hp | apply Hall]; now right.
Qed.

Lemma Forall_firstn {A : Type} (P : A -> Prop) (n : nat) (xs : list A) :
  Forall P xs -> Forall P (firstn n xs).
Proof.
  revert n. induction xs as [| x xs IH]; intros [| n] H; cbn [firstn];
    try constructor; inversion H; subst; auto.
Qed.

Lemma monitorfree_image_row (m : float) (img : json) (t : str * str * str) :
  is_float m -> proper_size m -> sized m img -> image_texts img = Some t ->
  MonitorFree.image_row m img = Ok (image_cells m t).
Proof.
  destruct t as [[repo tag] size]. intros Hcm Hm (v & Hv & Hcv & Hpv & Hle) Ht.
  destruct (image_texts_fields img _ _ _ Ht) as (Hr & Htag & Hsize).
  destruct (scaled_bar m v Hcm Hcv Hm Hpv Hle) as [_ [bar Hbar]].
  assert (Hparse : parse_size size = Ok v).
  { unfold image_size in Hv. rewrite Hsize in Hv. exact Hv. }
  unfold MonitorFree.image_row, field_slice, image_cells.
  rewrite (image_percentage_scaled m img v (proj1 Hm) Hv), Hr, Htag, Hsize, Hparse.
  cbn [bind py_slice_to].
  rewrite Hbar. reflexivity.
Qed.

Lemma monitorfree_image_rows (m : float) (images : list json) (ts : list (str * str * str)) :
  is_float m -> proper_size m -> Forall (sized m) images ->
  List.map image_texts images = List.map Some ts ->
  mapM (MonitorFree.image_row m) images = Ok (List.map (image_cells m) ts).
Proof.
  intros Hcm Hm. revert ts. induction images as [| img images IH]; intros [| t ts] Hs H;
    try discriminate.
  - reflexivity.
  - cbn [List.map] in H. injection H as Ht Hrest. inversion Hs; subst.
    cbn [mapM]. rewrite (monitorfree_image_row m img t), (IH ts); auto.
Qed.

(** X20: when every image has a size that parses to a finite number
    that is not negative, and the first five records hold their three
    texts, the image table of [monitorfree.py] has one row for each of
    them in their order (five at most): repository cut to 30
    characters, tag cut to 15, the size text, and a bar of width 15 for
    the size relative to the largest size of the whole list. Nothing
    raises, whatever the sizes are. *)
Theorem monitorfree_image_table_rows
  (images : list json) (sizes : list float) (texts : list (str * str * str)) :
  images <> [] ->
  mapM image_size images = Ok sizes ->
  Forall proper_size sizes ->
  List.map image_texts (firstn 5 images) = List.map Some texts ->
  exists m,
    max_image_size images = Ok m
    /\ MonitorFree.images_panel images
       = Ok {| MonitorFree.body :=
                 MonitorFree.Grid
                   {| MonitorFree.columns :=
                        [u "Repository"; u "Tag"; u "Size"; u "Size Bar"];
                      MonitorFree.rows := List.map (image_cells m) texts |};
               MonitorFree.title := Some (u "Docker Images");
               MonitorFree.border_style := u "magenta" |}
    /\ List.length texts = Nat.min 5 (List.length images).
Proof.
  intros Hne Hs Hp Ht.
  destruct (sized_images images sizes Hne Hs Hp) as (m & Hmax & Hcm & Hm & Hall).
  exists m. split; [assumption |]. split.
  - destruct images as [| img images]; [congruence |].
    unfold MonitorFree.images_panel. rewrite Hmax. cbn [bind].
    rewrite (monitorfree_image_rows m _ texts Hcm Hm); [reflexivity | | assumption].
    now apply Forall_firstn.
  - apply (f_equal (@List.length _)) in Ht.
    rewrite !length_map, length_firstn in Ht. lia.
Qed.

Section ImageRows.

Variable py_str : json -> str.




End ImageRows.

(** ** The properties at sample inputs *)

Lemma frame_without_data_witness :
  Monitor.frame no_str no_json runtime_down
  = (frame_head
       ++ fst (Monitor.display_summary [] [])
       ++ fst (Monitor.display_images no_str [])
       ++ fst (Monitor.display_containers no_str [])
       ++ fst (Monitor.display_stats no_str [])
       ++ [Monitor.Printed (Monitor.Colors.BOLD ++ u "Press Ctrl+C to exit"
                            ++ Monitor.Colors.RESET
                            ++ u " | Refreshing every 2 seconds...")],
     Ok tt)
  /\ summarize (get_docker_images no_json runtime_down)
               (get_docker_containers no_json runtime_down)
     = Ok {| imageCount := 0; containerCount := 0; runningCount := 0; stoppedCount := 0 |}
  /\ MonitorFree.generate_display no_str no_json runtime_down
     = MonitorFree.generate_display no_str no_json runtime_idle
  /\ returns (MonitorFree.generate_display no_str no_json runtime_down).
Proof.
  apply (frame_without_data no_str no_json runtime_down); reflexivity.
Defined.

Lemma monitor_interrupt_witness :
  Monitor.main no_str no_json world_interrupted
  = (frames_printed no_str no_json ([idle_turn] ++ [interrupted_turn])
       ++ Monitor.goodbye, Returned)
  /\ exit_status (snd (Monitor.main no_str no_json world_interrupted)) = Some 0.
Proof.
  apply (monitor_interrupt_says_goodbye no_str no_json world_interrupted
           [idle_turn] [idle_turn] interrupted_turn).
  - eexists; reflexivity.
  - reflexivity.
  - constructor; [split; reflexivity | constructor].
  - reflexivity.
  - reflexivity.
Defined.

Lemma monitorfree_interrupt_witness :
  MonitorFree.main no_str no_json world_interrupted
  = (layouts_shown no_str no_json ([idle_turn] ++ [interrupted_turn])
       ++ MonitorFree.goodbye, Returned)
  /\ exit_status (snd (MonitorFree.main no_str no_json world_interrupted)) = Some 0.
Proof.
  apply (monitorfree_interrupt_says_goodbye no_str no_json world_interrupted
           [idle_turn] [idle_turn] interrupted_turn).
  - eexists; reflexivity.
  - reflexivity.
  - constructor; [split; [eexists; reflexivity | reflexivity] | constructor].
  - eexists; reflexivity.
  - reflexivity.
Defined.

Lemma monitor_exception_witness :
  Monitor.main no_str stats_decoder world_with_late_dashes
  = (frames_printed no_str stats_decoder [idle_turn]
       ++ fst (Monitor.frame no_str stats_decoder runtime_with_dashes),
     Crashed ValueError)
  /\ exit_status (snd (Monitor.main no_str stats_decoder world_with_late_dashes))
     = Some 1.
Proof.
  apply (monitor_exception_ends_the_run no_str stats_decoder world_with_late_dashes
           [idle_turn] [idle_turn] turn_with_dashes).
  - eexists; reflexivity.
  - reflexivity.
  - constructor; [split; reflexivity | constructor].
  - vm_compute. reflexivity.
  - discriminate.
Defined.

Lemma monitorfree_exception_witness :
  MonitorFree.main no_str stats_decoder world_with_late_dashes
  = (layouts_shown no_str stats_decoder [idle_turn], Crashed ValueError)
  /\ exit_status (snd (MonitorFree.main no_str stats_decoder world_with_late_dashes))
     = Some 1.
Proof.
  apply (monitorfree_exception_ends_the_run no_str stats_decoder world_with_late_dashes
           [idle_turn] [idle_turn] turn_with_dashes).
  - eexists; reflexivity.
  - reflexivity.
  - constructor; [split; [eexists; reflexivity | reflexivity] | constructor].
  - vm_compute. reflexivity.
  - discriminate.
Defined.

Lemma loops_run_until_stopped_witness :
  (Forall (quiet_turn no_str no_json) (cycles world_left_alone) ->
   Monitor.main no_str no_json world_left_alone
   = (frames_printed no_str no_json (cycles world_left_alone), Running))
  /\ (Forall (quiet_refresh no_str no_json) (cycles world_left_alone) ->
      MonitorFree.main no_str no_json world_left_alone
      = (layouts_shown no_str no_json (cycles world_left_alone), Running))
  /\ (snd (Monitor.main no_str no_json world_left_alone) = Returned ->
      Exists (fun c => cycle_interrupted c = true
                       \/ snd (Monitor.frame no_str no_json (cycle_runtime c))
                          = Raise KeyboardInterrupt) (cycles world_left_alone))
  /\ (snd (MonitorFree.main no_str no_json world_left_alone) = Returned ->
      Exists (fun c => cycle_interrupted c = true
                       \/ MonitorFree.generate_display no_str no_json (cycle_runtime c)
                          = Raise KeyboardInterrupt) (cycles world_left_alone)).
Proof.
  apply (loops_run_until_stopped no_str no_json world_left_alone).
  eexists; reflexivity.
Defined.

Lemma container_without_state_witness :
  exists e,
    (e = KeyError \/ e = TypeError)
    /\ Monitor.frame no_str names_decoder runtime_with_a_container
       = (frame_head, Raise e)
    /\ MonitorFree.generate_display no_str names_decoder runtime_with_a_container
       = Raise e.
Proof.
  apply (container_without_state_stops_the_frame no_str names_decoder
           runtime_with_a_container).
  apply Exists_exists. exists (JDict [(u "Names", JStr (u "web"))]). split.
  - vm_compute. left. reflexivity.
  - intros [v Hv]. vm_compute in Hv. discriminate.
Defined.

Lemma image_without_size_witness :
  exists e,
    Monitor.display_images no_str (two_images ++ [image_without_size])
    = (images_heading, Raise e)
    /\ MonitorFree.images_panel (two_images ++ [image_without_size]) = Raise e.
Proof.
  apply (image_without_size_stops_the_panel no_str (two_images ++ [image_without_size])).
  apply Exists_exists. exists image_without_size. split.
  - apply in_or_app. right. now left.
  - intros [v Hv]. vm_compute in Hv. discriminate.
Defined.


Lemma monitorfree_container_table_witness :
  exists p,
    MonitorFree.containers_panel no_str (repeat web_container 7) = Ok p
    /\ MonitorFree.body p
       = MonitorFree.Grid
           {| MonitorFree.columns := [u "Name"; u "Image"; u "Status"; u "State"];
              MonitorFree.rows :=
                List.map container_cells (repeat web_texts 5)
                ++ match repeat web_container 7 with
                   | [] => [[u "No containers"; []; []; []]]
                   | _ :: _ => []
                   end |}
    /\ List.length (repeat web_texts 5)
       = Nat.min 5 (List.length (repeat web_container 7)).
Proof.
  apply (monitorfree_container_table_rows no_str (repeat web_container 7)
           (repeat web_texts 5)).
  vm_compute. reflexivity.
Defined.

Lemma scale_ends_witness :
  (exists img,
      In img two_images
      /\ image_size img = Ok (S754_finite false 4503599627370496 (-41))
      /\ image_percentage (S754_finite false 4503599627370496 (-41)) img
         = Ok (fconst 100))
  /\ (forall img,
         image_size img = Ok fzero ->
         image_percentage (S754_finite false 4503599627370496 (-41)) img = Ok fzero)
  /\ Monitor.create_colored_bar (fconst 100) 15
     = Ok (Monitor.Colors.RED ++ repeat FULL_BLOCK 15 ++ Monitor.Colors.RESET
           ++ u " 100.0%")
  /\ MonitorFree.create_bar (fconst 100) 15
     = Ok (u "[red]" ++ repeat FULL_BLOCK 15 ++ u "[/red] 100.0%")
  /\ Monitor.create_colored_bar fzero 15
     = Ok (Monitor.Colors.GREEN ++ Monitor.Colors.RESET ++ repeat LIGHT_SHADE 15
           ++ u "   0.0%")
  /\ MonitorFree.create_bar fzero 15
     = Ok (u "[green]" ++ repeat LIGHT_SHADE 15 ++ u "[/green]   0.0%").
Proof.
  apply (scale_ends two_images 4503599627370496 (-41)).
  vm_compute. reflexivity.
Defined.

Lemma parse_size_ignores_outer_blanks_witness :
  parse_size (u "  " ++ u "2GB" ++ [10%N]) = parse_size (u "2GB").
Proof.
  apply (parse_size_ignores_outer_blanks (u "  ") (u "2GB") [10%N]);
    repeat constructor.
Defined.

Lemma parse_size_without_unit_letter_witness :
  parse_size (u "7.8kB") = Ok fzero.
Proof.
  apply (parse_size_without_unit_letter (u "7.8kB"));
    intros H; vm_compute in H; intuition discriminate.
Defined.



Lemma monitorfree_usage_table_witness :
  MonitorFree.resource_usage_panel [busy_stat]
  = Ok {| MonitorFree.body :=
            MonitorFree.Grid
              {| MonitorFree.columns := [u "Name"; u "CPU Usage"; u "Memory Usage"];
                 MonitorFree.rows := List.map stat_cells [busy_reading] |};
          MonitorFree.title := Some (u "Resource Usage");
          MonitorFree.border_style := u "green" |}
  /\ List.length [busy_reading] = Nat.min 5 (List.length [busy_stat])
  /\ Forall (fun r => returns (MonitorFree.create_bar (snd (fst r)) 10)
                      /\ returns (MonitorFree.create_bar (snd r) 10))
            [busy_reading].
Proof.
  apply (monitorfree_usage_table_rows [busy_stat] [busy_reading]).
  - discriminate.
  - vm_compute. reflexivity.
  - constructor; [split; vm_compute; discriminate | constructor].
Defined.


Lemma monitorfree_image_table_witness :
  exists m,
    max_image_size two_images = Ok m
    /\ MonitorFree.images_panel two_images
       = Ok {| MonitorFree.body :=
                 MonitorFree.Grid
                   {| MonitorFree.columns :=
                        [u "Repository"; u "Tag"; u "Size"; u "Size Bar"];
                      MonitorFree.rows := List.map (image_cells m) two_image_texts |};
               MonitorFree.title := Some (u "Docker Images");
               MonitorFree.border_style := u "magenta" |}
    /\ List.length two_image_texts = Nat.min 5 (List.length two_images).
Proof.
  apply (monitorfree_image_table_rows two_images [fconst 512; fconst 2048]
           two_image_texts).
  - discriminate.
  - vm_compute. reflexivity.
  - repeat constructor; try (vm_compute; reflexivity);
      intros H; vm_compute in H; discriminate.
  - vm_compute. reflexivity.
Defined.

(** ** The lines of a query *)

Lemma split_on_no_sep (sep : char) (s : str) :
  Forall (fun w => ~ In sep w) (split_on sep s).
Proof.
  induction s as [| c s IH]; cbn [split_on].
  - constructor; [easy | constructor].
  - destruct (c =? sep)%N eqn:E.
    + constructor; [easy | exact IH].
    + apply N.eqb_neq in E.
      destruct (split_on sep s) as [| w ws].
      * constructor; [| constructor]. intros [H | []]. congruence.
      * inversion IH; subst. constructor; [| assumption].
        intros [H | H]; [congruence | contradiction].
Qed.

Lemma output_lines_shape (out : str) :
  Forall (fun line => line <> [] /\ ~ In 10%N line) (output_lines out).
Proof.
  unfold output_lines. apply Forall_forall. intros line Hin.
  apply filter_In in Hin. destruct Hin as [Hin Hne]. split.
  - intros ->. discriminate.
  - pose proof (split_on_no_sep 10%N (strip out)) as H.
    rewrite Forall_forall in H. now apply H.
Qed.

(** X21: a query whose command succeeds hands to [json.loads] the
    lines of the stripped output that are not empty, each without a
    line break, and is all or nothing: it returns either one record for
    each of these lines, in their order, or the empty list; never a
    part of the records. *)
Theorem query_is_all_or_nothing
  (json_loads : str -> result json) (get : runtime -> list json) (cmd : command)
  (rt : runtime) (out : str) :
  In (get, cmd) (queries json_loads) ->
  rt cmd = Exited 0 out ->
  Forall (fun line => line <> [] /\ ~ In 10%N line) (output_lines out)
  /\ ((exists records,
          mapM json_loads (output_lines out) = Ok records
          /\ get rt = records
          /\ List.length records = List.length (output_lines out))
      \/ (get rt = [] /\ ~ returns (mapM json_loads (output_lines out)))).
Proof.
  intros Hin Hrt. split; [apply output_lines_shape |].
  assert (Hget : get rt = query json_loads rt cmd).
  { destruct Hin as [H | [H | [H | []]]]; inversion H; reflexivity. }
  rewrite Hget. unfold query, query_body, subprocess_run. rewrite Hrt.
  cbn [Z.eqb bind]. fold (output_lines out).
  destruct (mapM json_loads (output_lines out)) as [records | e] eqn:E.
  - left. exists records. repeat split. now apply mapM_ok_length in E.
  - right. split; [reflexivity |]. intros [v Hv]. discriminate.
Qed.

Lemma query_is_all_or_nothing_witness :
  Forall (fun line => line <> [] /\ ~ In 10%N line)
         (output_lines (u "a" ++ [10%N; 10%N] ++ u "b" ++ [10%N]))
  /\ ((exists records,
          mapM names_decoder (output_lines (u "a" ++ [10%N; 10%N] ++ u "b" ++ [10%N]))
          = Ok records
          /\ get_docker_images names_decoder runtime_with_two_lines = records
          /\ List.length records
             = List.length (output_lines (u "a" ++ [10%N; 10%N] ++ u "b" ++ [10%N])))
      \/ (get_docker_images names_decoder runtime_with_two_lines = []
          /\ ~ returns (mapM names_decoder
                          (output_lines (u "a" ++ [10%N; 10%N] ++ u "b" ++ [10%N]))))).
Proof.
  apply (query_is_all_or_nothing names_decoder (get_docker_images names_decoder)
           images_command runtime_with_two_lines).
  - now left.
  - reflexivity.
Defined.

(** ** Docker lost while the script runs *)

Section DockerLost.

Variable py_str : json -> str.
Variable json_loads : str -> result json.

Lemma query_of_lost_runtime (rt : runtime) (cmd : command) :
  ~ returns (subprocess_run rt cmd) -> query json_loads rt cmd = [].
Proof.
  intros H. unfold query, query_body.
  destruct (subprocess_run rt cmd) as [out | e]; [| reflexivity].
  exfalso. apply H. now exists out.
Qed.

Lemma frame_of_lost_runtime (c : cycle) :
  docker_lost c ->
  Monitor.frame py_str json_loads (cycle_runtime c) = (empty_frame py_str, Ok tt)
  /\ MonitorFree.generate_display py_str json_loads (cycle_runtime c)
     = MonitorFree.generate_display py_str json_loads runtime_idle.
Proof.
  intros [_ H].
  unfold Monitor.frame, MonitorFree.generate_display,
    get_docker_images, get_docker_containers, get_container_stats.
  rewrite !query_of_lost_runtime by apply H.
  split; reflexivity.
Qed.

(** X22: the availability of Docker is checked once, before the loop.
    When Docker answers at start-up and no command succeeds any more
    during the turns that follow, neither script reports an error or
    stops: [monitor.py] draws, turn after turn, the frame of an empty
    Docker (a summary of zeros and the empty panels), [monitorfree.py]
    shows its empty layout, and both keep running. *)
Theorem docker_lost_after_startup (w : world) :
  returns (docker_version (startup w)) ->
  Forall docker_lost (cycles w) ->
  Monitor.main py_str json_loads w
  = (List.concat (repeat (empty_frame py_str) (List.length (cycles w))), Running)
  /\ exists l,
       MonitorFree.generate_display py_str json_loads runtime_idle = Ok l
       /\ MonitorFree.main py_str json_loads w
          = (repeat (MonitorFree.Display l) (List.length (cycles w)), Running).
Proof.
  intros [v Hv] Hlost. unfold Monitor.main, MonitorFree.main. rewrite Hv.
  split.
  - induction Hlost as [| c cs Hc _ IH]; [reflexivity |].
    cbn [Monitor.loop List.length repeat List.concat].
    rewrite (proj1 (frame_of_lost_runtime c Hc)), (proj1 Hc), IH. reflexivity.
  - assert (El : exists l,
               MonitorFree.generate_display py_str json_loads runtime_idle = Ok l)
      by (eexists; reflexivity).
    destruct El as [l El]. exists l. split; [exact El |].
    induction Hlost as [| c cs Hc _ IH]; [reflexivity |].
    cbn [MonitorFree.loop List.length repeat].
    rewrite (proj2 (frame_of_lost_runtime c Hc)), El, (proj1 Hc), IH. reflexivity.
Qed.

End DockerLost.

Lemma docker_lost_after_startup_witness :
  Monitor.main no_str no_json world_losing_docker
  = (List.concat (repeat (empty_frame no_str)
                    (List.length (cycles world_losing_docker))), Running)
  /\ exists l,
       MonitorFree.generate_display no_str no_json runtime_idle = Ok l
       /\ MonitorFree.main no_str no_json world_losing_docker
          = (repeat (MonitorFree.Display l)
               (List.length (cycles world_losing_docker)), Running).
Proof.
  apply (docker_lost_after_startup no_str no_json world_losing_docker).
  - eexists; reflexivity.
  - repeat constructor; intros cmd [v Hv]; discriminate.
Defined.
